(** * Webcam gesture controllers: pointer, zone typing and virtual keyboard

    A shallow embedding of the per-frame gesture state machines of
    [webcam_controller.py], [webcam_keyboard.py] and
    [webcam_virtual_keyboard.py], with the properties the specification
    states about them.

    Conventions of the model.
    - Clock readings ([time.time()]) and pixel distances are Python floats.
      They are modelled as rationals ([Q]) with exact arithmetic; every
      comparison of the source is kept as written ([<], [<=], [>], [>=]).
    - [pyautogui] is the input sink.  A frame carries an oracle telling, for
      each call the code may issue, whether it succeeds, raises
      [pyautogui.FailSafeException], or raises some other exception.
    - A method that can let an exception escape returns a [result]: the
      object's state at the point of return or raise, and the sink calls it
      issued. *)

From Stdlib Require Import QArith Qround Lqa Bool List String Ascii ZArith Lia.
Import ListNotations.

Open Scope Q_scope.

(** ** Float comparisons on rationals *)

Definition Qle_b (x y : Q) : bool := Qle_bool x y.
Definition Qlt_b (x y : Q) : bool := negb (Qle_bool y x).
Definition Qge_b (x y : Q) : bool := Qle_b y x.
Definition Qgt_b (x y : Q) : bool := Qlt_b y x.

(** ** The input sink *)

(** The [pyautogui] calls the three controllers issue. *)
Inductive sink_call : Type :=
| MoveTo (x y : Z)
| MouseDown
| MouseUp
| Click
| RightClick
| Press (key : string)
| Typewrite (text : string)
| Hotkey (modifier key : string).

(** What a sink call does: return, raise [pyautogui.FailSafeException], or
    raise any other [Exception]. *)
Inductive outcome : Type := Ok | FailSafe | Failure.

Definition sink : Type := sink_call -> outcome.

(** A sink all of whose calls return. *)
Definition reliable : sink := fun _ => Ok.

(** No call of the sink raises anything but [FailSafeException]. *)
Definition failsafe_only (k : sink) : Prop := forall c, k c <> Failure.

(** A sink whose [click] raises an exception other than
    [FailSafeException]. *)
Definition click_breaks : sink :=
  fun c => match c with Click => Failure | _ => Ok end.

(** A sink whose every call raises [FailSafeException]. *)
Definition always_failsafe : sink := fun _ => FailSafe.

(** ** Bounded histories ([collections.deque] with [maxlen]) *)

Definition deque_append {A : Type} (maxlen : nat) (x : A) (d : list A) : list A :=
  let d' := d ++ [x] in skipn (List.length d' - maxlen) d'.

(** [list(d)[-n:]] *)
Definition last_n {A : Type} (n : nat) (l : list A) : list A :=
  skipn (List.length l - n) l.

(** ** Python string operations, on ASCII text

    Every label, action name and typed character of the three programs is
    ASCII; [str.isalpha], [str.isdigit], [str.upper] and [str.lower] are
    modelled on that range. *)

Definition is_lower_ascii (c : ascii) : bool :=
  let n := nat_of_ascii c in ((97 <=? n) && (n <=? 122))%nat.

Definition is_upper_ascii (c : ascii) : bool :=
  let n := nat_of_ascii c in ((65 <=? n) && (n <=? 90))%nat.

Definition is_alpha_ascii (c : ascii) : bool := is_lower_ascii c || is_upper_ascii c.

Definition is_digit_ascii (c : ascii) : bool :=
  let n := nat_of_ascii c in ((48 <=? n) && (n <=? 57))%nat.

Definition upper_ascii (c : ascii) : ascii :=
  if is_lower_ascii c then ascii_of_nat (nat_of_ascii c - 32) else c.

Definition lower_ascii (c : ascii) : ascii :=
  if is_upper_ascii c then ascii_of_nat (nat_of_ascii c + 32) else c.

Fixpoint str_map (f : ascii -> ascii) (s : string) : string :=
  match s with
  | EmptyString => EmptyString
  | String c r => String (f c) (str_map f r)
  end.

Fixpoint str_forall (p : ascii -> bool) (s : string) : bool :=
  match s with
  | EmptyString => true
  | String c r => p c && str_forall p r
  end.

(** A string is truthy when it is not empty. *)
Definition nonempty (s : string) : bool :=
  match s with EmptyString => false | String _ _ => true end.

(** [s.upper()] and [s.lower()] *)
Definition str_upper (s : string) : string := str_map upper_ascii s.
Definition str_lower (s : string) : string := str_map lower_ascii s.

(** [s.isalpha()] and [s.isdigit()]: false on the empty string. *)
Definition str_isalpha (s : string) : bool := nonempty s && str_forall is_alpha_ascii s.
Definition str_isdigit (s : string) : bool := nonempty s && str_forall is_digit_ascii s.

(** [x in l] for a list of strings. *)
Definition str_in (x : string) (l : list string) : bool := existsb (String.eqb x) l.

(** [s[:-1]] *)
Fixpoint drop_last (s : string) : string :=
  match s with
  | EmptyString => EmptyString
  | String c EmptyString => EmptyString
  | String c r => String c (drop_last r)
  end.

(** [s[-n:]]; with [n = 0] the slice [s[-0:]] is the whole string. *)
Definition str_last (n : nat) (s : string) : string :=
  if (n =? 0)%nat then s
  else substring (String.length s - n) n s.

(** [s[1:]] *)
Definition str_tail (s : string) : string :=
  match s with EmptyString => EmptyString | String _ r => r end.

(** [s.startswith(c)] for a one-character prefix. *)
Definition starts_with (c : ascii) (s : string) : bool :=
  match s with EmptyString => false | String d _ => Ascii.eqb c d end.

Definition backslash : ascii := "092"%char.
Definition double_quote : ascii := "034"%char.

(** A one-character string. *)
Definition str1 (c : ascii) : string := String c EmptyString.

(** [l.index(x)], [None] for [ValueError]. *)
Fixpoint index_of (x : string) (l : list string) : option nat :=
  match l with
  | [] => None
  | y :: r => if String.eqb x y then Some 0%nat else option_map S (index_of x r)
  end.

(** Dictionary look-up in an association list. *)
Fixpoint assoc {K V : Type} (eqb : K -> K -> bool) (k : K) (d : list (K * V)) : option V :=
  match d with
  | [] => None
  | (k', v) :: r => if eqb k k' then Some v else assoc eqb k r
  end.

(** [set(l)] as the list of the distinct elements of [l]. *)
Fixpoint distinct {A : Type} (eqb : A -> A -> bool) (l : list A) : list A :=
  match l with
  | [] => []
  | x :: r => x :: filter (fun y => negb (eqb x y)) (distinct eqb r)
  end.

Definition option_eqb {A : Type} (eqb : A -> A -> bool) (a b : option A) : bool :=
  match a, b with
  | None, None => true
  | Some x, Some y => eqb x y
  | _, _ => false
  end.

(** * Pointer control with click, drag and right-click
    ([webcam_controller.py]) *)
Module Controller.

(** The thresholds [__init__] sets and nothing ever reassigns. *)
Record config : Type := {
  click_debounce : Q;
  drag_hold_threshold : Q;
  click_max_duration : Q;
  right_click_hold_threshold : Q;
  right_click_debounce : Q;
  pinch_on : Q;
  pinch_off : Q;
  right_on : Q;
  right_off : Q;
  history_maxlen : nat
}.

(** The values of [__init__].  The literals stand for their decimal
    values; the doubles Python holds for 0.35, 0.15 and 0.8 differ from
    them by less than 1e-16.  The theorems take the configuration as a
    variable. *)
Definition default : config := {|
  click_debounce := 0.5;
  drag_hold_threshold := 0.35;
  click_max_duration := 0.25;
  right_click_hold_threshold := 0.15;
  right_click_debounce := 0.8;
  pinch_on := 35;
  pinch_off := 45;
  right_on := 35;
  right_off := 45;
  history_maxlen := 5
|}.

(** The mutable attributes of [WebcamController]. *)
Record state : Type := {
  mouse_control_enabled : bool;
  click_enabled : bool;
  drag_mode : bool;
  last_click_time : Q;
  pinch_active : bool;
  pinch_started_at : Q;
  right_pinch_active : bool;
  right_pinch_started_at : Q;
  last_right_click_time : Q;
  cursor_history : list (Z * Z)
}.

(** The state [__init__] builds. *)
Definition init : state := {|
  mouse_control_enabled := true;
  click_enabled := true;
  drag_mode := false;
  last_click_time := 0;
  pinch_active := false;
  pinch_started_at := 0;
  right_pinch_active := false;
  right_pinch_started_at := 0;
  last_right_click_time := 0;
  cursor_history := []
|}.

Definition set_drag_mode (b : bool) (s : state) : state :=
  {| mouse_control_enabled := mouse_control_enabled s;
     click_enabled := click_enabled s;
     drag_mode := b;
     last_click_time := last_click_time s;
     pinch_active := pinch_active s;
     pinch_started_at := pinch_started_at s;
     right_pinch_active := right_pinch_active s;
     right_pinch_started_at := right_pinch_started_at s;
     last_right_click_time := last_right_click_time s;
     cursor_history := cursor_history s |}.

Definition set_last_click_time (t : Q) (s : state) : state :=
  {| mouse_control_enabled := mouse_control_enabled s;
     click_enabled := click_enabled s;
     drag_mode := drag_mode s;
     last_click_time := t;
     pinch_active := pinch_active s;
     pinch_started_at := pinch_started_at s;
     right_pinch_active := right_pinch_active s;
     right_pinch_started_at := right_pinch_started_at s;
     last_right_click_time := last_right_click_time s;
     cursor_history := cursor_history s |}.

(** [self.pinch_active = b] *)
Definition set_pinch_active (b : bool) (s : state) : state :=
  {| mouse_control_enabled := mouse_control_enabled s;
     click_enabled := click_enabled s;
     drag_mode := drag_mode s;
     last_click_time := last_click_time s;
     pinch_active := b;
     pinch_started_at := pinch_started_at s;
     right_pinch_active := right_pinch_active s;
     right_pinch_started_at := right_pinch_started_at s;
     last_right_click_time := last_right_click_time s;
     cursor_history := cursor_history s |}.

Definition set_pinch_started_at (t : Q) (s : state) : state :=
  {| mouse_control_enabled := mouse_control_enabled s;
     click_enabled := click_enabled s;
     drag_mode := drag_mode s;
     last_click_time := last_click_time s;
     pinch_active := pinch_active s;
     pinch_started_at := t;
     right_pinch_active := right_pinch_active s;
     right_pinch_started_at := right_pinch_started_at s;
     last_right_click_time := last_right_click_time s;
     cursor_history := cursor_history s |}.

Definition set_right_pinch_active (b : bool) (s : state) : state :=
  {| mouse_control_enabled := mouse_control_enabled s;
     click_enabled := click_enabled s;
     drag_mode := drag_mode s;
     last_click_time := last_click_time s;
     pinch_active := pinch_active s;
     pinch_started_at := pinch_started_at s;
     right_pinch_active := b;
     right_pinch_started_at := right_pinch_started_at s;
     last_right_click_time := last_right_click_time s;
     cursor_history := cursor_history s |}.

Definition set_right_pinch_started_at (t : Q) (s : state) : state :=
  {| mouse_control_enabled := mouse_control_enabled s;
     click_enabled := click_enabled s;
     drag_mode := drag_mode s;
     last_click_time := last_click_time s;
     pinch_active := pinch_active s;
     pinch_started_at := pinch_started_at s;
     right_pinch_active := right_pinch_active s;
     right_pinch_started_at := t;
     last_right_click_time := last_right_click_time s;
     cursor_history := cursor_history s |}.

Definition set_last_right_click_time (t : Q) (s : state) : state :=
  {| mouse_control_enabled := mouse_control_enabled s;
     click_enabled := click_enabled s;
     drag_mode := drag_mode s;
     last_click_time := last_click_time s;
     pinch_active := pinch_active s;
     pinch_started_at := pinch_started_at s;
     right_pinch_active := right_pinch_active s;
     right_pinch_started_at := right_pinch_started_at s;
     last_right_click_time := t;
     cursor_history := cursor_history s |}.

Definition set_cursor_history (h : list (Z * Z)) (s : state) : state :=
  {| mouse_control_enabled := mouse_control_enabled s;
     click_enabled := click_enabled s;
     drag_mode := drag_mode s;
     last_click_time := last_click_time s;
     pinch_active := pinch_active s;
     pinch_started_at := pinch_started_at s;
     right_pinch_active := right_pinch_active s;
     right_pinch_started_at := right_pinch_started_at s;
     last_right_click_time := last_right_click_time s;
     cursor_history := h |}.

(** The dictionary [process_hand_landmarks] returns. *)
Record gesture_data : Type := {
  cursor_pos : Z * Z;
  index_extended : bool;
  thumb_index_distance : Q;
  thumb_middle_distance : Q
}.

(** One call of [handle_mouse_control]: the gesture data, the value
    [time.time()] returns at its first line, and the sink's behaviour. *)
Record frame : Type := {
  f_sink : sink;
  f_data : gesture_data;
  f_time : Q
}.

(** How a method ends: it returns, or an exception escapes it.  Either way
    the object is left in state [s], and [calls] lists the sink calls issued,
    oldest first. *)
Inductive result : Type :=
| Returned (s : state) (calls : list sink_call)
| Raised (s : state) (calls : list sink_call).

Definition state_of (r : result) : state :=
  match r with Returned s _ | Raised s _ => s end.

Definition calls_of (r : result) : list sink_call :=
  match r with Returned _ c | Raised _ c => c end.

Definition returned (r : result) : bool :=
  match r with Returned _ _ => true | Raised _ _ => false end.

(** Sequencing of two statements: the second runs only if the first
    returned. *)
Definition andthen (r : result) (k : state -> result) : result :=
  match r with
  | Returned s c =>
      match k s with
      | Returned s' c' => Returned s' (c ++ c')
      | Raised s' c' => Raised s' (c ++ c')
      end
  | Raised s c => Raised s c
  end.

Notation "r ;; k" := (andthen r k) (at level 61, left associativity).

Definition skip (s : state) : result := Returned s [].

(** [try: <call>; <after> except pyautogui.FailSafeException: pass] *)
Definition try_call (k : sink) (c : sink_call) (after : state -> state)
    (s : state) : result :=
  match k c with
  | Ok => Returned (after s) [c]
  | FailSafe => Returned s [c]
  | Failure => Raised s [c]
  end.

(** ** Cursor smoothing *)

(** Python's [sum]: left to right, starting from 0. *)
Definition Qsum (l : list Q) : Q := fold_left Qplus l 0.

(** [np.linspace(a, b, n)] *)
Definition linspace (a b : Q) (n : nat) : list Q :=
  map (fun i => a + inject_Z (Z.of_nat i) * ((b - a) / inject_Z (Z.of_nat (n - 1))))
      (seq 0 n).

(** [int(x)]: truncation towards zero. *)
Definition Qtrunc (q : Q) : Z := Z.quot (Qnum q) (Z.pos (Qden q)).

Section Step.

Variable cfg : config.

(** [smooth_cursor_position]: appends to the bounded history and returns the
    weighted average of the history, weights rising linearly from 0.1 to 1.0.
    The average is taken here in exact rationals, where numpy takes it in
    doubles: when the exact average is a whole number the rounded sum of
    the code can fall just below it and [int] then gives one less.  The
    properties below use the history and the fact that a call is made,
    never the averaged coordinates. *)
Definition smooth_cursor_position (x y : Z) (s : state) : state * (Z * Z) :=
  let h := deque_append (history_maxlen cfg) (x, y) (cursor_history s) in
  let s' := set_cursor_history h s in
  if (1 <? List.length h)%nat then
    let w := linspace 0.1 1.0 (List.length h) in
    let total := Qsum w in
    let weights := map (fun q => q / total) w in
    let smooth_x :=
      Qsum (map (fun pw => inject_Z (fst (fst pw)) * snd pw) (combine h weights)) in
    let smooth_y :=
      Qsum (map (fun pw => inject_Z (snd (fst pw)) * snd pw) (combine h weights)) in
    (s', (Qtrunc smooth_x, Qtrunc smooth_y))
  else (s', (x, y)).

(** Lines 125-131: move the cursor with the index finger. *)
Definition move_cursor (f : frame) (s : state) : result :=
  let g := f_data f in
  if mouse_control_enabled s && index_extended g then
    let '(s', (smooth_x, smooth_y)) :=
      smooth_cursor_position (fst (cursor_pos g)) (snd (cursor_pos g)) s in
    try_call (f_sink f) (MoveTo smooth_x smooth_y) (fun s => s) s'
  else skip s.

(** Lines 137-175: left-click and drag through the thumb-index pinch. *)
Definition primary_pinch (f : frame) (s : state) : result :=
  let g := f_data f in
  let current_time := f_time f in
  if click_enabled s then
    if pinch_active s then
      if Qgt_b (thumb_index_distance g) (pinch_off cfg) || negb (index_extended g) then
        let duration := current_time - pinch_started_at s in
        (if drag_mode s then
           try_call (f_sink f) MouseUp (fun s => s) s ;;
           (fun s => skip (set_drag_mode false s))
         else
           if Qle_b duration (click_max_duration cfg)
              && Qgt_b (current_time - last_click_time s) (click_debounce cfg)
           then try_call (f_sink f) Click (set_last_click_time current_time) s
           else skip s) ;;
        (fun s => skip (set_pinch_active false s))
      else
        if negb (drag_mode s)
           && Qge_b (current_time - pinch_started_at s) (drag_hold_threshold cfg)
        then
          try_call (f_sink f) MouseDown (fun s => s) s ;;
          (fun s => skip (set_drag_mode true s))
        else skip s
    else
      if index_extended g && Qlt_b (thumb_index_distance g) (pinch_on cfg) then
        skip (set_pinch_started_at current_time (set_pinch_active true s))
      else skip s
  else skip s.

(** Lines 177-195: right-click through the thumb-middle pinch. *)
Definition secondary_pinch (f : frame) (s : state) : result :=
  let g := f_data f in
  let current_time := f_time f in
  if click_enabled s
     && Qgt_b (current_time - last_right_click_time s) (right_click_debounce cfg)
  then
    if right_pinch_active s then
      if Qgt_b (thumb_middle_distance g) (right_off cfg) then
        let duration := current_time - right_pinch_started_at s in
        (if Qge_b duration (right_click_hold_threshold cfg)
            && negb (drag_mode s) && negb (pinch_active s)
         then try_call (f_sink f) RightClick (set_last_right_click_time current_time) s
         else skip s) ;;
        (fun s => skip (set_right_pinch_active false s))
      else skip s
    else
      if negb (pinch_active s) && Qlt_b (thumb_middle_distance g) (right_on cfg) then
        skip (set_right_pinch_started_at current_time (set_right_pinch_active true s))
      else skip s
  else skip s.

Definition handle_mouse_control (f : frame) (s : state) : result :=
  move_cursor f s ;; primary_pinch f ;; secondary_pinch f.

(** The frames with a hand, in order; the loop of [run] ends when an
    exception escapes [handle_mouse_control]. *)
Fixpoint run (fs : list frame) (s : state) : result :=
  match fs with
  | [] => skip s
  | f :: fs' => handle_mouse_control f s ;; run fs'
  end.

(** The states the object goes through: [s], then the state each executed
    frame leaves. *)
Fixpoint visited (fs : list frame) (s : state) : list state :=
  s :: match fs with
       | [] => []
       | f :: fs' =>
           match handle_mouse_control f s with
           | Returned s' _ => visited fs' s'
           | Raised s' _ => [s']
           end
       end.

(** States reachable from [init] by calls of [handle_mouse_control]. *)
Inductive reachable : state -> Prop :=
| reach_init : reachable init
| reach_step (s : state) (f : frame) :
    reachable s -> reachable (state_of (handle_mouse_control f s)).

End Step.

(** Number of consecutive pairs of [l] that [p] accepts. *)
Fixpoint count_edges (p : state -> state -> bool) (l : list state) : nat :=
  match l with
  | a :: (b :: _) as t => (if p a b then 1 else 0) + count_edges p t
  | _ => 0
  end.

(** Arm of the primary channel: [pinch_active] goes from false to true. *)
Definition is_arm (a b : state) : bool := negb (pinch_active a) && pinch_active b.

(** Release of the primary channel: [pinch_active] goes from true to false. *)
Definition is_release (a b : state) : bool := pinch_active a && negb (pinch_active b).

(** Arm of the secondary channel. *)
Definition is_right_arm (a b : state) : bool :=
  negb (right_pinch_active a) && right_pinch_active b.

(** The calls of the primary channel. *)
Definition is_primary_call (c : sink_call) : bool :=
  match c with MouseDown | MouseUp | Click => true | _ => false end.

Definition primary_calls (r : result) : list sink_call :=
  filter is_primary_call (calls_of r).

(** A frame whose sink is reliable. *)
Definition mk_frame (t : Q) (ext : bool) (d_index d_middle : Q) : frame :=
  {| f_sink := reliable;
     f_data := {| cursor_pos := (0, 0)%Z; index_extended := ext;
                  thumb_index_distance := d_index;
                  thumb_middle_distance := d_middle |};
     f_time := t |}.

(** ** Vocabulary of the properties *)

(** The drag flag is only ever set while the pinch flag is. *)
Definition drag_within_pinch (s : state) : Prop :=
  drag_mode s = true -> pinch_active s = true.

(** The three frames of the counterexample to drag/secondary exclusion: the
    thumb touches the middle finger, then the index finger as well, and stays
    there past the drag threshold. *)
Definition both_pinched : list frame :=
  [mk_frame 1.0 true 100 20; mk_frame 1.1 true 20 20; mk_frame 1.5 true 20 20].

(** Frames of a distance series: pointing, with a sink that raises nothing
    but [FailSafeException], and the thumb-index distance above [pinch_off],
    below [pinch_on], or strictly between the two. *)
Definition pointing (f : frame) : Prop :=
  index_extended (f_data f) = true /\ failsafe_only (f_sink f).

Definition above (cfg : config) (f : frame) : Prop :=
  pinch_off cfg < thumb_index_distance (f_data f).

Definition below (cfg : config) (f : frame) : Prop :=
  thumb_index_distance (f_data f) < pinch_on cfg.

Definition in_band (cfg : config) (f : frame) : Prop :=
  pinch_on cfg < thumb_index_distance (f_data f) /\
  thumb_index_distance (f_data f) < pinch_off cfg.

(** Frames on which the distance is not below [pinch_on], and frames on
    which it is not above [pinch_off]: what an idle channel, and an armed
    one, need to stay as they are. *)
Definition not_below (cfg : config) (f : frame) : Prop :=
  pinch_on cfg <= thumb_index_distance (f_data f).

Definition not_above (cfg : config) (f : frame) : Prop :=
  thumb_index_distance (f_data f) <= pinch_off cfg.

(** The channel armed, click control on. *)
Definition armed (s : state) : Prop :=
  click_enabled s = true /\ pinch_active s = true.

(** The channel idle, click control on. *)
Definition idle (s : state) : Prop :=
  click_enabled s = true /\ pinch_active s = false.

(** The attributes the primary channel reads and writes. *)
Definition primary_view (s : state) : bool * bool * Q * bool * Q :=
  (click_enabled s, pinch_active s, pinch_started_at s, drag_mode s, last_click_time s).

(** The hypotheses on one arm cycle starting at the idle state [s]: the
    frame [arm] arms the channel, the frames [held] keep it armed, the frame
    [rel] releases it; click control is on and no sink call raises anything
    but [FailSafeException]. *)
Record arm_cycle (cfg : config) (s : state) (arm : frame) (held : list frame)
    (rel : frame) : Prop := {
  cycle_click_enabled : click_enabled s = true;
  cycle_idle : pinch_active s = false;
  cycle_no_drag : drag_mode s = false;
  cycle_sinks : Forall (fun f => failsafe_only (f_sink f)) (arm :: held ++ [rel]);
  cycle_arm :
    index_extended (f_data arm) = true /\
    thumb_index_distance (f_data arm) < pinch_on cfg;
  cycle_held :
    Forall (fun f => index_extended (f_data f) = true /\
                     thumb_index_distance (f_data f) <= pinch_off cfg) held;
  cycle_release :
    pinch_off cfg < thumb_index_distance (f_data rel) \/
    index_extended (f_data rel) = false
}.

(** Some held frame of the cycle came at least [drag_hold_threshold] after
    the arm. *)
Definition held_past_threshold (cfg : config) (arm : frame) (held : list frame) : bool :=
  existsb (fun f => Qge_b (f_time f - f_time arm) (drag_hold_threshold cfg)) held.

(** The channel armed at [t0], dragging or not according to [b]. *)
Definition armed_since (t0 : Q) (b : bool) (s : state) : Prop :=
  click_enabled s = true /\ pinch_active s = true /\
  pinch_started_at s = t0 /\ drag_mode s = b.

(** The three frames of the counterexample to drag exclusivity: the pinch
    closes at 1.0 s, is still closed at 1.3 s, and the frame at 1.4 s shows
    it open. *)
Definition late_release : list frame :=
  [mk_frame 1.0 true 20 100; mk_frame 1.3 true 30 100; mk_frame 1.4 true 50 100].

(** The frame [f] with its sink replaced. *)
Definition with_sink (k : sink) (f : frame) : frame :=
  {| f_sink := k; f_data := f_data f; f_time := f_time f |}.

(** The state without its records of fired events. *)
Definition forget_fired (s : state) : state :=
  set_last_click_time 0 (set_last_right_click_time 0 s).

(** The pointer controller right after a pinch armed at 1.0 s. *)
Definition pinched : state :=
  state_of
    (handle_mouse_control default
       (mk_frame 1.0 true 20 100) init).

(** The frame that releases the pinch 0.1 s later, with [click] failing. *)
Definition release_with_failing_click : frame :=
  with_sink click_breaks (mk_frame 1.1 true 50 100).

(** ** The loop of [run], recalibration and [cleanup] *)

(** The key [cv2.waitKey] reports to the loop of [run]. *)
Inductive key_press : Type := NoKey | KeyQ | KeyM | KeyC | KeySpace.

(** One iteration of the loop of [run]: whether the camera delivered a
    frame, the gesture data of the first detected hand (if any) with the
    clock reading [handle_mouse_control] takes, the key pressed, and the
    sink's behaviour during the iteration. *)
Record tick : Type := {
  t_ok : bool;
  t_hand : option (gesture_data * Q);
  t_key : key_press;
  t_sink : sink
}.

(** How an iteration leaves the loop: it goes on, a [break] ends it, or an
    exception reaches the handler [except Exception] of [run], which ends
    it. *)
Inductive status : Type := Running | Stopped | Crashed.

Record loop_result : Type := {
  l_status : status;
  l_state : state;
  l_calls : list sink_call
}.

(** Lines 290-298: the space key.  The history is cleared, a drag in
    progress is released by an unguarded [mouseUp], and both pinch flags are
    dropped. *)
Definition recalibrate (k : sink) (s : state) : loop_result :=
  let s := set_cursor_history [] s in
  if drag_mode s then
    match k MouseUp with
    | Ok =>
        {| l_status := Running;
           l_state := set_right_pinch_active false
                        (set_pinch_active false (set_drag_mode false s));
           l_calls := [MouseUp] |}
    | FailSafe | Failure =>
        {| l_status := Crashed; l_state := s; l_calls := [MouseUp] |}
    end
  else
    {| l_status := Running;
       l_state := set_right_pinch_active false (set_pinch_active false s);
       l_calls := [] |}.

(** Lines 280-298: the keys. *)
Definition handle_key (t : tick) (s : state) : loop_result :=
  match t_key t with
  | KeyQ => {| l_status := Stopped; l_state := s; l_calls := [] |}
  | KeyM =>
      {| l_status := Running;
         l_state :=
           {| mouse_control_enabled := negb (mouse_control_enabled s);
              click_enabled := click_enabled s;
              drag_mode := drag_mode s;
              last_click_time := last_click_time s;
              pinch_active := pinch_active s;
              pinch_started_at := pinch_started_at s;
              right_pinch_active := right_pinch_active s;
              right_pinch_started_at := right_pinch_started_at s;
              last_right_click_time := last_right_click_time s;
              cursor_history := cursor_history s |};
         l_calls := [] |}
  | KeyC =>
      {| l_status := Running;
         l_state :=
           {| mouse_control_enabled := mouse_control_enabled s;
              click_enabled := negb (click_enabled s);
              drag_mode := drag_mode s;
              last_click_time := last_click_time s;
              pinch_active := pinch_active s;
              pinch_started_at := pinch_started_at s;
              right_pinch_active := right_pinch_active s;
              right_pinch_started_at := right_pinch_started_at s;
              last_right_click_time := last_right_click_time s;
              cursor_history := cursor_history s |};
         l_calls := [] |}
  | KeySpace => recalibrate (t_sink t) s
  | NoKey => {| l_status := Running; l_state := s; l_calls := [] |}
  end.

(** The frame [handle_mouse_control] sees in an iteration with a hand. *)
Definition frame_of (t : tick) (g : gesture_data) (now : Q) : frame :=
  {| f_sink := t_sink t; f_data := g; f_time := now |}.

(** Lines 245-298: the body of the loop of [run]. *)
Definition iteration (cfg : config) (t : tick) (s : state) : loop_result :=
  if negb (t_ok t) then {| l_status := Stopped; l_state := s; l_calls := [] |}
  else
    let r :=
      match t_hand t with
      | Some (g, now) => handle_mouse_control cfg (frame_of t g now) s
      | None => skip s
      end in
    match r with
    | Raised s' calls => {| l_status := Crashed; l_state := s'; l_calls := calls |}
    | Returned s' calls =>
        let r' := handle_key t s' in
        {| l_status := l_status r';
           l_state := l_state r';
           l_calls := calls ++ l_calls r' |}
    end.

(** The loop of [run] over the iterations; the end of the list stands for
    an interrupt between two iterations. *)
Fixpoint loop (cfg : config) (ts : list tick) (s : state) : loop_result :=
  match ts with
  | [] => {| l_status := Running; l_state := s; l_calls := [] |}
  | t :: ts' =>
      let r := iteration cfg t s in
      match l_status r with
      | Running =>
          let r' := loop cfg ts' (l_state r) in
          {| l_status := l_status r';
             l_state := l_state r';
             l_calls := l_calls r ++ l_calls r' |}
      | _ => r
      end
  end.

(** [cleanup]: a drag in progress is released; whatever [mouseUp] raises
    is swallowed. *)
Definition cleanup (s : state) : list sink_call :=
  if drag_mode s then [MouseUp] else [].

(** The sink calls of a whole execution of [run]: the loop, then [cleanup]
    in the [finally] clause. *)
Definition program_calls (cfg : config) (ts : list tick) (s : state) : list sink_call :=
  let r := loop cfg ts s in
  l_calls r ++ cleanup (l_state r).

(** The mouse button as a sequence of calls drives it: [Some held] after
    the calls, or [None] if the button was pressed while held or released
    while up. *)
Fixpoint button_after (held : bool) (calls : list sink_call) : option bool :=
  match calls with
  | [] => Some held
  | MouseDown :: rest => if held then None else button_after true rest
  | MouseUp :: rest => if held then button_after false rest else None
  | _ :: rest => button_after held rest
  end.

(** Every call of the sink returns during the iteration. *)
Definition obedient (t : tick) : Prop := forall c, t_sink t c = Ok.

(** An iteration with a pointing hand, pinch distances [d_index] and
    [d_middle], at clock reading [now]; reliable sink. *)
Definition mk_tick (now : Q) (d_index d_middle : Q) (k : key_press) : tick :=
  {| t_ok := true;
     t_hand := Some ({| cursor_pos := (0, 0)%Z; index_extended := true;
                        thumb_index_distance := d_index;
                        thumb_middle_distance := d_middle |}, now);
     t_key := k;
     t_sink := reliable |}.

Definition is_click (c : sink_call) : bool :=
  match c with Click => true | _ => false end.

Definition is_right_click (c : sink_call) : bool :=
  match c with RightClick => true | _ => false end.

Definition returns (o : outcome) : bool :=
  match o with Ok => true | FailSafe | Failure => false end.

(** [click] was issued by the frame and returned. *)
Definition clicked (cfg : config) (f : frame) (s : state) : bool :=
  existsb is_click (calls_of (handle_mouse_control cfg f s))
  && returns (f_sink f Click).

(** [rightClick] was issued by the frame and returned. *)
Definition right_clicked (cfg : config) (f : frame) (s : state) : bool :=
  existsb is_right_click (calls_of (handle_mouse_control cfg f s))
  && returns (f_sink f RightClick).

(** The clock readings of the frames of a run that [fired] accepts. *)
Fixpoint firing_times (cfg : config) (fired : config -> frame -> state -> bool)
    (fs : list frame) (s : state) : list Q :=
  match fs with
  | [] => []
  | f :: fs' =>
      (if fired cfg f s then [f_time f] else [])
      ++ match handle_mouse_control cfg f s with
         | Returned s' _ => firing_times cfg fired fs' s'
         | Raised _ _ => []
         end
  end.

(** The frame after the cursor move: the two pinch channels in turn. *)
Definition pinches (cfg : config) (f : frame) (s : state) : result :=
  primary_pinch cfg f s ;; secondary_pinch cfg f.

(** Each entry of [ts] is more than [gap] after the one before it, the
    first more than [gap] after [t]. *)
Fixpoint apart (gap t : Q) (ts : list Q) : Prop :=
  match ts with
  | [] => True
  | x :: rest => gap < x - t /\ apart gap x rest
  end.

(** A pinch held into a drag and interrupted by the quit key. *)
Definition interrupted_drag : list tick :=
  [mk_tick 1.0 20 100 NoKey; mk_tick 1.4 20 100 NoKey; mk_tick 1.5 20 100 KeyQ].

(** The state in the middle of a drag, click control switched off. *)
Definition dragging_switched_off : state :=
  l_state (loop default [mk_tick 1.0 20 100 NoKey; mk_tick 1.4 20 100 KeyC] init).

(** The history holds at most [history_maxlen] samples. *)
Definition bounded (cfg : config) (s : state) : Prop :=
  (List.length (cursor_history s) <= history_maxlen cfg)%nat.

End Controller.

(** * Typing by finger count and zone ([webcam_keyboard.py]) *)
Module Keyboard.

Record config : Type := {
  gesture_debounce : Q;
  required_confirmation : nat
}.

Definition default : config := {|
  gesture_debounce := 1.0;
  required_confirmation := 8
|}.

(** [self.modes] *)
Definition modes : list string := ["LETTERS"; "NUMBERS"; "SYMBOLS"; "ACTIONS"]%string.

(** [self.character_maps], as [setup_character_mapping] builds it. *)
Definition character_maps : list (string * list (nat * list string)) :=
  [ ("LETTERS",
     [ (1%nat, ["a"; "b"; "c"; "d"; "e"; "f"; "g"; "h"; "i"]);
       (2%nat, ["j"; "k"; "l"; "m"; "n"; "o"; "p"; "q"; "r"]);
       (3%nat, ["s"; "t"; "u"; "v"; "w"; "x"; "y"; "z"; "."]);
       (4%nat, ["A"; "B"; "C"; "D"; "E"; "F"; "G"; "H"; "I"]);
       (5%nat, ["J"; "K"; "L"; "M"; "N"; "O"; "P"; "Q"; "R"]) ]);
    ("NUMBERS",
     [ (1%nat, ["1"; "2"; "3"; "4"; "5"; "6"; "7"; "8"; "9"]);
       (2%nat, ["0"; "+"; "-"; "*"; "/"; "="; "("; ")"; "%"]);
       (3%nat, ["!"; "@"; "#"; "$"; "&"; "?"; ","; ";"; ":"]);
       (4%nat, ["<"; ">"; "["; "]"; "{"; "}"; "|"; str1 backslash; str1 double_quote]);
       (5%nat, ["~"; "`"; "^"; "_"; "'"; "."; ","; "!"; "?"]) ]);
    ("ACTIONS",
     [ (1%nat, ["ENTER"; "TAB"; "ESC"; "DELETE"; "HOME"; "END"; "UP"; "DOWN"; "LEFT"]);
       (2%nat, ["RIGHT"; "PGUP"; "PGDN"; "F1"; "F2"; "F3"; "F4"; "F5"; "F6"]);
       (3%nat, ["F7"; "F8"; "F9"; "F10"; "F11"; "F12"; "CTRL"; "ALT"; "SHIFT"]);
       (4%nat, ["COPY"; "PASTE"; "CUT"; "UNDO"; "REDO"; "SAVE"; "FIND"; "REPLACE"; "SELECT"]);
       (5%nat, ["CAPS"; "NUM"; "SCROLL"; "PAUSE"; "PRINT"; "INSERT"; "MENU"; "WIN"; "CMD"]) ])
  ]%string.

(** The list [get_zone_index] searches. *)
Definition zone_names : list string :=
  ["top_left"; "top_center"; "top_right";
   "mid_left"; "mid_center"; "mid_right";
   "bot_left"; "bot_center"; "bot_right"]%string.

(** The mutable attributes of [WebcamKeyboard]. *)
Record state : Type := {
  typing_enabled : bool;
  current_text : string;
  last_gesture_time : Q;
  finger_count_history : list nat;
  last_finger_count : nat;
  gesture_confirmed : bool;
  confirmation_frames : nat;
  current_zone : option string;
  zone_history : list (option string);
  current_mode : string;
  mode_index : nat
}.

(** The state [__init__] builds. *)
Definition init : state := {|
  typing_enabled := true;
  current_text := EmptyString;
  last_gesture_time := 0;
  finger_count_history := [];
  last_finger_count := 0;
  gesture_confirmed := false;
  confirmation_frames := 0;
  current_zone := None;
  zone_history := [];
  current_mode := "LETTERS";
  mode_index := 0
|}.

Definition set_typing_enabled (v : bool) (s : state) : state :=
  {| typing_enabled := v;
     current_text := current_text s;
     last_gesture_time := last_gesture_time s;
     finger_count_history := finger_count_history s;
     last_finger_count := last_finger_count s;
     gesture_confirmed := gesture_confirmed s;
     confirmation_frames := confirmation_frames s;
     current_zone := current_zone s;
     zone_history := zone_history s;
     current_mode := current_mode s;
     mode_index := mode_index s |}.

Definition set_current_text (v : string) (s : state) : state :=
  {| typing_enabled := typing_enabled s;
     current_text := v;
     last_gesture_time := last_gesture_time s;
     finger_count_history := finger_count_history s;
     last_finger_count := last_finger_count s;
     gesture_confirmed := gesture_confirmed s;
     confirmation_frames := confirmation_frames s;
     current_zone := current_zone s;
     zone_history := zone_history s;
     current_mode := current_mode s;
     mode_index := mode_index s |}.

Definition set_last_gesture_time (v : Q) (s : state) : state :=
  {| typing_enabled := typing_enabled s;
     current_text := current_text s;
     last_gesture_time := v;
     finger_count_history := finger_count_history s;
     last_finger_count := last_finger_count s;
     gesture_confirmed := gesture_confirmed s;
     confirmation_frames := confirmation_frames s;
     current_zone := current_zone s;
     zone_history := zone_history s;
     current_mode := current_mode s;
     mode_index := mode_index s |}.

Definition set_finger_count_history (v : list nat) (s : state) : state :=
  {| typing_enabled := typing_enabled s;
     current_text := current_text s;
     last_gesture_time := last_gesture_time s;
     finger_count_history := v;
     last_finger_count := last_finger_count s;
     gesture_confirmed := gesture_confirmed s;
     confirmation_frames := confirmation_frames s;
     current_zone := current_zone s;
     zone_history := zone_history s;
     current_mode := current_mode s;
     mode_index := mode_index s |}.

Definition set_last_finger_count (v : nat) (s : state) : state :=
  {| typing_enabled := typing_enabled s;
     current_text := current_text s;
     last_gesture_time := last_gesture_time s;
     finger_count_history := finger_count_history s;
     last_finger_count := v;
     gesture_confirmed := gesture_confirmed s;
     confirmation_frames := confirmation_frames s;
     current_zone := current_zone s;
     zone_history := zone_history s;
     current_mode := current_mode s;
     mode_index := mode_index s |}.

Definition set_gesture_confirmed (v : bool) (s : state) : state :=
  {| typing_enabled := typing_enabled s;
     current_text := current_text s;
     last_gesture_time := last_gesture_time s;
     finger_count_history := finger_count_history s;
     last_finger_count := last_finger_count s;
     gesture_confirmed := v;
     confirmation_frames := confirmation_frames s;
     current_zone := current_zone s;
     zone_history := zone_history s;
     current_mode := current_mode s;
     mode_index := mode_index s |}.

Definition set_confirmation_frames (v : nat) (s : state) : state :=
  {| typing_enabled := typing_enabled s;
     current_text := current_text s;
     last_gesture_time := last_gesture_time s;
     finger_count_history := finger_count_history s;
     last_finger_count := last_finger_count s;
     gesture_confirmed := gesture_confirmed s;
     confirmation_frames := v;
     current_zone := current_zone s;
     zone_history := zone_history s;
     current_mode := current_mode s;
     mode_index := mode_index s |}.

Definition set_current_zone (v : option string) (s : state) : state :=
  {| typing_enabled := typing_enabled s;
     current_text := current_text s;
     last_gesture_time := last_gesture_time s;
     finger_count_history := finger_count_history s;
     last_finger_count := last_finger_count s;
     gesture_confirmed := gesture_confirmed s;
     confirmation_frames := confirmation_frames s;
     current_zone := v;
     zone_history := zone_history s;
     current_mode := current_mode s;
     mode_index := mode_index s |}.

Definition set_zone_history (v : list (option string)) (s : state) : state :=
  {| typing_enabled := typing_enabled s;
     current_text := current_text s;
     last_gesture_time := last_gesture_time s;
     finger_count_history := finger_count_history s;
     last_finger_count := last_finger_count s;
     gesture_confirmed := gesture_confirmed s;
     confirmation_frames := confirmation_frames s;
     current_zone := current_zone s;
     zone_history := v;
     current_mode := current_mode s;
     mode_index := mode_index s |}.

Definition set_current_mode (v : string) (s : state) : state :=
  {| typing_enabled := typing_enabled s;
     current_text := current_text s;
     last_gesture_time := last_gesture_time s;
     finger_count_history := finger_count_history s;
     last_finger_count := last_finger_count s;
     gesture_confirmed := gesture_confirmed s;
     confirmation_frames := confirmation_frames s;
     current_zone := current_zone s;
     zone_history := zone_history s;
     current_mode := v;
     mode_index := mode_index s |}.

Definition set_mode_index (v : nat) (s : state) : state :=
  {| typing_enabled := typing_enabled s;
     current_text := current_text s;
     last_gesture_time := last_gesture_time s;
     finger_count_history := finger_count_history s;
     last_finger_count := last_finger_count s;
     gesture_confirmed := gesture_confirmed s;
     confirmation_frames := confirmation_frames s;
     current_zone := current_zone s;
     zone_history := zone_history s;
     current_mode := current_mode s;
     mode_index := v |}.

(** [get_zone_index]: position of the zone in [zone_names], 0 on
    [ValueError]. *)
Definition get_zone_index (zone_name : string) : nat :=
  match index_of zone_name zone_names with
  | Some i => i
  | None => 0%nat
  end.

(** What [process_gesture] does: it returns an action or [None], or the
    look-up of the mode in [character_maps] raises [KeyError]. *)
Inductive gesture_result : Type :=
| Action (a : option string)
| KeyError (key : string).

(** A zone is truthy when it is neither [None] nor empty. *)
Definition zone_given (zone : option string) : bool :=
  match zone with Some z => nonempty z | None => false end.

Definition zone_in (zone : option string) (l : list string) : bool :=
  match zone with Some z => str_in z l | None => false end.

Section Step.

Variable cfg : config.

(** [process_gesture]; [current_time] is what [time.time()] returns in it. *)
Definition process_gesture (s : state) (current_time : Q)
    (finger_count : nat) (zone : option string) : gesture_result :=
  if Qlt_b (current_time - last_gesture_time s) (gesture_debounce cfg) then Action None
  else if negb (zone_given zone) then Action None
  else if (finger_count =? 0)%nat then Action (Some " "%string)
  else if (finger_count =? 5)%nat
          && zone_in zone ["top_left"; "top_center"; "top_right"]%string
  then Action (Some "BACKSPACE"%string)
  else
    match assoc String.eqb (current_mode s) character_maps with
    | None => KeyError (current_mode s)
    | Some table =>
        match assoc Nat.eqb finger_count table with
        | Some char_list =>
            let zone_index :=
              get_zone_index (match zone with Some z => z | None => EmptyString end) in
            if (zone_index <? List.length char_list)%nat
            then Action (nth_error char_list zone_index)
            else Action None
        | None => Action None
        end
    end.

(** One guarded sink call of [execute_action]: [after] is what follows the
    call inside the [try] block and is skipped when the call raises; the
    handler [except Exception] catches every failure. *)
Definition attempt (k : sink) (c : sink_call) (after : state -> state)
    (s : state) : state * list sink_call :=
  match k c with
  | Ok => (after s, [c])
  | FailSafe | Failure => (s, [c])
  end.

Definition append_text (t : string) (s : state) : state :=
  set_current_text (current_text s ++ t)%string s.

(** [execute_action] *)
Definition execute_action (k : sink) (action : string) (s : state)
    : state * list sink_call :=
  if String.eqb action " " then
    attempt k (Press "space") (append_text " ") s
  else if String.eqb action "BACKSPACE" then
    attempt k (Press "backspace")
      (fun s => if nonempty (current_text s)
                then set_current_text (drop_last (current_text s)) s else s) s
  else if String.eqb action "ENTER" then
    attempt k (Press "enter") (append_text (String backslash "n")) s
  else if String.eqb action "TAB" then
    attempt k (Press "tab") (append_text (String backslash "t")) s
  else if str_in action ["UP"; "DOWN"; "LEFT"; "RIGHT"]%string then
    attempt k (Press (str_lower action)) (fun s => s) s
  else if str_in action ["CTRL"; "ALT"; "SHIFT"]%string then (s, [])
  else if String.eqb action "COPY" then attempt k (Hotkey "ctrl" "c") (fun s => s) s
  else if String.eqb action "PASTE" then attempt k (Hotkey "ctrl" "v") (fun s => s) s
  else if String.eqb action "CUT" then attempt k (Hotkey "ctrl" "x") (fun s => s) s
  else if String.eqb action "UNDO" then attempt k (Hotkey "ctrl" "z") (fun s => s) s
  else if String.eqb action "SAVE" then attempt k (Hotkey "ctrl" "s") (fun s => s) s
  else if (String.length action =? 1)%nat then
    attempt k (Typewrite action) (append_text action) s
  else if starts_with "F" action && str_isdigit (str_tail action) then
    attempt k (Press (str_lower action)) (fun s => s) s
  else (s, []).

(** [change_mode] *)
Definition change_mode (s : state) : state :=
  let i := ((mode_index s + 1) mod List.length modes)%nat in
  set_current_mode (nth i modes EmptyString) (set_mode_index i s).

(** One detected hand, as the loop reads it: [count_fingers] and
    [get_hand_zone] of its landmarks. *)
Record hand : Type := {
  h_fingers : nat;
  h_zone : option string
}.

(** The key [cv2.waitKey] reports. *)
Inductive key_press : Type := NoKey | KeyQ | KeyT | KeyC | KeyM.

(** One iteration of the loop of [run]: the detected hands (none when
    [results.multi_hand_landmarks] is falsy), the key pressed, the sink's
    behaviour, and the successive readings of [time.time()]: in
    [process_gesture], after [execute_action], in the mode-change test and
    after [change_mode]. *)
Record frame : Type := {
  f_sink : sink;
  f_hands : list hand;
  f_key : key_press;
  t_gesture : Q;
  t_action : Q;
  t_mode : Q;
  t_mode_set : Q
}.

(** What an iteration shows: sink calls, and the lines [Action: ...] and
    [Mode changed to: ...] it prints. *)
Inductive event : Type :=
| Sink (c : sink_call)
| ActionDone (action : string)
| ModeChanged (mode : string).

(** How an iteration ends: the loop goes on, [q] breaks it, or an exception
    reaches the handler of [run], which ends it. *)
Inductive status : Type := Running | Quit | Crashed.

Record result : Type := {
  r_status : status;
  r_state : state;
  r_events : list event
}.

(** Lines 341-348: both hands show five fingers. *)
Definition both_hands_open (hands : list hand) : bool :=
  (List.length hands =? 2)%nat && forallb (fun h => (h_fingers h =? 5)%nat) hands.

(** [len(set(l)) == 1] *)
Definition all_same {A : Type} (eqb : A -> A -> bool) (l : list A) : bool :=
  (List.length (distinct eqb l) =? 1)%nat.

(** Lines 380-386: the confirmed gesture is turned into an action. *)
Definition type_gesture (f : frame) (finger_count : nat) (zone : option string)
    (s : state) : result :=
  if typing_enabled s && negb (both_hands_open (f_hands f)) then
    match process_gesture s (t_gesture f) finger_count zone with
    | KeyError _ => {| r_status := Crashed; r_state := s; r_events := [] |}
    | Action (Some action) =>
        if nonempty action then
          let '(s', calls) := execute_action (f_sink f) action s in
          {| r_status := Running;
             r_state := set_last_gesture_time (t_action f) s';
             r_events := map Sink calls ++ [ActionDone action] |}
        else {| r_status := Running; r_state := s; r_events := [] |}
    | Action None => {| r_status := Running; r_state := s; r_events := [] |}
    end
  else {| r_status := Running; r_state := s; r_events := [] |}.

(** Lines 337-396: tracking and confirmation of the primary hand's gesture. *)
Definition track_hands (f : frame) (s : state) : result :=
  match f_hands f with
  | primary_hand :: _ =>
      let finger_count := h_fingers primary_hand in
      let zone := h_zone primary_hand in
      let s := set_finger_count_history
                 (deque_append 5 finger_count (finger_count_history s)) s in
      let s := set_zone_history (deque_append 5 zone (zone_history s)) s in
      let s := set_current_zone zone s in
      if (3 <=? List.length (finger_count_history s))%nat then
        let recent_counts := last_n 3 (finger_count_history s) in
        let recent_zones := last_n 3 (zone_history s) in
        if all_same Nat.eqb recent_counts
           && all_same (option_eqb String.eqb) recent_zones
        then
          if negb (gesture_confirmed s) then
            let s := set_confirmation_frames (confirmation_frames s + 1) s in
            if (required_confirmation cfg <=? confirmation_frames s)%nat then
              let s := set_gesture_confirmed true s in
              let s := set_last_finger_count finger_count s in
              type_gesture f finger_count zone s
            else {| r_status := Running; r_state := s; r_events := [] |}
          else {| r_status := Running; r_state := s; r_events := [] |}
        else
          let s := set_gesture_confirmed false s in
          let s := set_confirmation_frames 0 s in
          let s := set_last_finger_count finger_count s in
          {| r_status := Running; r_state := s; r_events := [] |}
      else {| r_status := Running; r_state := s; r_events := [] |}
  | [] =>
      let s := set_current_zone None s in
      let s := set_gesture_confirmed false s in
      let s := set_confirmation_frames 0 s in
      {| r_status := Running; r_state := s; r_events := [] |}
  end.

(** Lines 398-401: the two-hands-open gesture changes the mode once the
    cooldown of 2.0 s since [last_gesture_time] has passed. *)
Definition handle_mode_change (f : frame) (s : state) : result :=
  if both_hands_open (f_hands f) && Qgt_b (t_mode f - last_gesture_time s) 2.0 then
    let s := change_mode s in
    {| r_status := Running;
       r_state := set_last_gesture_time (t_mode_set f) s;
       r_events := [ModeChanged (current_mode s)] |}
  else {| r_status := Running; r_state := s; r_events := [] |}.

(** Lines 409-420: the keys. *)
Definition handle_key (f : frame) (s : state) : result :=
  match f_key f with
  | KeyQ => {| r_status := Quit; r_state := s; r_events := [] |}
  | KeyT =>
      {| r_status := Running;
         r_state := set_typing_enabled (negb (typing_enabled s)) s;
         r_events := [] |}
  | KeyC =>
      {| r_status := Running; r_state := set_current_text EmptyString s; r_events := [] |}
  | KeyM =>
      let s := change_mode s in
      {| r_status := Running; r_state := s; r_events := [ModeChanged (current_mode s)] |}
  | NoKey => {| r_status := Running; r_state := s; r_events := [] |}
  end.

(** Sequencing inside an iteration: the next statement runs only while the
    loop is still running. *)
Definition andthen (r : result) (k : state -> result) : result :=
  match r_status r with
  | Running =>
      let r' := k (r_state r) in
      {| r_status := r_status r';
         r_state := r_state r';
         r_events := r_events r ++ r_events r' |}
  | _ => r
  end.

(** The body of the loop of [run]. *)
Definition iteration (f : frame) (s : state) : result :=
  andthen (andthen (track_hands f s) (handle_mode_change f)) (handle_key f).

(** The loop of [run] over the frames the camera delivers. *)
Fixpoint run (fs : list frame) (s : state) : result :=
  match fs with
  | [] => {| r_status := Running; r_state := s; r_events := [] |}
  | f :: fs' => andthen (iteration f s) (run fs')
  end.

End Step.

(** The actions an event list shows as executed. *)
Definition actions_of (evs : list event) : list string :=
  flat_map (fun e => match e with ActionDone a => [a] | _ => [] end) evs.

(** The mode changes an event list shows. *)
Definition mode_changes_of (evs : list event) : list string :=
  flat_map (fun e => match e with ModeChanged m => [m] | _ => [] end) evs.

(** A frame showing one hand, with a reliable sink, no key pressed and a
    single clock reading. *)
Definition one_hand (t : Q) (fingers : nat) (zone : string) : frame :=
  {| f_sink := reliable;
     f_hands := [ {| h_fingers := fingers; h_zone := Some zone |} ];
     f_key := NoKey;
     t_gesture := t; t_action := t; t_mode := t; t_mode_set := t |}.

(** A frame showing two open hands. *)
Definition two_open_hands (t : Q) (zone : string) : frame :=
  {| f_sink := reliable;
     f_hands := [ {| h_fingers := 5; h_zone := Some zone |};
                  {| h_fingers := 5; h_zone := Some zone |} ];
     f_key := NoKey;
     t_gesture := t; t_action := t; t_mode := t; t_mode_set := t |}.

(** A frame without any hand. *)
Definition no_hand (t : Q) : frame :=
  {| f_sink := reliable;
     f_hands := [];
     f_key := NoKey;
     t_gesture := t; t_action := t; t_mode := t; t_mode_set := t |}.

(** ** Vocabulary of the properties *)

(** The mode after [m] in [modes], cyclically. *)
Definition successor (m : string) : string :=
  match index_of m modes with
  | Some i => nth ((i + 1) mod List.length modes) modes EmptyString
  | None => EmptyString
  end.

(** [current_mode] is the entry of [modes] at [mode_index]. *)
Definition consistent (s : state) : Prop :=
  (mode_index s < List.length modes)%nat /\
  current_mode s = nth (mode_index s) modes EmptyString.

(** The state after two mode changes from the initial state. *)
Definition symbols_state : state := change_mode (change_mode init).

(** A frame of a stable run of the gesture (fingers [c], zone [z]): the
    primary hand shows it, the two hands are not both open, and no key is
    pressed. *)
Definition stable_frame (c : nat) (z : option string) (f : frame) : Prop :=
  (exists others, f_hands f = {| h_fingers := c; h_zone := z |} :: others) /\
  both_hands_open (f_hands f) = false /\
  f_key f = NoKey.

(** The histories end with a frame other than (c, z): the state right
    after a differing frame.  (The loop appends to both histories together,
    so they have the same length.) *)
Definition after_differing (c : nat) (z : option string) (s : state) : Prop :=
  exists hc hz c' z',
    finger_count_history s = hc ++ [c'] /\
    zone_history s = hz ++ [z'] /\
    List.length hc = List.length hz /\
    (c', z') <> (c, z).

(** The last two frames showed (c, z). *)
Definition primed (c : nat) (z : option string) (s : state) : Prop :=
  exists tc tz,
    rev (finger_count_history s) = c :: c :: tc /\
    rev (zone_history s) = z :: z :: tz.

(** What typing reads of the state. *)
Definition typing_view (s : state) : bool * string * Q :=
  (typing_enabled s, current_mode s, last_gesture_time s).

(** The last frame showed (c, z), the one before something else. *)
Definition half_primed (c : nat) (z : option string) (s : state) : Prop :=
  exists c' z' tc tz,
    rev (finger_count_history s) = c :: c' :: tc /\
    rev (zone_history s) = z :: z' :: tz /\
    (c', z') <> (c, z).

(** A run of [n] frames of one finger in the top-left zone, 40 ms apart
    from 10 s on. *)
Definition stable_run (n : nat) : list frame :=
  map (fun i => one_hand (10 + inject_Z (Z.of_nat i) * 0.04) 1 "top_left") (seq 0 n).

(** The state after three frames of two fingers in the middle zone. *)
Definition after_two_fingers : state :=
  r_state (run default
             [one_hand 9.88 2 "mid_center"; one_hand 9.92 2 "mid_center";
              one_hand 9.96 2 "mid_center"] init).

(** The keyboard state without its preview text. *)
Definition forget_text (s : state) : state :=
  set_current_text EmptyString s.

(** ** Landmarks, finger count and zones *)

(** A landmark: its normalized coordinates. *)
Record point : Type := { px : Q; py : Q }.

(** The landmarks of a hand, [landmarks.landmark[i]]. *)
Definition landmarks : Type := nat -> point.

Definition finger_tips : list nat := [4; 8; 12; 16; 20]%nat.
Definition finger_pips : list nat := [3; 6; 10; 14; 18]%nat.

(** [count_fingers]: the thumb by its x coordinates, the four other
    fingers by their y coordinates. *)
Definition count_fingers (hand_landmarks : option landmarks) : nat :=
  match hand_landmarks with
  | None => 0%nat
  | Some l =>
      let fingers_up := 0%nat in
      let fingers_up :=
        if Qgt_b (px (l (nth 0 finger_tips 0%nat))) (px (l (nth 0 finger_pips 0%nat)))
        then (fingers_up + 1)%nat else fingers_up in
      fold_left
        (fun fingers_up i =>
           if Qlt_b (py (l (nth i finger_tips 0%nat))) (py (l (nth i finger_pips 0%nat)))
           then (fingers_up + 1)%nat else fingers_up)
        (seq 1 4) fingers_up
  end.

(** The doubles the literals [0.33] and [0.66] denote. *)
Definition lit_033 : Q := 5944751508129055 # 18014398509481984.
Definition lit_066 : Q := 5944751508129055 # 9007199254740992.

(** [create_zones]: name and (x_min, x_max, y_min, y_max), in the order
    of the dictionary. *)
Definition create_zones : list (string * (Q * Q * Q * Q)) :=
  [ ("top_left", (0, lit_033, 0, lit_033));
    ("top_center", (lit_033, lit_066, 0, lit_033));
    ("top_right", (lit_066, 1, 0, lit_033));
    ("mid_left", (0, lit_033, lit_033, lit_066));
    ("mid_center", (lit_033, lit_066, lit_033, lit_066));
    ("mid_right", (lit_066, 1, lit_033, lit_066));
    ("bot_left", (0, lit_033, lit_066, 1));
    ("bot_center", (lit_033, lit_066, lit_066, 1));
    ("bot_right", (lit_066, 1, lit_066, 1)) ]%string.

(** [x_min <= x <= x_max and y_min <= y <= y_max] *)
Definition in_zone (x y : Q) (bounds : Q * Q * Q * Q) : bool :=
  let '(x_min, x_max, y_min, y_max) := bounds in
  Qle_b x_min x && Qle_b x x_max && Qle_b y_min y && Qle_b y y_max.

Fixpoint first_zone (x y : Q) (zones : list (string * (Q * Q * Q * Q)))
    : option string :=
  match zones with
  | [] => None
  | (zone_name, bounds) :: rest =>
      if in_zone x y bounds then Some zone_name else first_zone x y rest
  end.

(** [get_hand_zone]: the first zone that holds the index fingertip. *)
Definition get_hand_zone (l : landmarks) : option string :=
  let index_tip := l 8%nat in
  first_zone (px index_tip) (py index_tip) create_zones.

(** The third of the unit interval a coordinate falls in; a coordinate on
    a border belongs to the lower third. *)
Definition band (v : Q) : nat :=
  if Qle_b v lit_033 then 0%nat else if Qle_b v lit_066 then 1%nat else 2%nat.

(** The point lies in the unit square. *)
Definition inside (p : point) : bool :=
  Qle_b 0 (px p) && Qle_b (px p) 1 && Qle_b 0 (py p) && Qle_b (py p) 1.

(** What [process_gesture] looks up once the debounce has passed. *)
Definition gesture_symbol (mode : string) (finger_count : nat) (zone : option string)
    : gesture_result :=
  if negb (zone_given zone) then Action None
  else if (finger_count =? 0)%nat then Action (Some " "%string)
  else if (finger_count =? 5)%nat
          && zone_in zone ["top_left"; "top_center"; "top_right"]%string
  then Action (Some "BACKSPACE"%string)
  else
    match assoc String.eqb mode character_maps with
    | None => KeyError mode
    | Some table =>
        match assoc Nat.eqb finger_count table with
        | Some char_list =>
            let zone_index :=
              get_zone_index (match zone with Some z => z | None => EmptyString end) in
            if (zone_index <? List.length char_list)%nat
            then Action (nth_error char_list zone_index)
            else Action None
        | None => Action None
        end
    end.

(** The entries of the tables that sit at five fingers in the top row. *)
Definition shadowed : list string :=
  ["J"; "K"; "L"; "~"; "`"; "^"; "CAPS"; "NUM"; "SCROLL"]%string.

(** The names [execute_action] accepts without calling the sink. *)
Definition inert_actions : list string :=
  ["ESC"; "DELETE"; "HOME"; "END"; "PGUP"; "PGDN"; "CTRL"; "ALT"; "SHIFT";
   "REDO"; "FIND"; "REPLACE"; "SELECT"; "CAPS"; "NUM"; "SCROLL"; "PAUSE";
   "PRINT"; "INSERT"; "MENU"; "WIN"; "CMD"]%string.

(** All the symbols of a mode's table. *)
Definition symbols_of (mode : string) : list string :=
  match assoc String.eqb mode character_maps with
  | Some table => flat_map snd table
  | None => []
  end.

(** The sink calls an event list shows. *)
Definition sinks_of (evs : list event) : list sink_call :=
  flat_map (fun e => match e with Sink c => [c] | _ => [] end) evs.

(** ** The gesture clock *)

(** What sets [last_gesture_time]: an executed action, or a mode change by
    the two-hands-open gesture. *)
Inductive stamp_kind : Type := Typed | Cycled.

(** The stamp of an iteration, if it sets [last_gesture_time]: its kind,
    the clock reading that was tested and the one that was stored. *)
Definition stamp_of (cfg : config) (f : frame) (s : state)
    : option (stamp_kind * Q * Q) :=
  let r := track_hands cfg f s in
  match r_status r with
  | Running =>
      match actions_of (r_events r) with
      | _ :: _ => Some (Typed, t_gesture f, t_action f)
      | [] =>
          match mode_changes_of (r_events (handle_mode_change f (r_state r))) with
          | _ :: _ => Some (Cycled, t_mode f, t_mode_set f)
          | [] => None
          end
      end
  | _ => None
  end.

(** The stamps of a run, oldest first. *)
Fixpoint stamps (cfg : config) (fs : list frame) (s : state)
    : list (stamp_kind * Q * Q) :=
  match fs with
  | [] => []
  | f :: fs' =>
      (match stamp_of cfg f s with Some st => [st] | None => [] end)
      ++ match r_status (iteration cfg f s) with
         | Running => stamps cfg fs' (r_state (iteration cfg f s))
         | _ => []
         end
  end.

(** Every stamp passed its test against the stamp before it: an action
    at least [gesture_debounce] after it, a gesture mode change more than
    2.0 s after it. *)
Fixpoint timeline (cfg : config) (last : Q) (l : list (stamp_kind * Q * Q)) : Prop :=
  match l with
  | [] => True
  | (kind, tested, stored) :: rest =>
      match kind with
      | Typed => gesture_debounce cfg <= tested - last
      | Cycled => 2.0 < tested - last
      end /\ timeline cfg stored rest
  end.

(** ** The text panel of [draw_interface] *)

(** [s.split(sep)] for a one-character separator. *)
Fixpoint split_on (sep : ascii) (s : string) : list string :=
  match s with
  | EmptyString => [EmptyString]
  | String c r =>
      if Ascii.eqb c sep then EmptyString :: split_on sep r
      else match split_on sep r with
           | w :: ws => String c w :: ws
           | [] => [String c EmptyString]
           end
  end.

(** One turn of the word loop of lines 274-281. *)
Definition wrap_word (limit : nat) (acc : list string * string) (word : string)
    : list string * string :=
  let '(lines, current_line) := acc in
  let test_line :=
    if nonempty current_line then (current_line ++ " " ++ word)%string else word in
  if (limit <? String.length test_line)%nat then
    ((if nonempty current_line then lines ++ [current_line] else lines), word)
  else (lines, test_line).

(** Lines 266-284: the lines of the text panel. *)
Definition wrap_text (current_text : string) : list string :=
  let display_text :=
    if (100 <? String.length current_text)%nat
    then str_last 100 current_text else current_text in
  let words := split_on " " display_text in
  let '(lines, current_line) := fold_left (wrap_word 60) words ([], EmptyString) in
  if nonempty current_line then lines ++ [current_line] else lines.

(** The lines shown: [lines[-3:]]. *)
Definition shown_lines (current_text : string) : list string :=
  last_n 3 (wrap_text current_text).

(** The text without its spaces. *)
Fixpoint unspaced (s : string) : string :=
  match s with
  | EmptyString => EmptyString
  | String c r => if Ascii.eqb c " " then unspaced r else String c (unspaced r)
  end.

Fixpoint has_space (s : string) : bool :=
  match s with
  | EmptyString => false
  | String c r => Ascii.eqb c " " || has_space r
  end.

(** A line fits the panel: at most 60 characters, unless it is a single
    word. *)
Definition fits (line : string) : Prop :=
  (String.length line <= 60)%nat \/ has_space line = false.

(** The three ways [type_gesture] can end. *)
Definition quiet (s : state) (r : result) : Prop :=
  r_status r = Running /\ r_events r = [] /\
  last_gesture_time (r_state r) = last_gesture_time s /\
  current_text (r_state r) = current_text s.

Definition crashed (s : state) (r : result) : Prop :=
  r_status r = Crashed /\ r_events r = [] /\
  typing_enabled s = true /\
  assoc String.eqb (current_mode s) character_maps = None.

Definition typed (cfg : config) (f : frame) (s : state) (r : result) : Prop :=
  r_status r = Running /\
  typing_enabled s = true /\ both_hands_open (f_hands f) = false /\
  gesture_debounce cfg <= t_gesture f - last_gesture_time s /\
  last_gesture_time (r_state r) = t_action f /\
  exists a calls,
    r_events r = map Sink calls ++ [ActionDone a] /\ (List.length calls <= 1)%nat.

Definition modal (s : state) (r : result) : Prop :=
  typing_enabled (r_state r) = typing_enabled s /\
  current_mode (r_state r) = current_mode s /\
  mode_index (r_state r) = mode_index s.

(** The lines put end to end. *)
Definition joined (lines : list string) : string :=
  fold_right String.append EmptyString lines.

(** The text [draw_interface] wraps: the last 100 characters. *)
Definition display_text (current_text : string) : string :=
  if (100 <? String.length current_text)%nat
  then str_last 100 current_text else current_text.

(** A state in which the gesture (one finger, top-left zone) has been
    typed and is still held. *)
Definition holding : state :=
  r_state (run default (stable_run 12) after_two_fingers).

End Keyboard.

(** * On-screen keyboard with dwell or pinch selection
    ([webcam_virtual_keyboard.py]) *)
Module VirtualKeyboard.

(** [self.selection_method]: ['dwell'] or ['pinch']. *)
Inductive method : Type := Dwell | Pinch.

Record config : Type := {
  dwell_threshold : Q;
  select_debounce : Q;
  pinch_on : Q;
  pinch_off : Q;
  preview_max : nat
}.

(** The values of [__init__].  The literals stand for their decimal
    values; the doubles Python holds for 0.7 and 0.35 differ from them by
    less than 1e-16.  The theorems take the configuration as a variable. *)
Definition default : config := {|
  dwell_threshold := 0.7;
  select_debounce := 0.35;
  pinch_on := 35;
  pinch_off := 45;
  preview_max := 60
|}.

(** The mutable attributes of [VirtualKeyboard]. *)
Record state : Type := {
  selection_method : method;
  hover_key : option string;
  hover_started_at : Q;
  last_select_time : Q;
  pinch_active : bool;
  caps_lock : bool;
  shift_latched : bool;
  preview_text : string
}.

(** The state [__init__] builds. *)
Definition init : state := {|
  selection_method := Dwell;
  hover_key := None;
  hover_started_at := 0;
  last_select_time := 0;
  pinch_active := false;
  caps_lock := false;
  shift_latched := false;
  preview_text := EmptyString
|}.

Definition set_selection_method (v : method) (s : state) : state :=
  {| selection_method := v;
     hover_key := hover_key s;
     hover_started_at := hover_started_at s;
     last_select_time := last_select_time s;
     pinch_active := pinch_active s;
     caps_lock := caps_lock s;
     shift_latched := shift_latched s;
     preview_text := preview_text s |}.

Definition set_hover_key (v : option string) (s : state) : state :=
  {| selection_method := selection_method s;
     hover_key := v;
     hover_started_at := hover_started_at s;
     last_select_time := last_select_time s;
     pinch_active := pinch_active s;
     caps_lock := caps_lock s;
     shift_latched := shift_latched s;
     preview_text := preview_text s |}.

Definition set_hover_started_at (v : Q) (s : state) : state :=
  {| selection_method := selection_method s;
     hover_key := hover_key s;
     hover_started_at := v;
     last_select_time := last_select_time s;
     pinch_active := pinch_active s;
     caps_lock := caps_lock s;
     shift_latched := shift_latched s;
     preview_text := preview_text s |}.

Definition set_last_select_time (v : Q) (s : state) : state :=
  {| selection_method := selection_method s;
     hover_key := hover_key s;
     hover_started_at := hover_started_at s;
     last_select_time := v;
     pinch_active := pinch_active s;
     caps_lock := caps_lock s;
     shift_latched := shift_latched s;
     preview_text := preview_text s |}.

Definition set_pinch_active (v : bool) (s : state) : state :=
  {| selection_method := selection_method s;
     hover_key := hover_key s;
     hover_started_at := hover_started_at s;
     last_select_time := last_select_time s;
     pinch_active := v;
     caps_lock := caps_lock s;
     shift_latched := shift_latched s;
     preview_text := preview_text s |}.

Definition set_caps_lock (v : bool) (s : state) : state :=
  {| selection_method := selection_method s;
     hover_key := hover_key s;
     hover_started_at := hover_started_at s;
     last_select_time := last_select_time s;
     pinch_active := pinch_active s;
     caps_lock := v;
     shift_latched := shift_latched s;
     preview_text := preview_text s |}.

Definition set_shift_latched (v : bool) (s : state) : state :=
  {| selection_method := selection_method s;
     hover_key := hover_key s;
     hover_started_at := hover_started_at s;
     last_select_time := last_select_time s;
     pinch_active := pinch_active s;
     caps_lock := caps_lock s;
     shift_latched := v;
     preview_text := preview_text s |}.

Definition set_preview_text (v : string) (s : state) : state :=
  {| selection_method := selection_method s;
     hover_key := hover_key s;
     hover_started_at := hover_started_at s;
     last_select_time := last_select_time s;
     pinch_active := pinch_active s;
     caps_lock := caps_lock s;
     shift_latched := shift_latched s;
     preview_text := v |}.

(** The dictionary of [shifted_char]. *)
Definition shift_map : list (string * string) :=
  [ ("`", "~"); ("1", "!"); ("2", "@"); ("3", "#"); ("4", "$"); ("5", "%");
    ("6", "^"); ("7", "&"); ("8", "*"); ("9", "("); ("0", ")");
    ("-", "_"); ("=", "+"); ("[", "{"); ("]", "}"); (str1 backslash, "|");
    (";", ":"); ("'", str1 double_quote); (",", "<"); (".", ">"); ("/", "?")
  ]%string.

(** [shifted_char] *)
Definition shifted_char (ch : string) : string :=
  match assoc String.eqb ch shift_map with
  | Some v => v
  | None => if str_isalpha ch then str_upper ch else ch
  end.

(** What [type_key] and an iteration show: the key handed to [type_key],
    and the sink calls. *)
Inductive event : Type :=
| SelectKey (label : string)
| Sink (c : sink_call).

(** How a method or an iteration ends: it returns, [q] breaks the loop, or
    an exception escapes ([type_key] has no handler, and the handler of
    [run] catches [KeyboardInterrupt] only). *)
Inductive status : Type := Running | Quit | Crashed.

Record result : Type := {
  r_status : status;
  r_state : state;
  r_events : list event
}.

Definition ret (s : state) : result :=
  {| r_status := Running; r_state := s; r_events := [] |}.

Definition andthen (r : result) (k : state -> result) : result :=
  match r_status r with
  | Running =>
      let r' := k (r_state r) in
      {| r_status := r_status r';
         r_state := r_state r';
         r_events := r_events r ++ r_events r' |}
  | _ => r
  end.

(** An unguarded sink call followed by [after]; any exception escapes. *)
Definition call (k : sink) (c : sink_call) (after : state -> state)
    (s : state) : result :=
  match k c with
  | Ok => {| r_status := Running; r_state := after s; r_events := [Sink c] |}
  | FailSafe | Failure =>
      {| r_status := Crashed; r_state := s; r_events := [Sink c] |}
  end.

Section Step.

Variable cfg : config.

(** The [try] block of [type_key] (lines 86-120). *)
Definition type_key_body (k : sink) (label : string) (s : state) : result :=
  if String.eqb label "Backspace" then
    call k (Press "backspace")
      (fun s => if nonempty (preview_text s)
                then set_preview_text (drop_last (preview_text s)) s else s) s
  else if String.eqb label "Tab" then
    call k (Press "tab")
      (fun s => set_preview_text (preview_text s ++ str1 "009"%char)%string s) s
  else if String.eqb label "Enter" then
    call k (Press "enter")
      (fun s => set_preview_text (preview_text s ++ str1 "010"%char)%string s) s
  else if String.eqb label "Space" then
    call k (Press "space")
      (fun s => set_preview_text (preview_text s ++ " ")%string s) s
  else if String.eqb label "Caps" then ret (set_caps_lock (negb (caps_lock s)) s)
  else if String.eqb label "Shift" then ret (set_shift_latched true s)
  else if str_in label ["Ctrl"; "Alt"; "Win"; "Menu"]%string then ret s
  else
    let out := label in
    if (String.length out =? 1)%nat then
      let out :=
        if str_isalpha out then
          let upper := xorb (caps_lock s) (shift_latched s) in
          if upper then str_upper out else str_lower out
        else
          if shift_latched s then shifted_char out else out in
      call k (Typewrite out)
        (fun s => set_preview_text
                    (str_last (preview_max cfg) (preview_text s ++ out)%string) s) s
    else ret s.

(** The [finally] clause of [type_key]: Shift applies once. *)
Definition type_key_finally (label : string) (s : state) : state :=
  if shift_latched s && negb (str_in label ["Shift"; "Caps"]%string)
  then set_shift_latched false s else s.

(** [type_key]; [now] is what [time.time()] returns in it. *)
Definition type_key (k : sink) (now : Q) (label : string) (s : state) : result :=
  if Qlt_b (now - last_select_time s) (select_debounce cfg) then ret s
  else
    let s := set_last_select_time now s in
    let r := type_key_body k label s in
    {| r_status := r_status r;
       r_state := type_key_finally label (r_state r);
       r_events := r_events r |}.

(** The hand of a frame, as the loop reads it: the label [key_at] finds
    under the fingertip, the pinch distance and the pointing flag. *)
Record hand : Type := {
  h_hover : option string;
  h_pinch_dist : Q;
  h_index_ext : bool
}.

Inductive key_press : Type := NoKey | KeyQ | KeyP.

(** One iteration of the loop of [run]: the first detected hand if any, the
    key pressed, the sink's behaviour, and the readings of [time.time()] at
    line 232 and inside [type_key]. *)
Record frame : Type := {
  f_sink : sink;
  f_hand : option hand;
  f_key : key_press;
  f_now : Q;
  f_type_now : Q
}.

(** A label is truthy when it is neither [None] nor empty. *)
Definition hovering (hover_label : option string) : bool :=
  match hover_label with Some l => nonempty l | None => false end.

Definition label_of (hover_label : option string) : string :=
  match hover_label with Some l => l | None => EmptyString end.

Definition is_dwell (m : method) : bool :=
  match m with Dwell => true | Pinch => false end.

Definition is_pinch (m : method) : bool :=
  match m with Pinch => true | Dwell => false end.

(** [type_key] called from the loop: the selection is recorded first. *)
Definition select (f : frame) (label : string) (s : state) : result :=
  andthen {| r_status := Running; r_state := s; r_events := [SelectKey label] |}
          (type_key (f_sink f) (f_type_now f) label).

(** Lines 233-245: dwell selection. *)
Definition dwell_selection (f : frame) (h : hand) (s : state) : result :=
  let hover_label := h_hover h in
  let now := f_now f in
  if is_dwell (selection_method s) && hovering hover_label then
    let s :=
      if negb (option_eqb String.eqb hover_label (hover_key s))
      then set_hover_started_at now (set_hover_key hover_label s)
      else s in
    if Qge_b (now - hover_started_at s) (dwell_threshold cfg) then
      andthen (select f (label_of hover_label) s)
              (fun s => ret (set_hover_started_at now s))
    else ret s
  else ret (set_hover_started_at now (set_hover_key hover_label s)).

(** Lines 247-256: pinch selection, on release while pointing. *)
Definition pinch_selection (f : frame) (h : hand) (s : state) : result :=
  let hover_label := h_hover h in
  if is_pinch (selection_method s) && h_index_ext h && hovering hover_label then
    if pinch_active s then
      if Qgt_b (h_pinch_dist h) (pinch_off cfg) then
        andthen (select f (label_of hover_label) s)
                (fun s => ret (set_pinch_active false s))
      else ret s
    else
      if Qlt_b (h_pinch_dist h) (pinch_on cfg) then ret (set_pinch_active true s)
      else ret s
  else ret s.

(** Lines 222-256: what the loop does with the detected hand; nothing when
    no hand is detected. *)
Definition track_hand (f : frame) (s : state) : result :=
  match f_hand f with
  | Some h => andthen (dwell_selection f h s) (pinch_selection f h)
  | None => ret s
  end.

(** Lines 270-274: the keys. *)
Definition handle_key (f : frame) (s : state) : result :=
  match f_key f with
  | KeyQ => {| r_status := Quit; r_state := s; r_events := [] |}
  | KeyP =>
      ret (set_selection_method
             (match selection_method s with Dwell => Pinch | Pinch => Dwell end) s)
  | NoKey => ret s
  end.

(** The body of the loop of [run]. *)
Definition iteration (f : frame) (s : state) : result :=
  andthen (track_hand f s) (handle_key f).

(** The loop of [run] over the frames the camera delivers. *)
Fixpoint run (fs : list frame) (s : state) : result :=
  match fs with
  | [] => ret s
  | f :: fs' => andthen (iteration f s) (run fs')
  end.

(** Whether the iteration handed a key to [type_key]. *)
Definition fired (f : frame) (s : state) : bool :=
  existsb (fun e => match e with SelectKey _ => true | Sink _ => false end)
          (r_events (iteration f s)).

(** The clock readings ([f_now]) of the frames that fire a selection. *)
Fixpoint firing_times (fs : list frame) (s : state) : list Q :=
  match fs with
  | [] => []
  | f :: fs' =>
      let r := iteration f s in
      (if fired f s then [f_now f] else [])
      ++ match r_status r with
         | Running => firing_times fs' (r_state r)
         | _ => []
         end
  end.

End Step.

(** The text the sink was asked to type. *)
Definition typed_of (evs : list event) : list string :=
  flat_map (fun e => match e with Sink (Typewrite t) => [t] | _ => [] end) evs.

(** A frame whose hand hovers [label] without pinching; one clock reading,
    reliable sink, no key. *)
Definition hover_frame (t : Q) (label : string) : frame :=
  {| f_sink := reliable;
     f_hand := Some {| h_hover := Some label; h_pinch_dist := 100; h_index_ext := true |};
     f_key := NoKey;
     f_now := t;
     f_type_now := t |}.


(** A frame without any hand, with key [k] pressed. *)
Definition no_hand (t : Q) (k : key_press) : frame :=
  {| f_sink := reliable; f_hand := None; f_key := k; f_now := t; f_type_now := t |}.

(** ** Vocabulary of the properties *)

(** The selection is not swallowed by the debounce test of [type_key]. *)
Definition processed (cfg : config) (now : Q) (s : state) : Prop :=
  select_debounce cfg <= now - last_select_time s.



(** The first entry of [ts] is at least [gap] after [t], and consecutive
    entries are at least [gap] apart. *)
Fixpoint spaced (gap t : Q) (ts : list Q) : Prop :=
  match ts with
  | [] => True
  | x :: rest => t + gap <= x /\ spaced gap x rest
  end.




(** The keys an event list shows as handed to [type_key]. *)
Definition selections_of (evs : list event) : list string :=
  flat_map (fun e => match e with SelectKey l => [l] | Sink _ => [] end) evs.

(** The sink calls an event list shows. *)
Definition sinks_of (evs : list event) : list sink_call :=
  flat_map (fun e => match e with Sink c => [c] | SelectKey _ => [] end) evs.

(** Whether the iteration called the sink. *)
Definition calls_sink (cfg : config) (f : frame) (s : state) : bool :=
  match sinks_of (r_events (iteration cfg f s)) with [] => false | _ :: _ => true end.

(** The clock readings ([f_type_now]) of the iterations that call the
    sink. *)
Fixpoint sink_times (cfg : config) (fs : list frame) (s : state) : list Q :=
  match fs with
  | [] => []
  | f :: fs' =>
      let r := iteration cfg f s in
      (if calls_sink cfg f s then [f_type_now f] else [])
      ++ match r_status r with
         | Running => sink_times cfg fs' (r_state r)
         | _ => []
         end
  end.

(** What a step does to [last_select_time] when [type_key] reads [now]:
    it leaves it alone and calls no sink, or the debounce test passed and
    it is set to [now]. *)
Definition stamps_select (cfg : config) (now : Q) (s : state) (r : result) : Prop :=
  (last_select_time (r_state r) = last_select_time s /\ sinks_of (r_events r) = []) \/
  (select_debounce cfg <= now - last_select_time s /\
   last_select_time (r_state r) = now).

(** A step that leaves the selection method alone and hands at most the
    hovered key to [type_key], which calls the sink at most once. *)
Definition selects_at_most (hover : option string) (s : state) (r : result) : Prop :=
  (r_status r = Running -> selection_method (r_state r) = selection_method s) /\
  (List.length (sinks_of (r_events r)) <= List.length (selections_of (r_events r)))%nat /\
  (selections_of (r_events r) = [] \/
   exists label, hover = Some label /\ nonempty label = true /\
                 selections_of (r_events r) = [label]).

(** A state whose preview holds [preview_max] characters. *)
Definition full_preview : state :=
  set_preview_text
    "012345678901234567890123456789012345678901234567890123456789" init.



(** A hover on the key A, then two frames without a hand. *)
Definition interrupted_hover : list frame :=
  [hover_frame 5.0 "A"; no_hand 5.25 NoKey; no_hand 7.75 NoKey].

End VirtualKeyboard.

(** * Properties *)

(** ** Comparisons *)

Lemma Qle_b_true x y : Qle_b x y = true <-> x <= y.
Proof. apply Qle_bool_iff. Qed.

Lemma Qle_b_false x y : Qle_b x y = false <-> y < x.
Proof.
  unfold Qle_b. rewrite <- not_true_iff_false, Qle_bool_iff. split; lra.
Qed.

Lemma Qlt_b_true x y : Qlt_b x y = true <-> x < y.
Proof.
  unfold Qlt_b. rewrite negb_true_iff. apply Qle_b_false.
Qed.

Lemma Qlt_b_false x y : Qlt_b x y = false <-> y <= x.
Proof.
  unfold Qlt_b. rewrite negb_false_iff. apply Qle_b_true.
Qed.

Lemma Qge_b_true x y : Qge_b x y = true <-> y <= x.
Proof. apply Qle_b_true. Qed.

Lemma Qge_b_false x y : Qge_b x y = false <-> x < y.
Proof. apply Qle_b_false. Qed.

Lemma Qgt_b_true x y : Qgt_b x y = true <-> y < x.
Proof. apply Qlt_b_true. Qed.

Lemma Qgt_b_false x y : Qgt_b x y = false <-> x <= y.
Proof. apply Qlt_b_false. Qed.

(** Turns every boolean comparison in the context and the goal into the
    order relation it decides. *)
Ltac qprop :=
  repeat match goal with
  | H : Qle_b _ _ = true |- _ => apply Qle_b_true in H
  | H : Qle_b _ _ = false |- _ => apply Qle_b_false in H
  | H : Qlt_b _ _ = true |- _ => apply Qlt_b_true in H
  | H : Qlt_b _ _ = false |- _ => apply Qlt_b_false in H
  | H : Qge_b _ _ = true |- _ => apply Qge_b_true in H
  | H : Qge_b _ _ = false |- _ => apply Qge_b_false in H
  | H : Qgt_b _ _ = true |- _ => apply Qgt_b_true in H
  | H : Qgt_b _ _ = false |- _ => apply Qgt_b_false in H
  | |- Qle_b _ _ = true => apply Qle_b_true
  | |- Qle_b _ _ = false => apply Qle_b_false
  | |- Qlt_b _ _ = true => apply Qlt_b_true
  | |- Qlt_b _ _ = false => apply Qlt_b_false
  | |- Qge_b _ _ = true => apply Qge_b_true
  | |- Qge_b _ _ = false => apply Qge_b_false
  | |- Qgt_b _ _ = true => apply Qgt_b_true
  | |- Qgt_b _ _ = false => apply Qgt_b_false
  end.

Lemma reliable_failsafe_only : failsafe_only reliable.
Proof. intros c; discriminate. Qed.

(** * Properties of the pointer controller *)
Module ControllerProps.
Import Controller.

(** Scenario A of the specification: distances 50, 40, 30, 20, 30, 40, 50 px
    at 50 ms spacing yield exactly one click. *)
Example scenario_A :
  primary_calls
    (run default
       [mk_frame 10.00 true 50 100; mk_frame 10.05 true 40 100;
        mk_frame 10.10 true 30 100; mk_frame 10.15 true 20 100;
        mk_frame 10.20 true 30 100; mk_frame 10.25 true 40 100;
        mk_frame 10.30 true 50 100] init)
  = [Click].
Proof. vm_compute. reflexivity. Qed.

(** The second cursor sample (100, 100) after (0, 0) is smoothed with
    weights 0.1 and 1.0 over 1.1, and truncated: (90, 90). *)
Example smooth_two_samples :
  snd (smooth_cursor_position default 100 100 (set_cursor_history [(0, 0)%Z] init))
  = (90, 90)%Z.
Proof. vm_compute. reflexivity. Qed.

(** The history keeps the last five samples. *)
Example history_is_bounded :
  deque_append 5 6%Z [1; 2; 3; 4; 5]%Z = [2; 3; 4; 5; 6]%Z.
Proof. reflexivity. Qed.

(** A pinch held 0.2 s by the thumb and the middle finger, the index
    finger apart, is a right-click. *)
Example right_click_after_short_hold :
  calls_of
    (run default
       [mk_frame 1.0 false 100 20; mk_frame 1.1 false 100 30;
        mk_frame 1.2 false 100 50] init)
  = [RightClick].
Proof. vm_compute. reflexivity. Qed.

(** ** What each stage of [handle_mouse_control] leaves untouched *)

Lemma andthen_returned r k :
  returned (r ;; k) = true ->
  exists s c, r = Returned s c /\ returned (k s) = true.
Proof.
  destruct r as [s c|s c]; simpl; [|discriminate].
  intros H. exists s, c. split; [reflexivity|].
  destruct (k s); [reflexivity|discriminate].
Qed.

Lemma move_cursor_effect cfg f s :
  exists h, state_of (move_cursor cfg f s) = set_cursor_history h s.
Proof.
  unfold move_cursor.
  destruct (mouse_control_enabled s && index_extended (f_data f)).
  - unfold smooth_cursor_position.
    match goal with |- context [deque_append ?n ?x ?l] =>
      exists (deque_append n x l); generalize (deque_append n x l) end.
    intros h. destruct (1 <? List.length h)%nat; unfold try_call;
      destruct (f_sink f _); reflexivity.
  - exists (cursor_history s). destruct s; reflexivity.
Qed.

Lemma state_of_andthen r k :
  state_of (r ;; k) =
  match r with Returned s _ => state_of (k s) | Raised s _ => s end.
Proof.
  destruct r as [s c|s c]; simpl; [|reflexivity].
  destruct (k s); reflexivity.
Qed.

Lemma calls_of_andthen r k :
  calls_of (r ;; k) =
  match r with
  | Returned s c => c ++ calls_of (k s)
  | Raised _ c => c
  end.
Proof.
  destruct r as [s c|s c]; simpl; [|reflexivity].
  destruct (k s); reflexivity.
Qed.

(** A property every stage preserves is preserved by their sequence. *)
Lemma andthen_preserves (P : state -> Prop) r k :
  P (state_of r) ->
  (forall s, P s -> P (state_of (k s))) ->
  P (state_of (r ;; k)).
Proof.
  intros Hr Hk. rewrite state_of_andthen.
  destruct r as [s c|s c]; simpl in *; auto.
Qed.

(** Case analysis on every test and sink outcome of a stage, tests first. *)
Ltac stage_cases :=
  repeat (cbn in *;
    first
    [ match goal with
      | |- context [if ?b then _ else _] => destruct b eqn:?
      end
    | match goal with
      | |- context [match ?k ?c with Ok => _ | FailSafe => _ | Failure => _ end] =>
          destruct (k c) eqn:?
      end ]).

(** Splits the conjunctions among the tests known to hold, and sets the
    booleans they fix. *)
Ltac split_tests :=
  repeat match goal with
  | H : _ && _ = true |- _ => apply andb_true_iff in H; destruct H
  | H : negb _ = true |- _ => apply negb_true_iff in H
  | H : negb _ = false |- _ => apply negb_false_iff in H
  end;
  subst.

Lemma move_cursor_drag_within_pinch cfg f s :
  drag_within_pinch s -> drag_within_pinch (state_of (move_cursor cfg f s)).
Proof.
  intros H. destruct (move_cursor_effect cfg f s) as [h ->]. exact H.
Qed.

Lemma primary_pinch_drag_within_pinch cfg f s :
  drag_within_pinch s -> drag_within_pinch (state_of (primary_pinch cfg f s)).
Proof.
  unfold drag_within_pinch, primary_pinch, try_call, skip, andthen.
  destruct s; cbn. intros H. stage_cases; auto; try discriminate.
Qed.

Lemma secondary_pinch_drag_within_pinch cfg f s :
  drag_within_pinch s -> drag_within_pinch (state_of (secondary_pinch cfg f s)).
Proof.
  unfold drag_within_pinch, secondary_pinch, try_call, skip, andthen.
  destruct s; cbn. intros H. stage_cases; auto.
Qed.

Lemma handle_mouse_control_drag_within_pinch cfg f s :
  drag_within_pinch s -> drag_within_pinch (state_of (handle_mouse_control cfg f s)).
Proof.
  intros H. unfold handle_mouse_control.
  apply andthen_preserves; [apply andthen_preserves|].
  - now apply move_cursor_drag_within_pinch.
  - intros; now apply primary_pinch_drag_within_pinch.
  - intros; now apply secondary_pinch_drag_within_pinch.
Qed.

Lemma reachable_drag_within_pinch cfg s :
  reachable cfg s -> drag_within_pinch s.
Proof.
  induction 1 as [|s f _ IH].
  - intros H; discriminate.
  - now apply handle_mouse_control_drag_within_pinch.
Qed.

Lemma move_cursor_calls cfg f s c :
  In c (calls_of (move_cursor cfg f s)) -> exists x y, c = MoveTo x y.
Proof.
  unfold move_cursor.
  destruct (mouse_control_enabled s && index_extended (f_data f)); [|intros []].
  destruct (smooth_cursor_position cfg _ _ s) as [s' [x y]].
  unfold try_call. destruct (f_sink f _); simpl; intros [<-|[]]; eauto.
Qed.

Lemma both_pinched_reachable :
  reachable default (state_of (run default both_pinched init)).
Proof.
  assert (E : state_of (run default both_pinched init) =
              state_of (handle_mouse_control default (mk_frame 1.5 true 20 20)
                (state_of (handle_mouse_control default (mk_frame 1.1 true 20 20)
                  (state_of (handle_mouse_control default (mk_frame 1.0 true 100 20)
                     init))))))
    by (vm_compute; reflexivity).
  rewrite E. repeat apply reach_step. apply reach_init.
Qed.

(** C1, as stated, fails: a state with the primary channel dragging and the
    secondary channel armed is reachable from the initial state. *)
Lemma C1_drag_and_secondary_armed_reachable :
  ~ (forall s, reachable default s ->
       ~ (drag_mode s = true /\ right_pinch_active s = true)).
Proof.
  intros H. apply (H _ both_pinched_reachable).
  vm_compute. split; reflexivity.
Qed.

(** The secondary arm flag stays set as long as the thumb-middle distance
    does not exceed [right_off], whatever the primary channel does. *)
Lemma secondary_arm_persists cfg f s :
  right_pinch_active s = true ->
  thumb_middle_distance (f_data f) <= right_off cfg ->
  right_pinch_active (state_of (handle_mouse_control cfg f s)) = true.
Proof.
  intros Hr Hd. apply Qgt_b_false in Hd.
  unfold handle_mouse_control.
  apply (andthen_preserves (fun s' => right_pinch_active s' = true));
    [apply (andthen_preserves (fun s' => right_pinch_active s' = true))|].
  - destruct (move_cursor_effect cfg f s) as [h ->]. exact Hr.
  - intros s1 H1. revert H1. unfold primary_pinch, try_call, skip, andthen.
    destruct s1; cbn. intros ->. stage_cases; reflexivity.
  - intros s1 H1. revert H1. unfold secondary_pinch, try_call, skip, andthen.
    rewrite Hd. destruct s1; cbn. intros ->. stage_cases; reflexivity.
Qed.

(** C1, amended: in every reachable state the drag flag implies the
    primary pinch flag; the secondary channel arms only in a frame that
    leaves the primary channel idle (neither armed nor dragging), and
    [rightClick] is only issued in such a frame; an arm accepted earlier
    stays while the thumb-middle distance does not exceed [right_off],
    also when the primary channel arms or drags meanwhile. *)
Theorem C1_secondary_arms_and_fires_only_beside_idle_primary
    (cfg : config) (s : state) (f : frame) :
  reachable cfg s ->
  let s' := state_of (handle_mouse_control cfg f s) in
  (drag_mode s' = true -> pinch_active s' = true) /\
  (is_right_arm s s' = true -> pinch_active s' = false /\ drag_mode s' = false) /\
  (In RightClick (calls_of (handle_mouse_control cfg f s)) ->
     pinch_active s' = false /\ drag_mode s' = false) /\
  (right_pinch_active s = true ->
   thumb_middle_distance (f_data f) <= right_off cfg ->
   right_pinch_active s' = true).
Proof.
  intros Hs s'.
  assert (Hinv : drag_within_pinch s) by (eapply reachable_drag_within_pinch; eauto).
  split; [apply (handle_mouse_control_drag_within_pinch cfg f s Hinv)|].
  apply and_assoc. split; [|subst s'; apply secondary_arm_persists].
  subst s'. unfold handle_mouse_control.
  rewrite !state_of_andthen, !calls_of_andthen.
  pose proof (move_cursor_calls cfg f s RightClick) as Hmove.
  destruct (move_cursor_effect cfg f s) as [h Hh].
  destruct (move_cursor cfg f s) as [s1 c1|s1 c1]; simpl in Hh, Hmove; subst s1.
  - assert (Hc1 : ~ In RightClick c1)
      by (intros Hin; destruct (Hmove Hin) as (x & y & E); discriminate).
    clear Hmove. revert Hinv.
    unfold drag_within_pinch, is_right_arm, primary_pinch, secondary_pinch,
      try_call, skip, andthen.
    clear Hs. destruct s; cbn. intros Hinv.
    stage_cases; (split; [intros Ha|intros Hin]); cbn in *; split_tests;
      try discriminate; try (split; congruence);
      try (specialize (Hinv eq_refl); discriminate);
      try (split; [reflexivity|];
           destruct drag_mode0; [specialize (Hinv eq_refl); discriminate|reflexivity]);
      try (repeat (apply in_app_or in Hin; destruct Hin as [Hin|Hin]);
           cbn in Hin; intuition (try discriminate; try congruence)).
  - split.
    + unfold is_right_arm. destruct s; cbn.
      destruct right_pinch_active0; discriminate.
    + intros Hin. destruct (Hmove Hin) as (x & y & E); discriminate.
Qed.

Lemma C1_secondary_arms_and_fires_only_beside_idle_primary_witness :
  let s' := state_of (handle_mouse_control default (mk_frame 1.0 true 100 20) init) in
  (drag_mode s' = true -> pinch_active s' = true) /\
  (is_right_arm init s' = true -> pinch_active s' = false /\ drag_mode s' = false) /\
  (In RightClick (calls_of (handle_mouse_control default (mk_frame 1.0 true 100 20) init)) ->
     pinch_active s' = false /\ drag_mode s' = false) /\
  (right_pinch_active init = true ->
   thumb_middle_distance (f_data (mk_frame 1.0 true 100 20)) <= right_off default ->
   right_pinch_active s' = true).
Proof.
  apply (C1_secondary_arms_and_fires_only_beside_idle_primary
           default init (mk_frame 1.0 true 100 20)).
  apply reach_init.
Defined.

(** ** Hysteresis of the primary channel *)

Lemma try_call_returned k c after s :
  failsafe_only k -> returned (try_call k c after s) = true.
Proof.
  intros Hk. unfold try_call. specialize (Hk c).
  destruct (k c); [reflexivity|reflexivity|contradiction].
Qed.

Lemma move_cursor_returned cfg f s :
  failsafe_only (f_sink f) -> returned (move_cursor cfg f s) = true.
Proof.
  intros Hk. unfold move_cursor.
  destruct (mouse_control_enabled s && index_extended (f_data f)); [|reflexivity].
  destruct (smooth_cursor_position cfg _ _ s) as [s' [x y]].
  now apply try_call_returned.
Qed.

(** With a sink that raises nothing but [FailSafeException], every stage
    returns. *)
Ltac sink_cases Hk :=
  repeat (cbn in *;
    first
    [ match goal with
      | |- context [if ?b then _ else _] => destruct b eqn:?
      end
    | match goal with
      | |- context [match ?k ?c with Ok => _ | FailSafe => _ | Failure => _ end] =>
          let E := fresh "E" in
          destruct (k c) eqn:E; [| |exfalso; exact (Hk c E)]
      end ]).

Lemma primary_pinch_returned cfg f s :
  failsafe_only (f_sink f) -> returned (primary_pinch cfg f s) = true.
Proof.
  intros Hk. unfold primary_pinch, try_call, skip, andthen.
  sink_cases Hk; reflexivity.
Qed.

Lemma secondary_pinch_returned cfg f s :
  failsafe_only (f_sink f) -> returned (secondary_pinch cfg f s) = true.
Proof.
  intros Hk. unfold secondary_pinch, try_call, skip, andthen.
  sink_cases Hk; reflexivity.
Qed.

Lemma andthen_returns r k :
  returned r = true -> (forall s, returned (k s) = true) -> returned (r ;; k) = true.
Proof.
  destruct r as [s c|s c]; simpl; [|discriminate].
  intros _ Hk. specialize (Hk s). destruct (k s); [reflexivity|discriminate].
Qed.

Lemma handle_mouse_control_returned cfg f s :
  failsafe_only (f_sink f) -> returned (handle_mouse_control cfg f s) = true.
Proof.
  intros Hk. unfold handle_mouse_control.
  repeat apply andthen_returns; intros;
    auto using move_cursor_returned, primary_pinch_returned, secondary_pinch_returned.
Qed.

(** The click switch is not touched by [handle_mouse_control]. *)
Lemma handle_mouse_control_click_enabled cfg f s :
  click_enabled (state_of (handle_mouse_control cfg f s)) = click_enabled s.
Proof.
  unfold handle_mouse_control.
  apply (andthen_preserves (fun s' => click_enabled s' = click_enabled s));
    [apply (andthen_preserves (fun s' => click_enabled s' = click_enabled s))|].
  - destruct (move_cursor_effect cfg f s) as [h ->]. reflexivity.
  - intros s1 <-. unfold primary_pinch, try_call, skip, andthen.
    destruct s1; stage_cases; reflexivity.
  - intros s1 <-. unfold secondary_pinch, try_call, skip, andthen.
    destruct s1; stage_cases; reflexivity.
Qed.

(** The pinch flag after a frame that runs to its end, click control on. *)
Lemma handle_mouse_control_pinch_active cfg f s :
  failsafe_only (f_sink f) ->
  click_enabled s = true ->
  pinch_active (state_of (handle_mouse_control cfg f s)) =
  if pinch_active s
  then negb (Qgt_b (thumb_index_distance (f_data f)) (pinch_off cfg)
             || negb (index_extended (f_data f)))
  else index_extended (f_data f)
       && Qlt_b (thumb_index_distance (f_data f)) (pinch_on cfg).
Proof.
  intros Hk Hc. unfold handle_mouse_control.
  pose proof (move_cursor_returned cfg f s Hk) as Hr.
  destruct (move_cursor_effect cfg f s) as [h Hh].
  destruct (move_cursor cfg f s) as [s1 c1|s1 c1]; [|discriminate].
  simpl in Hh; subst s1. clear Hr.
  pose proof (primary_pinch_returned cfg f (set_cursor_history h s) Hk) as Hr.
  rewrite state_of_andthen. cbn [andthen].
  destruct (primary_pinch cfg f (set_cursor_history h s)) as [s2 c2|s2 c2] eqn:Hp;
    [|discriminate].
  clear Hr.
  assert (Hs2 : pinch_active (state_of (secondary_pinch cfg f s2)) = pinch_active s2).
  { unfold secondary_pinch, try_call, skip, andthen.
    destruct s2; stage_cases; reflexivity. }
  rewrite Hs2. clear Hs2.
  replace s2 with (state_of (primary_pinch cfg f (set_cursor_history h s)))
    by (rewrite Hp; reflexivity).
  clear Hp. revert Hc.
  unfold primary_pinch, try_call, skip, andthen.
  destruct s; cbn. intros ->.
  sink_cases Hk; reflexivity.
Qed.

Lemma visited_cons cfg f fs s :
  failsafe_only (f_sink f) ->
  visited cfg (f :: fs) s = s :: visited cfg fs (state_of (handle_mouse_control cfg f s)).
Proof.
  intros Hk. pose proof (handle_mouse_control_returned cfg f s Hk) as Hr.
  simpl. destruct (handle_mouse_control cfg f s); [reflexivity|discriminate].
Qed.

Lemma count_edges_visited_cons cfg p f fs s :
  failsafe_only (f_sink f) ->
  count_edges p (visited cfg (f :: fs) s) =
  ((if p s (state_of (handle_mouse_control cfg f s)) then 1 else 0)
   + count_edges p (visited cfg fs (state_of (handle_mouse_control cfg f s))))%nat.
Proof.
  intros Hk. rewrite (visited_cons cfg f fs s Hk).
  destruct fs; reflexivity.
Qed.

Lemma above_releases cfg f s :
  pinch_on cfg < pinch_off cfg ->
  pointing f -> above cfg f -> click_enabled s = true ->
  idle (state_of (handle_mouse_control cfg f s)).
Proof.
  intros Hcfg [Hext Hk] Ha Hc. split.
  - now rewrite handle_mouse_control_click_enabled.
  - rewrite handle_mouse_control_pinch_active by assumption.
    unfold above in Ha. rewrite Hext.
    destruct (pinch_active s); cbn.
    + replace (Qgt_b _ _) with true; [reflexivity|]. symmetry. qprop. lra.
    + qprop. lra.
Qed.

Lemma below_arms cfg f s :
  pointing f -> below cfg f -> idle s ->
  armed (state_of (handle_mouse_control cfg f s)).
Proof.
  intros [Hext Hk] Hb [Hc Hp]. split.
  - now rewrite handle_mouse_control_click_enabled.
  - rewrite handle_mouse_control_pinch_active by assumption.
    rewrite Hp, Hext. cbn. qprop. exact Hb.
Qed.

(** Inside the band, or below it, an armed channel stays armed. *)
Lemma not_above_holds cfg f s :
  pointing f -> thumb_index_distance (f_data f) <= pinch_off cfg -> armed s ->
  armed (state_of (handle_mouse_control cfg f s)).
Proof.
  intros [Hext Hk] Hd [Hc Hp]. split.
  - now rewrite handle_mouse_control_click_enabled.
  - rewrite handle_mouse_control_pinch_active by assumption.
    rewrite Hp, Hext. cbn. rewrite orb_false_r. apply negb_true_iff.
    qprop. exact Hd.
Qed.

(** Samples strictly inside the band, and with [pinch_on < pinch_off]
    samples below [pinch_on], are not above [pinch_off]; samples inside
    the band or above it are not below [pinch_on]. *)
Lemma in_band_not_above cfg f : in_band cfg f -> not_above cfg f.
Proof. unfold in_band, not_above. intros [_ H]. lra. Qed.

Lemma in_band_not_below cfg f : in_band cfg f -> not_below cfg f.
Proof. unfold in_band, not_below. intros [H _]. lra. Qed.

Lemma below_not_above cfg f :
  pinch_on cfg < pinch_off cfg -> below cfg f -> not_above cfg f.
Proof. unfold below, not_above. intros H1 H2. lra. Qed.

Lemma above_not_below cfg f :
  pinch_on cfg < pinch_off cfg -> above cfg f -> not_below cfg f.
Proof. unfold above, not_below. intros H1 H2. lra. Qed.

(** Not below [pinch_on], an idle channel stays idle. *)
Lemma not_below_stays_idle cfg f s :
  pointing f -> not_below cfg f -> idle s ->
  idle (state_of (handle_mouse_control cfg f s)).
Proof.
  intros [Hext Hk] Hd [Hc Hp]. split.
  - now rewrite handle_mouse_control_click_enabled.
  - rewrite handle_mouse_control_pinch_active by assumption.
    rewrite Hp, Hext. cbn. qprop. exact Hd.
Qed.

(** A stretch of frames that keep the flag at [b]: the flag is [b] in
    every state of the stretch, and the stretch holds no arm and no
    release. *)
Lemma steady_frames cfg (b : bool) (P : frame -> Prop) (seg rest : list frame) :
  (forall f s, pointing f -> P f ->
     click_enabled s = true /\ pinch_active s = b ->
     click_enabled (state_of (handle_mouse_control cfg f s)) = true /\
     pinch_active (state_of (handle_mouse_control cfg f s)) = b) ->
  Forall pointing seg -> Forall P seg ->
  forall s, click_enabled s = true /\ pinch_active s = b ->
  exists s', (click_enabled s' = true /\ pinch_active s' = b) /\
    map pinch_active (visited cfg (seg ++ rest) s)
      = repeat b (List.length seg) ++ map pinch_active (visited cfg rest s') /\
    count_edges is_arm (visited cfg (seg ++ rest) s)
      = count_edges is_arm (visited cfg rest s') /\
    count_edges is_release (visited cfg (seg ++ rest) s)
      = count_edges is_release (visited cfg rest s').
Proof.
  intros Hstep. induction seg as [|f seg IH]; intros Hp HP s Hs.
  - exists s. auto.
  - inversion Hp as [|? ? Hpf Hp']; inversion HP as [|? ? HPf HP']; subst.
    pose proof (Hstep f s Hpf HPf Hs) as Hs1.
    destruct (IH Hp' HP' _ Hs1) as (s' & Hs' & Et & Ea & Er).
    exists s'. split; [exact Hs'|].
    cbn [app]. rewrite !count_edges_visited_cons by apply Hpf.
    rewrite (visited_cons cfg f (seg ++ rest) s (proj2 Hpf)).
    cbn [map List.length repeat app]. rewrite Et, Ea, Er.
    unfold is_arm, is_release.
    destruct Hs as [_ ->], Hs1 as [_ ->]. destruct b; auto.
Qed.

(** C3: over a distance series that starts above [pinch_off], comes down
    to a first sample below [pinch_on] (whatever it passes on the way, the
    band included), then stays at or below [pinch_off] (further samples
    below [pinch_on], then any number of samples strictly inside the band)
    and at last rises above [pinch_off], pointing throughout and click
    control on, [pinch_active] is false up to the first sample below
    [pinch_on], true from that sample to the last sample before the rise,
    and false after the rise: the channel arms exactly once, at the first
    sample below [pinch_on], holds the arm across the band, and releases
    exactly once, at the sample above [pinch_off]. *)
Theorem C3_hysteresis_one_arm_one_release
    (cfg : config) (s : state) (hi : frame) (descent : list frame) (d : frame)
    (held : list frame) (up : frame) :
  pinch_on cfg < pinch_off cfg ->
  click_enabled s = true ->
  Forall pointing (hi :: descent ++ d :: held ++ [up]) ->
  above cfg hi ->
  Forall (not_below cfg) descent ->
  below cfg d ->
  Forall (not_above cfg) held ->
  above cfg up ->
  let s1 := state_of (handle_mouse_control cfg hi s) in
  let states := visited cfg (descent ++ d :: held ++ [up]) s1 in
  map pinch_active states
  = repeat false (List.length descent + 1)
    ++ repeat true (List.length held + 1) ++ [false] /\
  count_edges is_arm states = 1%nat /\
  count_edges is_release states = 1%nat.
Proof.
  intros Hcfg Hc Hp Hhi Hdesc Hd Hheld Hup s1 states. subst states.
  inversion Hp as [|? ? Hphi Hp']; subst.
  apply Forall_app in Hp'. destruct Hp' as [Hpdesc Hp'].
  inversion Hp' as [|? ? Hpd Hp'']; subst.
  apply Forall_app in Hp''. destruct Hp'' as [Hpheld Hpup].
  inversion Hpup as [|? ? Hpu _]; subst.
  pose proof (above_releases cfg hi s Hcfg Hphi Hhi Hc) as Hidle. fold s1 in Hidle.
  (* the descent: idle throughout *)
  destruct (steady_frames cfg false (not_below cfg) descent (d :: held ++ [up])
              (fun f s0 Hf HP Hs0 => not_below_stays_idle cfg f s0 Hf HP Hs0)
              Hpdesc Hdesc s1 Hidle) as (s2 & Hs2 & -> & -> & ->).
  (* the first sample below [pinch_on]: the arm *)
  pose proof (below_arms cfg d s2 Hpd Hd Hs2) as Harm.
  rewrite !count_edges_visited_cons by apply Hpd.
  rewrite (visited_cons cfg d (held ++ [up]) s2 (proj2 Hpd)). cbn [map].
  (* the held samples: armed throughout *)
  destruct (steady_frames cfg true (not_above cfg) held [up]
              (fun f s0 Hf HP Hs0 => not_above_holds cfg f s0 Hf HP Hs0)
              Hpheld Hheld _ Harm) as (s3 & Hs3 & -> & -> & ->).
  (* the rise: the release *)
  pose proof (above_releases cfg up s3 Hcfg Hpu Hup (proj1 Hs3)) as Hend.
  rewrite !count_edges_visited_cons by apply Hpu.
  rewrite (visited_cons cfg up [] s3 (proj2 Hpu)). cbn [map].
  unfold is_arm, is_release. cbn [visited map count_edges].
  destruct Hs2 as [_ Hs2], Harm as [_ Harm], Hs3 as [_ Hs3], Hend as [_ Hend].
  rewrite Hs2, Harm, Hs3, Hend. cbn [negb andb Nat.add].
  split; [|split; reflexivity].
  rewrite !repeat_app. cbn [repeat app]. rewrite <- !app_assoc. reflexivity.
Qed.

(** The series of Scenario A of the specification, 50, 40, 30, 20, 30,
    40, 50 px: the sample 40 on the way down is inside the band and does
    not arm, the sample 30 arms, 20, 30 and 40 hold, 50 releases. *)
Lemma C3_hysteresis_one_arm_one_release_witness :
  let s1 := state_of (handle_mouse_control default (mk_frame 10.00 true 50 100) init) in
  let states :=
    visited default
      ([mk_frame 10.05 true 40 100] ++
       mk_frame 10.10 true 30 100 ::
       [mk_frame 10.15 true 20 100; mk_frame 10.20 true 30 100;
        mk_frame 10.25 true 40 100] ++
       [mk_frame 10.30 true 50 100]) s1 in
  map pinch_active states = [false; false; true; true; true; true; false] /\
  count_edges is_arm states = 1%nat /\
  count_edges is_release states = 1%nat.
Proof.
  apply (C3_hysteresis_one_arm_one_release default init
           (mk_frame 10.00 true 50 100)
           [mk_frame 10.05 true 40 100]
           (mk_frame 10.10 true 30 100)
           [mk_frame 10.15 true 20 100; mk_frame 10.20 true 30 100;
            mk_frame 10.25 true 40 100]
           (mk_frame 10.30 true 50 100)).
  - reflexivity.
  - reflexivity.
  - repeat constructor; intros c; discriminate.
  - reflexivity.
  - repeat constructor. unfold not_below. cbn. lra.
  - reflexivity.
  - repeat constructor; unfold not_above; cbn; lra.
  - reflexivity.
Defined.

(** ** Arm cycles of the primary channel *)

(** On a frame that runs to its end, the primary channel's attributes and
    calls are those of [primary_pinch] alone. *)
Lemma handle_mouse_control_primary cfg f s :
  failsafe_only (f_sink f) ->
  exists s' c,
    handle_mouse_control cfg f s = Returned s' c /\
    primary_view s' = primary_view (state_of (primary_pinch cfg f s)) /\
    filter is_primary_call c = filter is_primary_call (calls_of (primary_pinch cfg f s)).
Proof.
  intros Hk.
  pose proof (handle_mouse_control_returned cfg f s Hk) as Hr.
  destruct (handle_mouse_control cfg f s) as [s' c|s' c] eqn:E; [|discriminate].
  exists s', c. split; [reflexivity|].
  replace s' with (state_of (handle_mouse_control cfg f s)) by (rewrite E; reflexivity).
  replace c with (calls_of (handle_mouse_control cfg f s)) by (rewrite E; reflexivity).
  clear E Hr s' c. unfold handle_mouse_control.
  pose proof (move_cursor_returned cfg f s Hk) as Hr.
  pose proof (move_cursor_calls cfg f s) as Hcalls.
  destruct (move_cursor_effect cfg f s) as [h Hh].
  destruct (move_cursor cfg f s) as [s1 c1|s1 c1]; [|discriminate].
  simpl in Hh, Hcalls; subst s1. clear Hr.
  assert (Hc1 : filter is_primary_call c1 = []).
  { clear -Hcalls. induction c1 as [|a c1 IH]; [reflexivity|].
    destruct (Hcalls a (or_introl eq_refl)) as (x & y & ->). cbn.
    apply IH. intros c Hin. apply Hcalls. now right. }
  clear Hcalls.
  rewrite state_of_andthen, calls_of_andthen. cbn [andthen].
  unfold primary_pinch, secondary_pinch, try_call, skip, andthen, primary_view.
  destruct s; cbn.
  sink_cases Hk; rewrite ?filter_app, ?Hc1; cbn; split; reflexivity.
Qed.

Lemma run_cons cfg f fs s s' c :
  handle_mouse_control cfg f s = Returned s' c ->
  primary_calls (run cfg (f :: fs) s)
    = filter is_primary_call c ++ primary_calls (run cfg fs s') /\
  state_of (run cfg (f :: fs) s) = state_of (run cfg fs s').
Proof.
  intros E. unfold primary_calls. cbn [run].
  rewrite calls_of_andthen, state_of_andthen, E, filter_app. split; reflexivity.
Qed.

Lemma view_armed_since t0 b s s' :
  primary_view s' = primary_view s -> armed_since t0 b s -> armed_since t0 b s'.
Proof.
  unfold primary_view, armed_since. intros E. injection E as -> -> -> -> _. auto.
Qed.

Lemma arm_step cfg f s :
  failsafe_only (f_sink f) ->
  click_enabled s = true -> pinch_active s = false -> drag_mode s = false ->
  index_extended (f_data f) = true ->
  thumb_index_distance (f_data f) < pinch_on cfg ->
  exists s' c,
    handle_mouse_control cfg f s = Returned s' c /\
    armed_since (f_time f) false s' /\
    filter is_primary_call c = [].
Proof.
  intros Hk Hc Hp Hd Hext Hlt.
  destruct (handle_mouse_control_primary cfg f s Hk) as (s' & c & E & Hv & Hcalls).
  exists s', c. split; [exact E|].
  apply Qlt_b_true in Hlt.
  revert Hv Hcalls. unfold primary_pinch, skip.
  rewrite Hc, Hp, Hext, Hlt. cbn. intros Hv ->. split; [|reflexivity].
  apply (view_armed_since _ _ _ _ Hv). unfold armed_since.
  destruct s; cbn in *; auto.
Qed.

Lemma held_step cfg f s t0 b :
  failsafe_only (f_sink f) ->
  armed_since t0 b s ->
  index_extended (f_data f) = true ->
  thumb_index_distance (f_data f) <= pinch_off cfg ->
  exists s' c,
    handle_mouse_control cfg f s = Returned s' c /\
    armed_since t0 (b || Qge_b (f_time f - t0) (drag_hold_threshold cfg)) s' /\
    filter is_primary_call c =
      if negb b && Qge_b (f_time f - t0) (drag_hold_threshold cfg)
      then [MouseDown] else [].
Proof.
  intros Hk (Hc & Hp & Ht & Hd) Hext Hle.
  destruct (handle_mouse_control_primary cfg f s Hk) as (s' & c & E & Hv & Hcalls).
  exists s', c. split; [exact E|].
  apply Qgt_b_false in Hle.
  revert Hv Hcalls. unfold primary_pinch, skip, try_call, andthen.
  rewrite Hc, Hp, Hext, Hle, Ht, Hd. cbn.
  destruct b; cbn.
  - intros Hv ->. split; [|reflexivity].
    apply (view_armed_since _ _ _ _ Hv). unfold armed_since. auto.
  - destruct (Qge_b (f_time f - t0) (drag_hold_threshold cfg)); cbn.
    + pose proof (Hk MouseDown) as HM.
      destruct (f_sink f MouseDown); [| |contradiction]; cbn;
        intros Hv ->; (split; [|reflexivity]);
        apply (view_armed_since _ _ _ _ Hv); unfold armed_since;
        destruct s; cbn in *; auto.
    + intros Hv ->. split; [|reflexivity].
      apply (view_armed_since _ _ _ _ Hv). unfold armed_since. auto.
Qed.

Lemma release_step cfg f s t0 b :
  failsafe_only (f_sink f) ->
  click_max_duration cfg < drag_hold_threshold cfg ->
  armed_since t0 b s ->
  pinch_off cfg < thumb_index_distance (f_data f) \/ index_extended (f_data f) = false ->
  drag_hold_threshold cfg <= f_time f - t0 ->
  exists s' c,
    handle_mouse_control cfg f s = Returned s' c /\
    pinch_active s' = false /\ drag_mode s' = false /\
    filter is_primary_call c = if b then [MouseUp] else [].
Proof.
  intros Hk Hcfg (Hc & Hp & Ht & Hd) Hrel Hdur.
  destruct (handle_mouse_control_primary cfg f s Hk) as (s' & c & E & Hv & Hcalls).
  exists s', c. split; [exact E|].
  assert (Hr : Qgt_b (thumb_index_distance (f_data f)) (pinch_off cfg)
               || negb (index_extended (f_data f)) = true).
  { apply orb_true_iff. destruct Hrel as [H|H].
    - left. qprop. exact H.
    - right. now rewrite H. }
  assert (Hclick : Qle_b (f_time f - t0) (click_max_duration cfg) = false)
    by (qprop; lra).
  revert Hv Hcalls. unfold primary_pinch, skip, try_call, andthen, primary_view.
  rewrite Hc, Hp, Hr, Ht, Hd, Hclick. cbn.
  destruct b; cbn.
  - pose proof (Hk MouseUp) as HM.
    destruct (f_sink f MouseUp); [| |contradiction]; cbn;
      intros Hv ->; injection Hv as _ -> _ -> _; auto.
  - intros Hv ->. injection Hv as _ -> _ -> _.
    destruct s; cbn in *; auto.
Qed.

Lemma held_phase cfg t0 (held rest : list frame) :
  Forall (fun f => failsafe_only (f_sink f)) held ->
  Forall (fun f => index_extended (f_data f) = true /\
                   thumb_index_distance (f_data f) <= pinch_off cfg) held ->
  forall s b, armed_since t0 b s ->
  let past := existsb (fun f => Qge_b (f_time f - t0) (drag_hold_threshold cfg)) held in
  exists s',
    armed_since t0 (b || past) s' /\
    primary_calls (run cfg (held ++ rest) s)
      = (if negb b && past then [MouseDown] else []) ++ primary_calls (run cfg rest s') /\
    state_of (run cfg (held ++ rest) s) = state_of (run cfg rest s').
Proof.
  induction held as [|f held IH]; intros Hk Hh s b Hs; cbv zeta; cbn [app existsb].
  - exists s. rewrite orb_false_r, andb_false_r. auto.
  - inversion Hk as [|? ? Hkf Hk']; inversion Hh as [|? ? [Hext Hle] Hh']; subst.
    destruct (held_step cfg f s t0 b Hkf Hs Hext Hle) as (s1 & c & E & Hs1 & Hc).
    destruct (IH Hk' Hh' _ _ Hs1) as (s' & Hs' & Hcalls & Hst).
    exists s'. rewrite orb_assoc. split; [exact Hs'|].
    destruct (run_cons cfg f (held ++ rest) s s1 c E) as [-> ->].
    rewrite Hc, Hcalls, Hst. split; [|reflexivity].
    destruct b, (Qge_b (f_time f - t0) (drag_hold_threshold cfg)); cbn; reflexivity.
Qed.

(** C2, as stated, fails: a pinch released 0.4 s after it armed, hence
    held for at least [drag_hold_threshold], whose only held frame came
    0.3 s after the arm, emits neither DragStart nor DragEnd. *)
Lemma C2_late_release_without_drag :
  arm_cycle default init (mk_frame 1.0 true 20 100)
    [mk_frame 1.3 true 30 100] (mk_frame 1.4 true 50 100) /\
  drag_hold_threshold default <= 1.4 - 1.0 /\
  primary_calls (run default late_release init) = [] /\
  primary_calls (run default late_release init) <> [MouseDown; MouseUp].
Proof.
  split; [|split; [|split]].
  - constructor; try reflexivity.
    + repeat constructor; intros c; discriminate.
    + split; reflexivity.
    + repeat constructor; vm_compute; discriminate.
    + left. reflexivity.
  - vm_compute. discriminate.
  - vm_compute. reflexivity.
  - vm_compute. discriminate.
Qed.

(** C2, amended: for every arm cycle of the primary channel released at
    least [drag_hold_threshold] after it armed, [click] is never issued; the
    calls of the cycle are exactly [mouseDown] then [mouseUp] when some
    held frame of the cycle came at least [drag_hold_threshold] after the
    arm (the escalation happens on a held frame only), and none otherwise;
    either way the release leaves the channel idle and not dragging. *)
Theorem C2_release_after_hold_never_clicks
    (cfg : config) (s : state) (arm : frame) (held : list frame) (rel : frame) :
  click_max_duration cfg < drag_hold_threshold cfg ->
  arm_cycle cfg s arm held rel ->
  drag_hold_threshold cfg <= f_time rel - f_time arm ->
  let r := run cfg (arm :: held ++ [rel]) s in
  ~ In Click (calls_of r) /\
  primary_calls r =
    (if held_past_threshold cfg arm held then [MouseDown; MouseUp] else []) /\
  pinch_active (state_of r) = false /\
  drag_mode (state_of r) = false.
Proof.
  intros Hcfg [Hc Hp Hd Hk [Hext Hlt] Hheld Hrel] Hdur r.
  inversion Hk as [|? ? Hka Hk']; subst.
  apply Forall_app in Hk'. destruct Hk' as [Hkh Hkr].
  inversion Hkr as [|? ? Hkrel _]; subst.
  destruct (arm_step cfg arm s Hka Hc Hp Hd Hext Hlt) as (s1 & c1 & E1 & Hs1 & Hc1).
  destruct (held_phase cfg (f_time arm) held [rel] Hkh Hheld s1 false Hs1)
    as (s2 & Hs2 & Hcalls & Hst).
  destruct (release_step cfg rel s2 (f_time arm) _ Hkrel Hcfg Hs2 Hrel Hdur)
    as (s3 & c3 & E3 & Hp3 & Hd3 & Hc3).
  destruct (run_cons cfg arm (held ++ [rel]) s s1 c1 E1) as [Er Es].
  destruct (run_cons cfg rel [] s2 s3 c3 E3) as [Er3 Es3].
  assert (Hcallsr :
    primary_calls r =
      if held_past_threshold cfg arm held then [MouseDown; MouseUp] else []).
  { subst r. rewrite Er, Hc1, Hcalls, Er3, Hc3. unfold held_past_threshold. cbn.
    destruct (existsb _ held); reflexivity. }
  split; [|split; [exact Hcallsr|]].
  - intros Hin.
    assert (Hin' : In Click (primary_calls r))
      by (apply filter_In; split; [exact Hin|reflexivity]).
    rewrite Hcallsr in Hin'.
    destruct (held_past_threshold cfg arm held); cbn in Hin';
      intuition discriminate.
  - subst r. rewrite Es, Hst, Es3. cbn. auto.
Qed.

Lemma C2_release_after_hold_never_clicks_witness :
  let r := run default
             (mk_frame 1.0 true 20 100
              :: [mk_frame 1.2 true 30 100; mk_frame 1.4 true 40 100]
              ++ [mk_frame 1.6 true 50 100]) init in
  ~ In Click (calls_of r) /\
  primary_calls r =
    (if held_past_threshold default (mk_frame 1.0 true 20 100)
          [mk_frame 1.2 true 30 100; mk_frame 1.4 true 40 100]
     then [MouseDown; MouseUp] else []) /\
  pinch_active (state_of r) = false /\
  drag_mode (state_of r) = false.
Proof.
  apply (C2_release_after_hold_never_clicks default init
           (mk_frame 1.0 true 20 100)
           [mk_frame 1.2 true 30 100; mk_frame 1.4 true 40 100]
           (mk_frame 1.6 true 50 100)).
  - reflexivity.
  - constructor; try reflexivity.
    + repeat constructor; intros c; discriminate.
    + split; reflexivity.
    + repeat constructor; vm_compute; discriminate.
    + left. reflexivity.
  - vm_compute. discriminate.
Defined.

(** In the witness above the second held frame is past the threshold, so
    the cycle is DragStart, DragEnd. *)
Example drag_cycle_calls :
  primary_calls
    (run default
       [mk_frame 1.0 true 20 100; mk_frame 1.2 true 30 100;
        mk_frame 1.4 true 40 100; mk_frame 1.6 true 50 100] init)
  = [MouseDown; MouseUp].
Proof. vm_compute. reflexivity. Qed.

(** ** Failing sink calls *)

Lemma andthen_assoc r k1 k2 :
  r ;; k1 ;; k2 = r ;; (fun s => k1 s ;; k2).
Proof.
  destruct r as [s c|s c]; cbn; [|reflexivity].
  destruct (k1 s) as [s1 c1|s1 c1]; cbn; [|reflexivity].
  destruct (k2 s1) as [s2 c2|s2 c2]; cbn; now rewrite app_assoc.
Qed.

Lemma move_cursor_failsafe cfg f s :
  failsafe_only (f_sink f) ->
  move_cursor cfg f s = move_cursor cfg (with_sink reliable f) s.
Proof.
  intros Hk. unfold move_cursor. cbn [with_sink f_data f_sink].
  destruct (mouse_control_enabled s && index_extended (f_data f)); [|reflexivity].
  destruct (smooth_cursor_position cfg _ _ s) as [s' [x y]].
  unfold try_call, reliable. specialize (Hk (MoveTo x y)).
  destruct (f_sink f (MoveTo x y)); [reflexivity|reflexivity|contradiction].
Qed.

(** The two pinch channels under a sink that raises nothing but
    [FailSafeException], against the same frame with a reliable sink. *)
Lemma pinches_failsafe cfg f s :
  failsafe_only (f_sink f) ->
  let r := primary_pinch cfg f s ;; secondary_pinch cfg f in
  let r' := primary_pinch cfg (with_sink reliable f) s
            ;; secondary_pinch cfg (with_sink reliable f) in
  returned r = true /\ returned r' = true /\
  calls_of r = calls_of r' /\
  forget_fired (state_of r) = forget_fired (state_of r').
Proof.
  intros Hk.
  unfold primary_pinch, secondary_pinch, try_call, skip, andthen, forget_fired, reliable.
  cbn [with_sink f_data f_sink f_time].
  destruct s; cbn.
  sink_cases Hk; try discriminate;
    rewrite ?andb_true_r, ?andb_false_r in *; try congruence;
    repeat split; reflexivity.
Qed.

End ControllerProps.
(** * Properties of the zone-typing keyboard *)
Module KeyboardProps.
Import Keyboard.

(** ** Mode cycling *)

Lemma init_consistent : consistent init.
Proof. split; [cbn; lia|reflexivity]. Qed.

Example successor_cycle :
  successor "LETTERS" = "NUMBERS"%string /\
  successor "NUMBERS" = "SYMBOLS"%string /\
  successor "SYMBOLS" = "ACTIONS"%string /\
  successor "ACTIONS" = "LETTERS"%string.
Proof. repeat split. Qed.

Lemma change_mode_successor s :
  consistent s ->
  current_mode (change_mode s) = successor (current_mode s) /\
  consistent (change_mode s).
Proof.
  intros [Hi Hm]. unfold successor. rewrite Hm. cbn in Hi.
  destruct s as [? ? ? ? ? ? ? ? ? m i]; cbn in *. clear Hm.
  do 4 (destruct i as [|i]; [repeat split; cbn; lia|]). lia.
Qed.

(** ** [process_gesture] on its tables *)

Example fist_is_space :
  process_gesture default init 10 0 (Some "mid_center"%string) = Action (Some " "%string).
Proof. reflexivity. Qed.

Example open_palm_on_top_is_backspace :
  process_gesture default init 10 5 (Some "top_right"%string)
  = Action (Some "BACKSPACE"%string).
Proof. reflexivity. Qed.

Example two_fingers_bottom_right_is_r :
  process_gesture default init 10 2 (Some "bot_right"%string) = Action (Some "r"%string).
Proof. reflexivity. Qed.

Example within_debounce_is_none :
  process_gesture default init 0.5 2 (Some "bot_right"%string) = Action None.
Proof. reflexivity. Qed.

Example six_fingers_is_none :
  process_gesture default init 10 6 (Some "bot_right"%string) = Action None.
Proof. reflexivity. Qed.

(** ** [process_gesture] in a mode without a table *)

(** C5: in the mode SYMBOLS, reached by cycling twice from the initial
    mode, [process_gesture] does not return [None] for one finger in the
    top-left zone: the look-up of the mode in [character_maps] raises
    [KeyError]. *)
Theorem C5_process_gesture_raises_in_symbols_mode :
  In (current_mode symbols_state) modes /\
  current_mode symbols_state = "SYMBOLS"%string /\
  assoc String.eqb (current_mode symbols_state) character_maps = None /\
  process_gesture default symbols_state 10 1 (Some "top_left"%string)
    = KeyError "SYMBOLS".
Proof.
  repeat split.
  cbn. auto.
Qed.

(** In every mode that has a table, [process_gesture] returns. *)
Lemma process_gesture_returns_with_table cfg s t fingers zone table :
  assoc String.eqb (current_mode s) character_maps = Some table ->
  exists a, process_gesture cfg s t fingers zone = Action a.
Proof.
  intros Ht. unfold process_gesture. rewrite Ht.
  repeat match goal with
  | |- context [if ?b then _ else _] => destruct b
  | |- context [match ?o with Some _ => _ | None => _ end] => destruct o
  end; eauto.
Qed.

(** The exception ends the loop: ten frames of one finger in the top-left
    zone, in the mode SYMBOLS, crash [run] at the confirming frame. *)
Example symbols_mode_crashes_run :
  r_status (run default (repeat (one_hand 10 1 "top_left") 10) symbols_state)
  = Crashed.
Proof. vm_compute. reflexivity. Qed.

(** ** The two-hands-open gesture *)

(** Case analysis on the tests of an iteration. *)
Ltac loop_cases :=
  repeat (cbn in *;
    match goal with
    | |- context [if ?b then _ else _] => destruct b eqn:?
    | |- context [match ?x with Action _ => _ | KeyError _ => _ end] => destruct x eqn:?
    | |- context [match ?x with Some _ => _ | None => _ end] => destruct x eqn:?
    | |- context [let '(_, _) := ?x in _] => destruct x eqn:?
    end).

(** With both hands open, tracking the primary hand types nothing and
    leaves the mode and the gesture clock alone. *)
Lemma track_hands_both_open cfg f s :
  both_hands_open (f_hands f) = true ->
  let r := track_hands cfg f s in
  r_status r = Running /\ r_events r = [] /\
  current_mode (r_state r) = current_mode s /\
  mode_index (r_state r) = mode_index s /\
  last_gesture_time (r_state r) = last_gesture_time s.
Proof.
  intros Hb. unfold track_hands, type_gesture. rewrite Hb.
  destruct (f_hands f) as [|h hs]; [discriminate|].
  rewrite andb_false_r. destruct s. loop_cases; auto.
Qed.

(** C9, as stated, fails: from NUMBERS, [change_mode] leads to SYMBOLS,
    the third of the four entries of [modes], not to ACTIONS. *)
Lemma C9_numbers_advances_to_symbols :
  current_mode (change_mode init) = "NUMBERS"%string /\
  current_mode (change_mode (change_mode init)) = "SYMBOLS"%string /\
  current_mode (change_mode (change_mode init)) <> "ACTIONS"%string.
Proof. repeat split. discriminate. Qed.

(** C9, amended: [change_mode] advances the mode by one step through the
    four-element cycle LETTERS, NUMBERS, SYMBOLS, ACTIONS, LETTERS.  A frame
    with two open hands more than 2.0 s after [last_gesture_time] (no key
    pressed) applies exactly one such advance and restarts the cooldown at
    the clock reading taken after it; a following two-open-hands frame
    within 2.0 s of that reading changes nothing. *)
Theorem C9_mode_cycle_has_four_steps (cfg : config) (s : state) (f : frame) :
  consistent s ->
  both_hands_open (f_hands f) = true ->
  f_key f = NoKey ->
  2.0 < t_mode f - last_gesture_time s ->
  let r := iteration cfg f s in
  current_mode (change_mode s) = successor (current_mode s) /\
  r_status r = Running /\
  mode_changes_of (r_events r) = [successor (current_mode s)] /\
  current_mode (r_state r) = successor (current_mode s) /\
  consistent (r_state r) /\
  last_gesture_time (r_state r) = t_mode_set f /\
  (forall f',
     both_hands_open (f_hands f') = true -> f_key f' = NoKey ->
     t_mode f' - t_mode_set f <= 2.0 ->
     mode_changes_of (r_events (iteration cfg f' (r_state r))) = [] /\
     current_mode (r_state (iteration cfg f' (r_state r))) = current_mode (r_state r)).
Proof.
  intros Hs Hb Hk Ht r.
  destruct (change_mode_successor s Hs) as [Hsucc _].
  split; [exact Hsucc|].
  destruct (track_hands_both_open cfg f s Hb) as (Hst & Hev & Hm & Hi & Hl).
  set (s1 := r_state (track_hands cfg f s)) in *.
  assert (Hs1 : consistent s1) by (unfold consistent; rewrite Hi, Hm; exact Hs).
  destruct (change_mode_successor s1 Hs1) as [Hsucc1 Hcons1].
  assert (Hr : r = {| r_status := Running;
                      r_state := set_last_gesture_time (t_mode_set f) (change_mode s1);
                      r_events := [ModeChanged (current_mode (change_mode s1))] |}).
  { subst r. unfold iteration, andthen. rewrite Hst, Hev. fold s1.
    unfold handle_mode_change. rewrite Hb, Hl.
    replace (Qgt_b (t_mode f - last_gesture_time s) 2.0) with true
      by (symmetry; qprop; exact Ht).
    cbn. unfold handle_key. rewrite Hk. reflexivity. }
  rewrite Hr. cbn [r_status r_state r_events].
  assert (Hcur : current_mode (set_last_gesture_time (t_mode_set f) (change_mode s1))
                 = successor (current_mode s))
    by (rewrite <- Hm, <- Hsucc1; reflexivity).
  split; [reflexivity|].
  split; [cbn [mode_changes_of flat_map app]; now rewrite Hsucc1, Hm|].
  split; [exact Hcur|].
  split; [exact Hcons1|]. split; [reflexivity|].
  intros f' Hb' Hk' Ht'.
  set (s2 := set_last_gesture_time (t_mode_set f) (change_mode s1)).
  destruct (track_hands_both_open cfg f' s2 Hb') as (Hst' & Hev' & Hm' & Hi' & Hl').
  unfold iteration, andthen. rewrite Hst', Hev'.
  unfold handle_mode_change. rewrite Hb', Hl'.
  replace (Qgt_b (t_mode f' - last_gesture_time s2) 2.0) with false
    by (symmetry; qprop; exact Ht').
  cbn. unfold handle_key. rewrite Hk'. cbn. split; [reflexivity|exact Hm'].
Qed.

Lemma C9_mode_cycle_has_four_steps_witness :
  let s := change_mode init in
  let f := two_open_hands 10 "mid_center" in
  let r := iteration default f s in
  current_mode (change_mode s) = successor (current_mode s) /\
  r_status r = Running /\
  mode_changes_of (r_events r) = [successor (current_mode s)] /\
  current_mode (r_state r) = successor (current_mode s) /\
  consistent (r_state r) /\
  last_gesture_time (r_state r) = t_mode_set f /\
  (forall f',
     both_hands_open (f_hands f') = true -> f_key f' = NoKey ->
     t_mode f' - t_mode_set f <= 2.0 ->
     mode_changes_of (r_events (iteration default f' (r_state r))) = [] /\
     current_mode (r_state (iteration default f' (r_state r))) = current_mode (r_state r)).
Proof.
  apply (C9_mode_cycle_has_four_steps default (change_mode init)
           (two_open_hands 10 "mid_center")).
  - split; [cbn; lia|reflexivity].
  - reflexivity.
  - reflexivity.
  - reflexivity.
Defined.

(** A gesture sustained for 5 s at 1 s per frame advances the mode twice:
    once when the cooldown has passed and again 3 s later. *)
Example sustained_two_hands_open :
  mode_changes_of
    (r_events (run default
       [two_open_hands 3 "mid_center"; two_open_hands 4 "mid_center";
        two_open_hands 5 "mid_center"; two_open_hands 6 "mid_center";
        two_open_hands 7 "mid_center"; two_open_hands 8 "mid_center"] init))
  = ["NUMBERS"; "SYMBOLS"]%string.
Proof. vm_compute. reflexivity. Qed.

(** ** Confirmation of a stable gesture *)

(** Histories read from their most recent entry. *)
Lemma rev_deque_append {A : Type} (n : nat) (x : A) (l : list A) :
  rev (deque_append n x l) = firstn n (x :: rev l).
Proof.
  unfold deque_append.
  replace (x :: rev l) with (rev (l ++ [x])) by (rewrite rev_app_distr; reflexivity).
  rewrite firstn_rev. reflexivity.
Qed.

Lemma last_n_rev {A : Type} (k : nat) (l : list A) :
  last_n k l = rev (firstn k (rev l)).
Proof.
  unfold last_n. rewrite firstn_rev, rev_involutive. reflexivity.
Qed.

Lemma last_3_deque_append {A : Type} (x : A) (l : list A) :
  last_n 3 (deque_append 5 x l) = rev (firstn 3 (x :: rev l)).
Proof.
  rewrite last_n_rev, rev_deque_append, firstn_firstn. reflexivity.
Qed.

Lemma length_deque_append {A : Type} (x : A) (l : list A) :
  List.length (deque_append 5 x l) = List.length (firstn 5 (x :: rev l)).
Proof.
  rewrite <- rev_deque_append, length_rev. reflexivity.
Qed.

(** [len(set(l)) == 1] on three entries. *)
Lemma all_same_3 {A : Type} (eqb : A -> A -> bool) (a b c : A) :
  (forall x y, eqb x y = true <-> x = y) ->
  all_same eqb [a; b; c] = true <-> a = b /\ b = c.
Proof.
  intros Heq.
  assert (Hrefl : forall x, eqb x x = true) by (intros x; apply Heq; reflexivity).
  unfold all_same. cbn.
  destruct (eqb b c) eqn:Ebc; cbn.
  - apply Heq in Ebc. subst c.
    destruct (eqb a b) eqn:Eab; cbn.
    + apply Heq in Eab. subst. split; auto.
    + split; [discriminate|]. intros [-> _]. rewrite Hrefl in Eab. discriminate.
  - destruct (eqb a b) eqn:Eab; cbn.
    + apply Heq in Eab. subst b. rewrite Ebc. cbn.
      split; [discriminate|]. intros [_ ->]. rewrite Hrefl in Ebc. discriminate.
    + destruct (eqb a c) eqn:Eac; cbn; (split; [discriminate|]);
        intros [-> _]; rewrite Hrefl in Eab; discriminate.
Qed.

Lemma nat_eqb_iff (x y : nat) : Nat.eqb x y = true <-> x = y.
Proof. apply Nat.eqb_eq. Qed.

Lemma zone_eqb_iff (x y : option string) :
  option_eqb String.eqb x y = true <-> x = y.
Proof.
  destruct x as [x|], y as [y|]; cbn; split; try discriminate; auto.
  - intros H. apply String.eqb_eq in H. now subst.
  - intros [= ->]. apply String.eqb_refl.
Qed.

Lemma iteration_stable_frame cfg c z f s :
  stable_frame c z f -> iteration cfg f s = track_hands cfg f s.
Proof.
  intros (_ & Hb & Hk). unfold iteration, andthen at 1 2.
  destruct (track_hands cfg f s) as [st s' ev]. cbn.
  destruct st; cbn; try reflexivity.
  unfold handle_mode_change. rewrite Hb. cbn.
  unfold handle_key. rewrite Hk. cbn. rewrite !app_nil_r. reflexivity.
Qed.

Lemma process_gesture_view cfg s s' t c z :
  typing_view s' = typing_view s ->
  process_gesture cfg s' t c z = process_gesture cfg s t c z.
Proof.
  unfold typing_view, process_gesture. intros [= _ -> ->]. reflexivity.
Qed.

(** The tests of [track_hands] on a primed state. *)
Lemma primed_tests (c : nat) (z : option string) (hc : list nat)
    (hz : list (option string)) tc tz :
  rev hc = c :: c :: tc -> rev hz = z :: z :: tz ->
  (3 <=? List.length (deque_append 5 c hc))%nat = true /\
  all_same Nat.eqb (last_n 3 (deque_append 5 c hc)) = true /\
  all_same (option_eqb String.eqb) (last_n 3 (deque_append 5 z hz)) = true.
Proof.
  intros Hc Hz.
  rewrite length_deque_append, !last_3_deque_append, Hc, Hz. cbn.
  split; [reflexivity|]. split.
  - apply (all_same_3 Nat.eqb); [exact nat_eqb_iff|auto].
  - apply (all_same_3 (option_eqb String.eqb)); [exact zone_eqb_iff|auto].
Qed.

Lemma primed_after (c : nat) (z : option string) (hc : list nat)
    (hz : list (option string)) tc tz :
  rev hc = c :: tc -> rev hz = z :: tz ->
  exists tc' tz',
    rev (deque_append 5 c hc) = c :: c :: tc' /\
    rev (deque_append 5 z hz) = z :: z :: tz'.
Proof.
  intros Hc Hz. rewrite !rev_deque_append, Hc, Hz. cbn. eauto.
Qed.

(** [execute_action] only ever writes the preview text. *)
Lemma execute_action_effect k action s :
  exists t, fst (execute_action k action s) = set_current_text t s.
Proof.
  assert (Hs : s = set_current_text (current_text s) s) by (destruct s; reflexivity).
  unfold execute_action, attempt, append_text.
  repeat match goal with
  | |- context [if ?b then _ else _] => destruct b
  | |- context [match ?k ?c with Ok => _ | FailSafe => _ | Failure => _ end] =>
      destruct (k c)
  end; cbn [fst]; eauto.
Qed.

(** The tests of [track_hands] on the first two frames of a run. *)
Lemma first_frame_tests (c c' : nat) (z z' : option string)
    (hc : list nat) (hz : list (option string)) tc tz :
  rev hc = c' :: tc -> rev hz = z' :: tz ->
  List.length tc = List.length tz ->
  (c', z') <> (c, z) ->
  (3 <=? List.length (deque_append 5 c hc))%nat = false \/
  all_same Nat.eqb (last_n 3 (deque_append 5 c hc))
  && all_same (option_eqb String.eqb) (last_n 3 (deque_append 5 z hz)) = false.
Proof.
  intros Hc Hz Hlen Hne.
  rewrite length_deque_append, !last_3_deque_append, Hc, Hz.
  destruct tc as [|x tc], tz as [|zx tz]; try discriminate; [left; reflexivity|].
  right. cbn [firstn rev app]. apply andb_false_iff.
  destruct (all_same Nat.eqb [x; c'; c]) eqn:E1; [|left; reflexivity].
  destruct (all_same (option_eqb String.eqb) [zx; z'; z]) eqn:E2; [|right; reflexivity].
  apply (all_same_3 Nat.eqb _ _ _ nat_eqb_iff) in E1.
  apply (all_same_3 (option_eqb String.eqb) _ _ _ zone_eqb_iff) in E2.
  destruct E1 as [_ ->], E2 as [_ ->]. contradiction Hne. reflexivity.
Qed.

Lemma second_frame_tests (c c' : nat) (z z' : option string)
    (hc : list nat) (hz : list (option string)) tc tz :
  rev hc = c :: c' :: tc -> rev hz = z :: z' :: tz ->
  (c', z') <> (c, z) ->
  (3 <=? List.length (deque_append 5 c hc))%nat = true /\
  all_same Nat.eqb (last_n 3 (deque_append 5 c hc))
  && all_same (option_eqb String.eqb) (last_n 3 (deque_append 5 z hz)) = false.
Proof.
  intros Hc Hz Hne.
  rewrite length_deque_append, !last_3_deque_append, Hc, Hz.
  split; [reflexivity|]. cbn [firstn rev app]. apply andb_false_iff.
  destruct (all_same Nat.eqb [c'; c; c]) eqn:E1; [|left; reflexivity].
  destruct (all_same (option_eqb String.eqb) [z'; z; z]) eqn:E2; [|right; reflexivity].
  apply (all_same_3 Nat.eqb _ _ _ nat_eqb_iff) in E1.
  apply (all_same_3 (option_eqb String.eqb) _ _ _ zone_eqb_iff) in E2.
  destruct E1 as [-> _], E2 as [-> _]. contradiction Hne. reflexivity.
Qed.

(** Reduces the projections and updates of the state, and nothing else. *)
Ltac fields :=
  cbn [typing_enabled current_text last_gesture_time finger_count_history last_finger_count gesture_confirmed
       confirmation_frames current_zone zone_history current_mode mode_index
       set_typing_enabled set_current_text set_last_gesture_time set_finger_count_history set_last_finger_count set_gesture_confirmed
       set_confirmation_frames set_current_zone set_zone_history set_current_mode set_mode_index
       r_status r_state r_events h_fingers h_zone typing_view] in *.

Lemma track_hands_first cfg c z f s :
  after_differing c z s -> stable_frame c z f ->
  let r := track_hands cfg f s in
  r_status r = Running /\ r_events r = [] /\
  typing_view (r_state r) = typing_view s /\
  half_primed c z (r_state r).
Proof.
  intros (hc & hz & c' & z' & Hc & Hz & Hlen & Hne) ((others & Hh) & Hb & Hk).
  assert (Hrc : rev (finger_count_history s) = c' :: rev hc)
    by (rewrite Hc, rev_app_distr; reflexivity).
  assert (Hrz : rev (zone_history s) = z' :: rev hz)
    by (rewrite Hz, rev_app_distr; reflexivity).
  assert (Hlen' : List.length (rev hc) = List.length (rev hz))
    by (rewrite !length_rev; exact Hlen).
  pose proof (first_frame_tests c c' z z' _ _ _ _ Hrc Hrz Hlen' Hne) as Ht.
  assert (Hhalf : half_primed c z
            (set_zone_history (deque_append 5 z (zone_history s))
               (set_finger_count_history (deque_append 5 c (finger_count_history s)) s))).
  { exists c', z', (firstn 3 (rev hc)), (firstn 3 (rev hz)).
    destruct s; fields. rewrite !rev_deque_append, Hrc, Hrz. cbn. auto. }
  clear Hc Hz Hlen Hlen' Hrc Hrz.
  unfold track_hands. rewrite Hh.
  destruct s; unfold half_primed in *; fields.
  destruct Ht as [Ht|Ht].
  - rewrite Ht. fields. auto.
  - destruct (3 <=? _)%nat; [rewrite Ht|]; fields; auto.
Qed.

Lemma track_hands_second cfg c z f s :
  half_primed c z s -> stable_frame c z f ->
  let r := track_hands cfg f s in
  r_status r = Running /\ r_events r = [] /\
  typing_view (r_state r) = typing_view s /\
  primed c z (r_state r) /\
  gesture_confirmed (r_state r) = false /\
  confirmation_frames (r_state r) = 0%nat.
Proof.
  intros (c' & z' & tc & tz & Hc & Hz & Hne) ((others & Hh) & Hb & Hk).
  destruct (second_frame_tests c c' z z' _ _ _ _ Hc Hz Hne) as [Hlen Ht].
  pose proof (primed_after c z _ _ _ _ Hc Hz) as Hp.
  unfold track_hands. rewrite Hh.
  destruct s; unfold primed; fields.
  rewrite Hlen, Ht. fields. auto 10.
Qed.

Lemma track_hands_counting cfg c z f s :
  primed c z s -> stable_frame c z f ->
  gesture_confirmed s = false ->
  (confirmation_frames s + 1 < required_confirmation cfg)%nat ->
  let r := track_hands cfg f s in
  r_status r = Running /\ r_events r = [] /\
  typing_view (r_state r) = typing_view s /\
  primed c z (r_state r) /\
  gesture_confirmed (r_state r) = false /\
  confirmation_frames (r_state r) = (confirmation_frames s + 1)%nat.
Proof.
  intros (tc & tz & Hc & Hz) ((others & Hh) & Hb & Hk) Hconf Hcf.
  destruct (primed_tests c z _ _ _ _ Hc Hz) as (Hlen & Ht1 & Ht2).
  pose proof (primed_after c z _ _ _ _ Hc Hz) as Hp.
  apply Nat.leb_gt in Hcf.
  unfold track_hands. rewrite Hh.
  destruct s; unfold primed; fields.
  rewrite Hlen, Ht1, Ht2, Hconf. cbn [andb negb]. fields.
  rewrite Hcf. fields. auto 10.
Qed.

Lemma track_hands_confirmed cfg c z f s :
  primed c z s -> stable_frame c z f ->
  gesture_confirmed s = true ->
  let r := track_hands cfg f s in
  r_status r = Running /\ r_events r = [] /\
  primed c z (r_state r) /\
  gesture_confirmed (r_state r) = true.
Proof.
  intros (tc & tz & Hc & Hz) ((others & Hh) & Hb & Hk) Hconf.
  destruct (primed_tests c z _ _ _ _ Hc Hz) as (Hlen & Ht1 & Ht2).
  pose proof (primed_after c z _ _ _ _ Hc Hz) as Hp.
  unfold track_hands. rewrite Hh.
  destruct s; unfold primed; fields.
  rewrite Hlen, Ht1, Ht2, Hconf. cbn [andb negb]. fields. auto.
Qed.

Lemma actions_of_sinks calls a :
  actions_of (map Sink calls ++ [ActionDone a]) = [a].
Proof.
  unfold actions_of. rewrite flat_map_app. cbn.
  induction calls as [|x calls IH]; [reflexivity|exact IH].
Qed.

Lemma track_hands_confirming cfg c z f s a :
  primed c z s -> stable_frame c z f ->
  gesture_confirmed s = false ->
  (required_confirmation cfg <= confirmation_frames s + 1)%nat ->
  typing_enabled s = true ->
  process_gesture cfg s (t_gesture f) c z = Action (Some a) ->
  nonempty a = true ->
  let r := track_hands cfg f s in
  r_status r = Running /\ actions_of (r_events r) = [a] /\
  primed c z (r_state r) /\
  gesture_confirmed (r_state r) = true.
Proof.
  intros (tc & tz & Hc & Hz) ((others & Hh) & Hb & Hk) Hconf Hcf Hty Hpg Ha.
  destruct (primed_tests c z _ _ _ _ Hc Hz) as (Hlen & Ht1 & Ht2).
  pose proof (primed_after c z _ _ _ _ Hc Hz) as Hp.
  apply Nat.leb_le in Hcf.
  unfold track_hands. rewrite Hh.
  destruct s; unfold primed; fields. subst.
  rewrite Hlen, Ht1, Ht2. cbn [andb negb]. fields.
  rewrite Hcf. unfold type_gesture. fields. rewrite Hb. cbn [andb negb].
  match type of Hpg with
  | process_gesture _ ?s0 _ _ _ = _ =>
      match goal with
      | |- context [process_gesture cfg ?s' _ _ _] =>
          rewrite (process_gesture_view cfg s0 s' (t_gesture f) c z eq_refl)
      end
  end.
  rewrite Hpg, Ha.
  match goal with
  | |- context [execute_action ?k ?act ?s'] =>
      destruct (execute_action_effect k act s') as [t Ht];
      destruct (execute_action k act s') as [s'' calls]
  end.
  cbn [fst] in Ht. subst s''. fields.
  split; [reflexivity|]. split; [apply actions_of_sinks|]. auto.
Qed.

(** A frame that prints nothing and leaves the loop running is invisible
    in the trace of [run]. *)
Lemma run_quiet cfg f fs s :
  r_status (iteration cfg f s) = Running ->
  r_events (iteration cfg f s) = [] ->
  run cfg (f :: fs) s = run cfg fs (r_state (iteration cfg f s)).
Proof.
  intros Hst Hev. cbn [run]. unfold andthen. rewrite Hst, Hev.
  destruct (run cfg fs _); reflexivity.
Qed.

Lemma run_loud cfg f fs s :
  r_status (iteration cfg f s) = Running ->
  r_status (run cfg (f :: fs) s) = r_status (run cfg fs (r_state (iteration cfg f s))) /\
  r_events (run cfg (f :: fs) s)
    = r_events (iteration cfg f s) ++ r_events (run cfg fs (r_state (iteration cfg f s))).
Proof.
  intros Hst. cbn [run]. unfold andthen. rewrite Hst. split; reflexivity.
Qed.

Lemma actions_of_app e1 e2 : actions_of (e1 ++ e2) = actions_of e1 ++ actions_of e2.
Proof. apply flat_map_app. Qed.

(** While the counter stays below [required_confirmation], a primed,
    unconfirmed state only counts. *)
Lemma counting_phase cfg c z (fs : list frame) :
  Forall (stable_frame c z) fs ->
  forall s,
    primed c z s -> gesture_confirmed s = false ->
    (confirmation_frames s + List.length fs < required_confirmation cfg)%nat ->
    exists s',
      (forall rest, run cfg (fs ++ rest) s = run cfg rest s') /\
      typing_view s' = typing_view s /\
      primed c z s' /\ gesture_confirmed s' = false /\
      confirmation_frames s' = (confirmation_frames s + List.length fs)%nat.
Proof.
  induction 1 as [|f fs Hf _ IH]; intros s Hp Hconf Hcf.
  - exists s. cbn. rewrite Nat.add_0_r. auto.
  - cbn [List.length] in Hcf.
    destruct (track_hands_counting cfg c z f s Hp Hf Hconf ltac:(lia))
      as (Hst & Hev & Hv & Hp1 & Hconf1 & Hcf1).
    rewrite <- (iteration_stable_frame cfg c z f s Hf) in Hst, Hev, Hv, Hp1, Hconf1, Hcf1.
    destruct (IH _ Hp1 Hconf1 ltac:(lia)) as (s' & Hrun & Hv' & Hp' & Hconf' & Hcf').
    exists s'. split; [|split; [congruence|split; [exact Hp'|split; [exact Hconf'|]]]].
    + intros rest. cbn [app]. rewrite run_quiet by assumption. apply Hrun.
    + rewrite Hcf', Hcf1. cbn [List.length]. lia.
Qed.

(** Once confirmed, the rest of the stable run is silent. *)
Lemma confirmed_phase cfg c z (fs : list frame) :
  Forall (stable_frame c z) fs ->
  forall s,
    primed c z s -> gesture_confirmed s = true ->
    r_status (run cfg fs s) = Running /\ r_events (run cfg fs s) = [].
Proof.
  induction 1 as [|f fs Hf _ IH]; intros s Hp Hconf.
  - split; reflexivity.
  - destruct (track_hands_confirmed cfg c z f s Hp Hf Hconf) as (Hst & Hev & Hp1 & Hconf1).
    rewrite <- (iteration_stable_frame cfg c z f s Hf) in Hst, Hev, Hp1, Hconf1.
    rewrite run_quiet by assumption. now apply IH.
Qed.

(** The first [required_confirmation + 1] frames of a stable run that
    follows a differing frame are silent and leave the counter one short
    of the requirement. *)
Lemma silent_prefix cfg c z (pre : list frame) s :
  (1 <= required_confirmation cfg)%nat ->
  after_differing c z s ->
  Forall (stable_frame c z) pre ->
  List.length pre = (required_confirmation cfg + 1)%nat ->
  exists s',
    (forall rest, run cfg (pre ++ rest) s = run cfg rest s') /\
    typing_view s' = typing_view s /\
    primed c z s' /\ gesture_confirmed s' = false /\
    (confirmation_frames s' + 1 = required_confirmation cfg)%nat.
Proof.
  intros Hrc Hs Hpre Hlen.
  destruct pre as [|f1 [|f2 mid]]; cbn [List.length] in Hlen; try lia.
  inversion Hpre as [|? ? Hf1 Hpre1]; subst.
  inversion Hpre1 as [|? ? Hf2 Hmid]; subst.
  destruct (track_hands_first cfg c z f1 s Hs Hf1) as (Hst1 & Hev1 & Hv1 & Hh1).
  rewrite <- (iteration_stable_frame cfg c z f1 s Hf1) in Hst1, Hev1, Hv1, Hh1.
  set (s1 := r_state (iteration cfg f1 s)) in *.
  destruct (track_hands_second cfg c z f2 s1 Hh1 Hf2)
    as (Hst2 & Hev2 & Hv2 & Hp2 & Hconf2 & Hcf2).
  rewrite <- (iteration_stable_frame cfg c z f2 s1 Hf2) in Hst2, Hev2, Hv2, Hp2, Hconf2, Hcf2.
  set (s2 := r_state (iteration cfg f2 s1)) in *.
  destruct (counting_phase cfg c z mid Hmid s2 Hp2 Hconf2 ltac:(lia))
    as (s3 & Hrun & Hv3 & Hp3 & Hconf3 & Hcf3).
  exists s3. split; [|split; [congruence|split; [exact Hp3|split; [exact Hconf3|lia]]]].
  intros rest. cbn [app].
  rewrite (run_quiet cfg f1) by assumption. fold s1.
  rewrite (run_quiet cfg f2) by assumption. fold s2.
  apply Hrun.
Qed.

(** C4, as stated, fails: with [required_confirmation = 8], a gesture held
    for exactly eight frames after a differing frame emits no symbol; nor
    does a ninth frame; the symbol is emitted at the tenth. *)
Lemma C4_eight_stable_frames_emit_nothing :
  required_confirmation default = 8%nat /\
  after_differing 1 (Some "top_left"%string) after_two_fingers /\
  typing_enabled after_two_fingers = true /\
  actions_of (r_events (run default (stable_run 8) after_two_fingers)) = [] /\
  actions_of (r_events (run default (stable_run 9) after_two_fingers)) = [] /\
  actions_of (r_events (run default (stable_run 10) after_two_fingers)) = ["a"%string].
Proof.
  split; [reflexivity|]. split.
  - exists [2; 2]%nat, [Some "mid_center"; Some "mid_center"]%string,
      2%nat, (Some "mid_center"%string).
    repeat split. discriminate.
  - repeat split; vm_compute; reflexivity.
Qed.

(** C4, amended: a (finger count, zone) pair held stable right after a
    differing frame (typing on, the two hands not both open, no key
    pressed, [required_confirmation >= 1]) emits nothing during its first
    [required_confirmation + 1] frames, because the confirmation counter
    only counts frames whose last three samples agree; at frame
    [required_confirmation + 2], if [process_gesture] yields an action
    there, that one action is executed, and no later frame of the same run
    emits anything. *)
Theorem C4_stable_run_emits_once_two_frames_late
    (cfg : config) (s : state) (c : nat) (z : option string) (a : string)
    (pre : list frame) (f : frame) (post : list frame) :
  (1 <= required_confirmation cfg)%nat ->
  typing_enabled s = true ->
  after_differing c z s ->
  Forall (stable_frame c z) (pre ++ f :: post) ->
  List.length pre = (required_confirmation cfg + 1)%nat ->
  process_gesture cfg s (t_gesture f) c z = Action (Some a) ->
  nonempty a = true ->
  actions_of (r_events (run cfg pre s)) = [] /\
  actions_of (r_events (run cfg (pre ++ [f]) s)) = [a] /\
  actions_of (r_events (run cfg (pre ++ f :: post) s)) = [a] /\
  r_status (run cfg (pre ++ f :: post) s) = Running.
Proof.
  intros Hrc Hty Hs Hall Hlen Hpg Ha.
  apply Forall_app in Hall. destruct Hall as [Hpre Hrest].
  inversion Hrest as [|? ? Hf Hpost]; subst.
  destruct (silent_prefix cfg c z pre s Hrc Hs Hpre Hlen)
    as (s3 & Hrun & Hv & Hp & Hconf & Hcf).
  assert (Hty3 : typing_enabled s3 = true).
  { unfold typing_view in Hv. injection Hv as -> _ _. exact Hty. }
  rewrite <- (process_gesture_view cfg s s3 _ _ _ Hv) in Hpg.
  destruct (track_hands_confirming cfg c z f s3 a Hp Hf Hconf ltac:(lia) Hty3 Hpg Ha)
    as (Hst & Hact & Hp4 & Hconf4).
  rewrite <- (iteration_stable_frame cfg c z f s3 Hf) in Hst, Hact, Hp4, Hconf4.
  destruct (confirmed_phase cfg c z post Hpost _ Hp4 Hconf4) as [Hstp Hevp].
  split; [|split; [|split]].
  - rewrite <- (app_nil_r pre), Hrun. reflexivity.
  - rewrite Hrun. destruct (run_loud cfg f [] s3 Hst) as [_ ->].
    rewrite actions_of_app, Hact. reflexivity.
  - rewrite Hrun. destruct (run_loud cfg f post s3 Hst) as [_ ->].
    rewrite actions_of_app, Hact, Hevp. reflexivity.
  - rewrite Hrun. destruct (run_loud cfg f post s3 Hst) as [-> _]. exact Hstp.
Qed.

Lemma C4_stable_run_emits_once_two_frames_late_witness :
  actions_of (r_events (run default (stable_run 9) after_two_fingers)) = [] /\
  actions_of (r_events (run default
     (stable_run 9 ++ [one_hand 10.36 1 "top_left"]) after_two_fingers))
    = ["a"%string] /\
  actions_of (r_events (run default
     (stable_run 9 ++ one_hand 10.36 1 "top_left"
        :: [one_hand 10.40 1 "top_left"; one_hand 10.44 1 "top_left"])
     after_two_fingers))
    = ["a"%string] /\
  r_status (run default
     (stable_run 9 ++ one_hand 10.36 1 "top_left"
        :: [one_hand 10.40 1 "top_left"; one_hand 10.44 1 "top_left"])
     after_two_fingers) = Running.
Proof.
  apply (C4_stable_run_emits_once_two_frames_late default after_two_fingers
           1%nat (Some "top_left"%string) "a"%string
           (stable_run 9) (one_hand 10.36 1 "top_left")
           [one_hand 10.40 1 "top_left"; one_hand 10.44 1 "top_left"]).
  - cbn. lia.
  - reflexivity.
  - exists [2; 2]%nat, [Some "mid_center"; Some "mid_center"]%string,
      2%nat, (Some "mid_center"%string).
    repeat split. discriminate.
  - repeat constructor; exists []; reflexivity.
  - reflexivity.
  - vm_compute. reflexivity.
  - reflexivity.
Defined.

End KeyboardProps.

(** * Properties of the virtual keyboard *)
Module VirtualKeyboardProps.
Import VirtualKeyboard.

(** Reduces the projections and updates of the state, and nothing else. *)
Ltac fields :=
  cbn [selection_method hover_key hover_started_at last_select_time pinch_active
       caps_lock shift_latched preview_text
       set_selection_method set_hover_key set_hover_started_at set_last_select_time
       set_pinch_active set_caps_lock set_shift_latched set_preview_text
       r_status r_state r_events ret] in *.

(** ** Modifiers in [type_key] *)

(** A one-character label is none of the named keys. *)
Lemma one_char_not_named (label named : string) :
  String.length label = 1%nat -> String.length named <> 1%nat ->
  String.eqb label named = false.
Proof.
  intros Hl Hn. apply String.eqb_neq. intros ->. contradiction.
Qed.

Lemma type_key_processed cfg k now label s :
  processed cfg now s ->
  type_key cfg k now label s =
  let r := type_key_body cfg k label (set_last_select_time now s) in
  {| r_status := r_status r;
     r_state := type_key_finally label (r_state r);
     r_events := r_events r |}.
Proof.
  intros Hp. unfold type_key.
  replace (Qlt_b _ _) with false by (symmetry; qprop; exact Hp).
  reflexivity.
Qed.

(** The body of [type_key] on a one-character label: one [typewrite] of
    the character, cased or shifted by the modifiers. *)
Lemma type_key_body_one_char cfg k label s :
  String.length label = 1%nat ->
  r_events (type_key_body cfg k label s) =
  [Sink (Typewrite
     (if str_isalpha label then
        if xorb (caps_lock s) (shift_latched s) then str_upper label else str_lower label
      else
        if shift_latched s then shifted_char label else label))].
Proof.
  intros Hl. unfold type_key_body, str_in, existsb.
  rewrite !(one_char_not_named label) by (assumption || (cbn; lia)).
  cbn [orb]. rewrite Hl. cbn [Nat.eqb]. unfold call.
  destruct (k _); reflexivity.
Qed.

(** C7, as stated, fails: Caps selected after Shift is processed and
    leaves the latch set. *)
Lemma C7_caps_after_shift_keeps_latch :
  let s1 := r_state (type_key default reliable 1 "Shift" init) in
  let s2 := r_state (type_key default reliable 2 "Caps" s1) in
  shift_latched s1 = true /\
  processed default 2 s1 /\
  last_select_time s2 = 2 /\
  shift_latched s2 = true.
Proof.
  cbn. repeat split. unfold processed. cbn. lra.
Qed.

(** C7, amended: a processed selection of Shift sets the latch; the next
    processed selection of any key other than Shift and Caps clears it,
    alphabetic or not, whether or not the sink call succeeds, while a
    selection of Caps toggles Caps and leaves the latch as it was; a
    one-character alphabetic label is typed in upper case exactly when Caps
    XOR latch holds; a one-character non-alphabetic label is typed through
    the shift table when the latch is set.  With Caps off, Shift then 'a'
    types 'A' and a following 'b' types 'b'. *)
Theorem C7_shift_is_one_shot_except_on_caps
    (cfg : config) (k : sink) (now : Q) (label : string) (s : state) :
  processed cfg now s ->
  let r := type_key cfg k now label s in
  (label = "Shift"%string -> shift_latched (r_state r) = true) /\
  (label <> "Shift"%string -> label <> "Caps"%string ->
     shift_latched (r_state r) = false) /\
  (label = "Caps"%string ->
     shift_latched (r_state r) = shift_latched s /\
     caps_lock (r_state r) = negb (caps_lock s)) /\
  (String.length label = 1%nat -> str_isalpha label = true ->
     typed_of (r_events r) =
       [if xorb (caps_lock s) (shift_latched s)
        then str_upper label else str_lower label]) /\
  (String.length label = 1%nat -> str_isalpha label = false ->
     typed_of (r_events r) =
       [if shift_latched s then shifted_char label else label]) /\
  (caps_lock s = false ->
   forall t2 t3,
     select_debounce cfg <= t2 - now -> select_debounce cfg <= t3 - t2 ->
     let s1 := r_state (type_key cfg reliable now "Shift" s) in
     let r2 := type_key cfg reliable t2 "a" s1 in
     let r3 := type_key cfg reliable t3 "b" (r_state r2) in
     typed_of (r_events r2) = ["A"%string] /\
     typed_of (r_events r3) = ["b"%string]).
Proof.
  intros Hp r. subst r. rewrite (type_key_processed cfg k now label s Hp). cbv zeta.
  split; [|split; [|split; [|split; [|split]]]].
  - intros ->. destruct s; cbn. reflexivity.
  - intros H1 H2. fields. unfold type_key_finally.
    assert (Hin : str_in label ["Shift"; "Caps"]%string = false).
    { unfold str_in, existsb.
      apply String.eqb_neq in H1, H2. now rewrite H1, H2. }
    rewrite Hin. cbn [negb]. rewrite andb_true_r.
    destruct (shift_latched (r_state _)) eqn:E; [reflexivity|exact E].
  - intros ->. destruct s as [? ? ? ? ? ? latched ?]; cbn.
    destruct latched; split; reflexivity.
  - intros Hl Ha. fields. rewrite (type_key_body_one_char cfg k label _ Hl), Ha.
    destruct s; reflexivity.
  - intros Hl Ha. fields. rewrite (type_key_body_one_char cfg k label _ Hl), Ha.
    destruct s; reflexivity.
  - intros Hcaps t2 t3 H2 H3.
    rewrite (type_key_processed cfg reliable now "Shift" s Hp). cbv zeta.
    set (s1 := r_state _).
    assert (Hs1 : last_select_time s1 = now /\ caps_lock s1 = false /\
                  shift_latched s1 = true).
    { subst s1. destruct s; cbn in *. auto. }
    destruct Hs1 as (Hl1 & Hc1 & Hsh1).
    assert (Hp2 : processed cfg t2 s1) by (unfold processed; rewrite Hl1; exact H2).
    rewrite (type_key_processed cfg reliable t2 "a" s1 Hp2). cbv zeta. fields.
    split.
    + rewrite type_key_body_one_char by reflexivity. fields.
      rewrite Hc1, Hsh1. reflexivity.
    + set (s2 := type_key_finally _ _).
      assert (Hs2 : last_select_time s2 = t2 /\ caps_lock s2 = false /\
                    shift_latched s2 = false).
      { subst s2. destruct s1; cbn in *. subst. cbn. auto. }
      destruct Hs2 as (Hl2 & Hc2 & Hsh2).
      assert (Hp3 : processed cfg t3 s2) by (unfold processed; rewrite Hl2; exact H3).
      rewrite (type_key_processed cfg reliable t3 "b" s2 Hp3). cbv zeta. fields.
      rewrite type_key_body_one_char by reflexivity. fields.
      rewrite Hc2, Hsh2. reflexivity.
Qed.

Lemma C7_shift_is_one_shot_except_on_caps_witness :
  let s1 := r_state (type_key default reliable 1 "Shift" init) in
  let r2 := type_key default reliable 2 "a" s1 in
  let r3 := type_key default reliable 3 "b" (r_state r2) in
  typed_of (r_events r2) = ["A"%string] /\
  typed_of (r_events r3) = ["b"%string].
Proof.
  apply (C7_shift_is_one_shot_except_on_caps default reliable 1 "Shift" init).
  - unfold processed. cbn. lra.
  - reflexivity.
  - cbn. lra.
  - cbn. lra.
Defined.

(** Shift then a digit types the shifted symbol and clears the latch. *)
Example shift_then_digit :
  let s1 := r_state (type_key default reliable 1 "Shift" init) in
  let r2 := type_key default reliable 2 "1" s1 in
  typed_of (r_events r2) = ["!"%string] /\ shift_latched (r_state r2) = false.
Proof. cbn. split; reflexivity. Qed.

(** ** Dwell selection *)

















(** The resumed hover fires at its first frame, at hover duration 0. *)
Example resumed_hover_fires_at_once :
  firing_times default
    (interrupted_hover ++ [hover_frame 8.0 "A"]) init = [8.0].
Proof. vm_compute. reflexivity. Qed.

(** Frames every 0.75 s over 2.25 s fire three times, the floor of
    2.25 / 0.7. *)
Example hover_every_three_quarters :
  firing_times default
    [hover_frame 5.0 "A"; hover_frame 5.75 "A"; hover_frame 6.5 "A"; hover_frame 7.25 "A"]
    init
  = [5.75; 6.5; 7.25] /\
  Qfloor ((7.25 - 5.0) / dwell_threshold default) = 3%Z.
Proof. split; vm_compute; reflexivity. Qed.

End VirtualKeyboardProps.

(** * Properties across the controllers *)
Module LoopProps.

(** ** Failures of the input sink *)

(** C6, as stated, fails: an exception of [click] other than
    [FailSafeException] escapes [handle_mouse_control], and the pinch flag
    it leaves differs from the one a successful call leaves. *)
Lemma C6_click_failure_escapes_handle_mouse_control :
  Controller.returned
    (Controller.handle_mouse_control Controller.default
       Controller.release_with_failing_click Controller.pinched) = false /\
  Controller.pinch_active
    (Controller.state_of
       (Controller.handle_mouse_control Controller.default
          Controller.release_with_failing_click Controller.pinched)) = true /\
  Controller.pinch_active
    (Controller.state_of
       (Controller.handle_mouse_control Controller.default
          (Controller.mk_frame 1.1 true 50 100) Controller.pinched)) = false.
Proof. vm_compute. repeat split. Qed.

(** In the virtual keyboard no handler surrounds the sink calls of
    [type_key]: a failing [typewrite] ends the loop. *)
Example type_key_failure_ends_the_loop :
  VirtualKeyboard.r_status
    (VirtualKeyboard.type_key VirtualKeyboard.default (fun _ => Failure) 1 "a"
       VirtualKeyboard.init)
  = VirtualKeyboard.Crashed.
Proof. reflexivity. Qed.

Lemma execute_action_any_sink k action s :
  snd (Keyboard.execute_action k action s)
    = snd (Keyboard.execute_action reliable action s) /\
  Keyboard.forget_text (fst (Keyboard.execute_action k action s))
    = Keyboard.forget_text (fst (Keyboard.execute_action reliable action s)).
Proof.
  unfold Keyboard.execute_action, Keyboard.attempt, Keyboard.append_text,
    Keyboard.forget_text, reliable.
  destruct s; cbn.
  repeat match goal with
  | |- context [if ?b then _ else _] => destruct b; cbn
  | |- context [match ?k ?c with Ok => _ | FailSafe => _ | Failure => _ end] =>
      destruct (k c); cbn
  end; split; reflexivity.
Qed.

(** C6, amended: in [handle_mouse_control] a [FailSafeException] raised by
    a sink call, and in [execute_action] any exception raised by a sink
    call, is caught at the call site: the method returns, issues the same
    calls as with a sink that never fails, and leaves the same state except
    for the record of the fired event ([last_click_time],
    [last_right_click_time], [current_text]); the typing step around
    [execute_action] keeps the loop running whenever [process_gesture]
    returned. *)
Theorem C6_caught_sink_failures_leave_channel_state
    (ccfg : Controller.config) (cf : Controller.frame) (cs : Controller.state)
    (k : sink) (action : string) (ks : Keyboard.state) :
  failsafe_only (Controller.f_sink cf) ->
  let r := Controller.handle_mouse_control ccfg cf cs in
  let r' := Controller.handle_mouse_control ccfg
              (Controller.with_sink reliable cf) cs in
  Controller.returned r = true /\
  Controller.calls_of r = Controller.calls_of r' /\
  Controller.forget_fired (Controller.state_of r)
    = Controller.forget_fired (Controller.state_of r') /\
  snd (Keyboard.execute_action k action ks)
    = snd (Keyboard.execute_action reliable action ks) /\
  Keyboard.forget_text (fst (Keyboard.execute_action k action ks))
    = Keyboard.forget_text (fst (Keyboard.execute_action reliable action ks)) /\
  (forall kcfg kf fingers zone a,
     Keyboard.process_gesture kcfg ks (Keyboard.t_gesture kf) fingers zone
       = Keyboard.Action a ->
     Keyboard.r_status (Keyboard.type_gesture kcfg kf fingers zone ks)
       = Keyboard.Running).
Proof.
  intros Hk r r'.
  split; [exact (ControllerProps.handle_mouse_control_returned ccfg cf cs Hk)|].
  assert (H : Controller.calls_of r = Controller.calls_of r' /\
              Controller.forget_fired (Controller.state_of r)
              = Controller.forget_fired (Controller.state_of r')).
  { subst r r'. unfold Controller.handle_mouse_control.
    rewrite !ControllerProps.andthen_assoc.
    rewrite <- (ControllerProps.move_cursor_failsafe ccfg cf cs Hk).
    rewrite !ControllerProps.state_of_andthen, !ControllerProps.calls_of_andthen.
    destruct (Controller.move_cursor ccfg cf cs) as [s1 c1|s1 c1];
      [|split; reflexivity].
    destruct (ControllerProps.pinches_failsafe ccfg cf s1 Hk) as (_ & _ & Hc & Hs).
    cbv zeta in Hc, Hs. rewrite Hc, Hs. split; reflexivity. }
  destruct H as [Hc Hs]. split; [exact Hc|]. split; [exact Hs|].
  destruct (execute_action_any_sink k action ks) as [Hcalls Hstate].
  split; [exact Hcalls|]. split; [exact Hstate|].
  intros kcfg kf fingers zone a Hpg. unfold Keyboard.type_gesture.
  destruct (Keyboard.typing_enabled ks && _); [|reflexivity].
  rewrite Hpg. destruct a as [a|]; [|reflexivity].
  destruct (nonempty a); [|reflexivity].
  destruct (Keyboard.execute_action _ a ks). reflexivity.
Qed.

Lemma C6_caught_sink_failures_leave_channel_state_witness :
  let cf := Controller.with_sink always_failsafe
              (Controller.mk_frame 1.1 true 50 100) in
  let r := Controller.handle_mouse_control Controller.default cf Controller.pinched in
  let r' := Controller.handle_mouse_control Controller.default
              (Controller.with_sink reliable cf) Controller.pinched in
  Controller.returned r = true /\
  Controller.calls_of r = Controller.calls_of r' /\
  Controller.forget_fired (Controller.state_of r)
    = Controller.forget_fired (Controller.state_of r') /\
  snd (Keyboard.execute_action (fun _ => Failure) "a" Keyboard.init)
    = snd (Keyboard.execute_action reliable "a" Keyboard.init) /\
  Keyboard.forget_text (fst (Keyboard.execute_action (fun _ => Failure) "a" Keyboard.init))
    = Keyboard.forget_text (fst (Keyboard.execute_action reliable "a" Keyboard.init)) /\
  (forall kcfg kf fingers zone a,
     Keyboard.process_gesture kcfg Keyboard.init (Keyboard.t_gesture kf) fingers zone
       = Keyboard.Action a ->
     Keyboard.r_status (Keyboard.type_gesture kcfg kf fingers zone Keyboard.init)
       = Keyboard.Running).
Proof.
  apply (C6_caught_sink_failures_leave_channel_state Controller.default
           (Controller.with_sink always_failsafe
              (Controller.mk_frame 1.1 true 50 100))
           Controller.pinched (fun _ => Failure) "a"%string Keyboard.init).
  intros c. discriminate.
Defined.

(** ** Frames without a hand *)




End LoopProps.

(** * Further properties of the pointer controller *)
Module ControllerLoopProps.
Import Controller ControllerProps.

(** ** Debounce of the clicks *)

Lemma move_cursor_existsb cfg f s (p : sink_call -> bool) :
  (forall x y, p (MoveTo x y) = false) ->
  existsb p (calls_of (move_cursor cfg f s)) = false.
Proof.
  intros Hp. destruct (existsb p _) eqn:E; [|reflexivity].
  apply existsb_exists in E. destruct E as (c & Hin & Hc).
  destruct (move_cursor_calls cfg f s c Hin) as (x & y & ->).
  rewrite Hp in Hc. discriminate.
Qed.

Lemma handle_mouse_control_pinches cfg f s :
  handle_mouse_control cfg f s = move_cursor cfg f s ;; pinches cfg f.
Proof. unfold handle_mouse_control. apply andthen_assoc. Qed.

(** What a frame does to [last_click_time]: it becomes the frame's clock
    reading when [click] was issued and returned, which needs the debounce
    to have passed; otherwise it is left alone. *)
Lemma pinches_click cfg f s :
  let r := pinches cfg f s in
  let done := existsb is_click (calls_of r) && returns (f_sink f Click) in
  (done = true ->
     last_click_time s + click_debounce cfg < f_time f /\
     last_click_time (state_of r) = f_time f) /\
  (done = false -> last_click_time (state_of r) = last_click_time s).
Proof.
  unfold pinches, primary_pinch, secondary_pinch, try_call, skip, andthen.
  destruct s; cbn.
  stage_cases; cbn; (split; [intros Hd|intros Hd]); try discriminate;
    try reflexivity;
    split_tests; qprop; try (split; [lra|reflexivity]);
    try match goal with H : ?k Click = _ |- _ => rewrite H in * end;
    cbn in *; try discriminate; try reflexivity.
Qed.

Lemma click_step cfg f s :
  let r := handle_mouse_control cfg f s in
  (clicked cfg f s = true ->
     last_click_time s + click_debounce cfg < f_time f /\
     last_click_time (state_of r) = f_time f) /\
  (clicked cfg f s = false ->
     last_click_time (state_of r) = last_click_time s).
Proof.
  cbv zeta. unfold clicked. rewrite handle_mouse_control_pinches.
  rewrite state_of_andthen, calls_of_andthen.
  pose proof (move_cursor_existsb cfg f s is_click (fun _ _ => eq_refl)) as Hm.
  destruct (move_cursor_effect cfg f s) as [h Hh].
  destruct (move_cursor cfg f s) as [s1 c1|s1 c1]; cbn in Hm, Hh; subst s1.
  - rewrite existsb_app, Hm. cbn [orb].
    destruct (pinches_click cfg f (set_cursor_history h s)) as [H1 H2].
    split; intros Hd; [apply H1 in Hd|apply H2 in Hd]; exact Hd.
  - rewrite Hm. cbn. split; [discriminate|reflexivity].
Qed.

(** The same for [last_right_click_time]; a right-click also comes at
    least [right_click_hold_threshold] after the arm of its pinch. *)
Lemma pinches_right_click cfg f s :
  let r := pinches cfg f s in
  let done := existsb is_right_click (calls_of r) && returns (f_sink f RightClick) in
  (done = true ->
     last_right_click_time s + right_click_debounce cfg < f_time f /\
     last_right_click_time (state_of r) = f_time f) /\
  (done = false -> last_right_click_time (state_of r) = last_right_click_time s).
Proof.
  unfold pinches, primary_pinch, secondary_pinch, try_call, skip, andthen.
  destruct s; cbn.
  stage_cases; cbn; (split; [intros Hd|intros Hd]); try discriminate;
    try reflexivity;
    split_tests; qprop; try (split; [lra|reflexivity]);
    try match goal with H : ?k RightClick = _ |- _ => rewrite H in * end;
    cbn in *; try discriminate; try reflexivity.
Qed.

Lemma right_click_step cfg f s :
  let r := handle_mouse_control cfg f s in
  (right_clicked cfg f s = true ->
     last_right_click_time s + right_click_debounce cfg < f_time f /\
     last_right_click_time (state_of r) = f_time f) /\
  (right_clicked cfg f s = false ->
     last_right_click_time (state_of r) = last_right_click_time s).
Proof.
  cbv zeta. unfold right_clicked. rewrite handle_mouse_control_pinches.
  rewrite state_of_andthen, calls_of_andthen.
  pose proof (move_cursor_existsb cfg f s is_right_click (fun _ _ => eq_refl)) as Hm.
  destruct (move_cursor_effect cfg f s) as [h Hh].
  destruct (move_cursor cfg f s) as [s1 c1|s1 c1]; cbn in Hm, Hh; subst s1.
  - rewrite existsb_app, Hm. cbn [orb].
    destruct (pinches_right_click cfg f (set_cursor_history h s)) as [H1 H2].
    split; intros Hd; [apply H1 in Hd|apply H2 in Hd]; exact Hd.
  - rewrite Hm. cbn. split; [discriminate|reflexivity].
Qed.

(** A stamp that every firing frame sets to its clock reading, more than
    [gap] after its previous value, and that no other frame touches, keeps
    the firings more than [gap] apart. *)
Lemma firing_times_apart cfg (fired : config -> frame -> state -> bool)
    (stamp : state -> Q) (gap : Q) :
  (forall f s,
     (fired cfg f s = true ->
        stamp s + gap < f_time f /\
        stamp (state_of (handle_mouse_control cfg f s)) = f_time f) /\
     (fired cfg f s = false ->
        stamp (state_of (handle_mouse_control cfg f s)) = stamp s)) ->
  forall fs s, apart gap (stamp s) (firing_times cfg fired fs s).
Proof.
  intros Hstep. induction fs as [|f fs IH]; intros s; [exact I|].
  cbn [firing_times]. destruct (Hstep f s) as [Hyes Hno].
  destruct (fired cfg f s).
  - destruct (Hyes eq_refl) as [Hgap Hst]. cbn [app]. split; [lra|].
    destruct (handle_mouse_control cfg f s) as [s' c|s' c]; [|exact I].
    cbn in Hst. rewrite <- Hst. apply IH.
  - specialize (Hno eq_refl). cbn [app].
    destruct (handle_mouse_control cfg f s) as [s' c|s' c]; [|exact I].
    cbn in Hno. rewrite <- Hno. apply IH.
Qed.

(** X1: in every run, whatever the sink does, two frames whose [click]
    returned are more than [click_debounce] apart, and the first comes more
    than [click_debounce] after the initial [last_click_time]. *)
Theorem X1_clicks_are_more_than_debounce_apart
    (cfg : config) (fs : list frame) (s : state) :
  apart (click_debounce cfg) (last_click_time s) (firing_times cfg clicked fs s).
Proof.
  apply firing_times_apart. intros f s'. apply click_step.
Qed.

(** X2: in every run, whatever the sink does, two frames whose
    [rightClick] returned are more than [right_click_debounce] apart. *)
Theorem X2_right_clicks_are_more_than_debounce_apart
    (cfg : config) (fs : list frame) (s : state) :
  apart (right_click_debounce cfg) (last_right_click_time s)
        (firing_times cfg right_clicked fs s).
Proof.
  apply firing_times_apart. intros f s'. apply right_click_step.
Qed.

(** Two quick pinches 0.3 s apart: the second, inside the debounce of
    0.5 s, does not click. *)
Example second_quick_pinch_is_debounced :
  firing_times default clicked
    [mk_frame 1.0 true 20 100; mk_frame 1.1 true 50 100;
     mk_frame 1.3 true 20 100; mk_frame 1.4 true 50 100;
     mk_frame 1.7 true 20 100; mk_frame 1.8 true 50 100] init
  = [1.1; 1.8].
Proof. vm_compute. reflexivity. Qed.

(** ** The mouse button over a whole execution *)


Lemma button_after_primary held c :
  button_after held (filter is_primary_call c) = button_after held c.
Proof.
  revert held. induction c as [|x c IH]; intros held; [reflexivity|].
  destruct x; cbn; try apply IH; destruct held; try reflexivity; apply IH.
Qed.

Lemma obedient_failsafe_only (k : sink) :
  (forall c, k c = Ok) -> failsafe_only k.
Proof. intros H c. rewrite H. discriminate. Qed.

(** A frame whose sink calls return drives the button as the drag flag
    says. *)
Lemma handle_mouse_control_button cfg f s :
  (forall c, f_sink f c = Ok) ->
  exists s' c,
    handle_mouse_control cfg f s = Returned s' c /\
    button_after (drag_mode s) c = Some (drag_mode s').
Proof.
  intros Hk.
  destruct (handle_mouse_control_primary cfg f s (obedient_failsafe_only _ Hk))
    as (s' & c & E & Hv & Hc).
  exists s', c. split; [exact E|].
  rewrite <- button_after_primary, Hc, button_after_primary.
  assert (Hd : drag_mode s' = drag_mode (state_of (primary_pinch cfg f s)))
    by (unfold primary_view in Hv; congruence).
  rewrite Hd. clear -Hk.
  unfold primary_pinch, try_call, skip, andthen. rewrite !Hk.
  destruct s; cbn. stage_cases; cbn in *; subst; try reflexivity;
    split_tests; try discriminate; reflexivity.
Qed.






Example interrupted_drag_calls :
  filter is_primary_call (program_calls default interrupted_drag init)
  = [MouseDown; MouseUp].
Proof. vm_compute. reflexivity. Qed.

(** The [mouseUp] of a recalibration is not guarded: if it raises during a
    drag the loop ends with the drag flag still set, and [cleanup] calls
    [mouseUp] again. *)
Example recalibration_with_failing_release :
  let s := l_state (loop default [mk_tick 1.0 20 100 NoKey; mk_tick 1.4 20 100 NoKey] init) in
  let t := {| t_ok := true; t_hand := None; t_key := KeySpace;
              t_sink := fun _ => FailSafe |} in
  drag_mode s = true /\
  l_status (loop default [t] s) = Crashed /\
  program_calls default [t] s = [MouseUp; MouseUp].
Proof. vm_compute. repeat split. Qed.

(** ** The two switches *)

(** X4: while click control is off, [handle_mouse_control] issues no call
    other than [moveTo] and changes nothing but the cursor history: the
    pinch flags, the drag flag and the click stamps stay as they are, so a
    drag in progress remains in progress. *)
Theorem X4_click_control_off_freezes_the_channels
    (cfg : config) (f : frame) (s : state) :
  click_enabled s = false ->
  let r := handle_mouse_control cfg f s in
  (forall c, In c (calls_of r) -> exists x y, c = MoveTo x y) /\
  (exists h, state_of r = set_cursor_history h s).
Proof.
  intros Hc r. subst r. rewrite handle_mouse_control_pinches.
  rewrite state_of_andthen, calls_of_andthen.
  pose proof (move_cursor_calls cfg f s) as Hcalls.
  destruct (move_cursor_effect cfg f s) as [h Hh].
  assert (Hp : forall s1, click_enabled s1 = false -> pinches cfg f s1 = Returned s1 []).
  { intros s1 H1. unfold pinches, primary_pinch, secondary_pinch, skip, andthen.
    rewrite H1. cbn. rewrite H1. reflexivity. }
  destruct (move_cursor cfg f s) as [s1 c1|s1 c1]; cbn in Hh, Hcalls; subst s1.
  - rewrite Hp by (destruct s; exact Hc). cbn. rewrite app_nil_r.
    split; [exact Hcalls|eauto].
  - split; [exact Hcalls|eauto].
Qed.

Lemma X4_click_control_off_freezes_the_channels_witness :
  let r := handle_mouse_control default (mk_frame 2.0 true 100 100)
             dragging_switched_off in
  (forall c, In c (calls_of r) -> exists x y, c = MoveTo x y) /\
  (exists h, state_of r = set_cursor_history h dragging_switched_off).
Proof.
  apply (X4_click_control_off_freezes_the_channels default
           (mk_frame 2.0 true 100 100) dragging_switched_off).
  reflexivity.
Defined.

Example drag_survives_click_control_off :
  drag_mode dragging_switched_off = true /\
  drag_mode (state_of (handle_mouse_control default (mk_frame 2.0 true 100 100)
                         dragging_switched_off)) = true.
Proof. vm_compute. split; reflexivity. Qed.

(** ** The cursor history *)

Lemma deque_append_length {A : Type} (n : nat) (x : A) (l : list A) :
  List.length (deque_append n x l) = Nat.min n (List.length l + 1).
Proof.
  unfold deque_append. rewrite length_skipn, length_app. cbn. lia.
Qed.

Lemma handle_mouse_control_history cfg f s :
  cursor_history (state_of (handle_mouse_control cfg f s)) = cursor_history s \/
  cursor_history (state_of (handle_mouse_control cfg f s))
    = deque_append (history_maxlen cfg) (cursor_pos (f_data f)) (cursor_history s).
Proof.
  assert (Hm : cursor_history (state_of (move_cursor cfg f s)) = cursor_history s \/
               cursor_history (state_of (move_cursor cfg f s))
               = deque_append (history_maxlen cfg) (cursor_pos (f_data f))
                   (cursor_history s)).
  { unfold move_cursor.
    destruct (mouse_control_enabled s && index_extended (f_data f)); [|now left].
    right.
    destruct (smooth_cursor_position cfg (fst (cursor_pos (f_data f)))
                (snd (cursor_pos (f_data f))) s) as [s' [x y]] eqn:E.
    assert (Hs' : cursor_history s'
                  = deque_append (history_maxlen cfg) (cursor_pos (f_data f))
                      (cursor_history s)).
    { unfold smooth_cursor_position in E.
      rewrite (surjective_pairing (cursor_pos (f_data f))).
      destruct (1 <? _)%nat; injection E as <- _ _; reflexivity. }
    unfold try_call. destruct (f_sink f (MoveTo x y)); exact Hs'. }
  assert (Hp : forall s1,
             cursor_history (state_of (pinches cfg f s1)) = cursor_history s1).
  { intros s1. unfold pinches, primary_pinch, secondary_pinch, try_call, skip, andthen.
    destruct s1; cbn. stage_cases; reflexivity. }
  rewrite handle_mouse_control_pinches, state_of_andthen.
  destruct (move_cursor cfg f s) as [s1 c1|s1 c1]; cbn in Hm; [rewrite Hp|]; exact Hm.
Qed.

Lemma iteration_bounded cfg t s :
  bounded cfg s -> bounded cfg (l_state (iteration cfg t s)).
Proof.
  unfold bounded. intros Hb. unfold iteration.
  destruct (t_ok t); cbn; [|exact Hb].
  assert (Hr : forall r,
             (List.length (cursor_history (state_of r)) <= history_maxlen cfg)%nat ->
             (List.length (cursor_history (l_state
                match r with
                | Returned s' calls =>
                    {| l_status := l_status (handle_key t s');
                       l_state := l_state (handle_key t s');
                       l_calls := calls ++ l_calls (handle_key t s') |}
                | Raised s' calls =>
                    {| l_status := Crashed; l_state := s'; l_calls := calls |}
                end)) <= history_maxlen cfg)%nat).
  { intros [s' c|s' c]; cbn; [|auto]. intros H.
    unfold handle_key, recalibrate.
    destruct (t_key t); cbn; auto; try lia.
    destruct (drag_mode s'); [destruct (t_sink t MouseUp)|]; cbn; lia. }
  apply Hr. destruct (t_hand t) as [[g now]|]; [|exact Hb].
  destruct (handle_mouse_control_history cfg (frame_of t g now) s) as [->| ->];
    [exact Hb|].
  rewrite deque_append_length. lia.
Qed.

(** X5: along every execution of the loop of [run] from the initial
    state, whatever the gestures, keys and sink failures, the cursor history
    never holds more than [history_maxlen] samples. *)
Theorem X5_cursor_history_is_bounded (cfg : config) (ts : list tick) :
  (List.length (cursor_history (l_state (loop cfg ts init))) <= history_maxlen cfg)%nat.
Proof.
  assert (H : forall s, bounded cfg s -> bounded cfg (l_state (loop cfg ts s))).
  { induction ts as [|t ts IH]; intros s Hs; [exact Hs|].
    cbn [loop]. pose proof (iteration_bounded cfg t s Hs) as H1.
    destruct (l_status (iteration cfg t s)); [|exact H1|exact H1].
    cbn. apply IH. exact H1. }
  apply H. unfold bounded. cbn. lia.
Qed.

(** X6: a recalibration (space key, sink calls returning) leaves the
    history empty, no drag and both pinch channels idle; the next cursor
    move, with mouse control on and the index finger extended, goes to the
    raw fingertip position, unsmoothed. *)
Theorem X6_recalibration_restarts_smoothing
    (cfg : config) (t : tick) (s : state) (f : frame) :
  obedient t -> t_ok t = true -> t_key t = KeySpace ->
  let s1 := l_state (iteration cfg t s) in
  mouse_control_enabled s1 = true ->
  index_extended (f_data f) = true ->
  (cursor_history s1 = [] /\ drag_mode s1 = false /\
   pinch_active s1 = false /\ right_pinch_active s1 = false) /\
  calls_of (move_cursor cfg f s1)
    = [MoveTo (fst (cursor_pos (f_data f))) (snd (cursor_pos (f_data f)))].
Proof.
  intros Hk Hok Hkey s1 Hm Hext.
  assert (Hs1 : cursor_history s1 = [] /\ drag_mode s1 = false /\
                pinch_active s1 = false /\ right_pinch_active s1 = false).
  { subst s1. unfold iteration. rewrite Hok. cbn [negb].
    assert (Hr : exists s' c,
               match t_hand t with
               | Some (g, now) => handle_mouse_control cfg (frame_of t g now) s
               | None => skip s
               end = Returned s' c).
    { destruct (t_hand t) as [[g now]|].
      - destruct (handle_mouse_control_button cfg (frame_of t g now) s Hk)
          as (s' & c & E & _). eauto.
      - exists s, []. reflexivity. }
    destruct Hr as (s' & c & ->). cbn.
    unfold handle_key, recalibrate. rewrite Hkey, (Hk MouseUp).
    destruct s'; cbn. destruct drag_mode0; cbn; auto. }
  split; [exact Hs1|].
  destruct Hs1 as (Hh & _). unfold move_cursor, smooth_cursor_position.
  rewrite Hm, Hext, Hh. cbn [andb].
  assert (Hlen : (1 <? List.length
                    (deque_append (history_maxlen cfg)
                       (fst (cursor_pos (f_data f)), snd (cursor_pos (f_data f)))
                       [])) %nat = false).
  { apply Nat.ltb_ge. rewrite deque_append_length. cbn. lia. }
  rewrite Hlen. unfold try_call. destruct (f_sink f _); reflexivity.
Qed.

Lemma X6_recalibration_restarts_smoothing_witness :
  let s1 := l_state (iteration default (mk_tick 1.5 20 100 KeySpace)
                       dragging_switched_off) in
  let f := {| f_sink := reliable;
              f_data := {| cursor_pos := (640, 360)%Z; index_extended := true;
                           thumb_index_distance := 100;
                           thumb_middle_distance := 100 |};
              f_time := 2.0 |} in
  (cursor_history s1 = [] /\ drag_mode s1 = false /\
   pinch_active s1 = false /\ right_pinch_active s1 = false) /\
  calls_of (move_cursor default f s1) = [MoveTo 640 360].
Proof.
  apply (X6_recalibration_restarts_smoothing default
           (mk_tick 1.5 20 100 KeySpace) dragging_switched_off
           {| f_sink := reliable;
              f_data := {| cursor_pos := (640, 360)%Z; index_extended := true;
                           thumb_index_distance := 100;
                           thumb_middle_distance := 100 |};
              f_time := 2.0 |}).
  - intros c. reflexivity.
  - reflexivity.
  - reflexivity.
  - reflexivity.
  - reflexivity.
Defined.

End ControllerLoopProps.

(** * Further properties of the zone-typing keyboard *)
Module KeyboardMoreProps.
Import Keyboard KeyboardProps.

(** ** Zones *)

Lemma literals_ordered : 0 < lit_033 /\ lit_033 < lit_066 /\ lit_066 < 1.
Proof. unfold lit_033, lit_066. repeat split; reflexivity. Qed.

(** Case analysis on every comparison of the goal, dropping the cases the
    order of the rationals excludes. *)
Ltac cmp_cases :=
  repeat match goal with
  | |- context [Qle_b ?a ?b] =>
      let E := fresh "E" in
      destruct (Qle_b a b) eqn:E;
      [apply Qle_b_true in E|apply Qle_b_false in E];
      try (exfalso; lra)
  end.

(** X7: [get_hand_zone] returns a zone exactly when the index fingertip
    lies in the unit square, and then the zone in row-major position
    3 * (third of y) + (third of x) of [zone_names], a point on a border
    belonging to the zone on its left or above. *)
Theorem X7_zones_tile_the_unit_square (l : landmarks) :
  get_hand_zone l =
  if inside (l 8%nat)
  then Some (nth (3 * band (py (l 8%nat)) + band (px (l 8%nat))) zone_names EmptyString)
  else None.
Proof.
  destruct literals_ordered as (H0 & H1 & H2).
  unfold get_hand_zone, create_zones, first_zone, in_zone, inside, band.
  generalize (px (l 8%nat)) (py (l 8%nat)). intros x y.
  generalize dependent lit_066. generalize dependent lit_033. intros a H0 b H1 H2.
  cmp_cases; reflexivity.
Qed.

Lemma band_lt_3 v : (band v < 3)%nat.
Proof. unfold band. destruct (Qle_b v lit_033), (Qle_b v lit_066); lia. Qed.

(** A zone [get_hand_zone] returns is in the list [get_zone_index]
    searches, at the index [get_zone_index] returns: the fallback to 0 is
    not used. *)
Lemma get_hand_zone_indexed l z :
  get_hand_zone l = Some z ->
  exists k, (k < 9)%nat /\ z = nth k zone_names EmptyString /\
            index_of z zone_names = Some k /\ get_zone_index z = k.
Proof.
  destruct literals_ordered as (H0 & H1 & H2).
  unfold get_hand_zone, create_zones, first_zone, in_zone.
  generalize (px (l 8%nat)) (py (l 8%nat)). intros x y.
  generalize dependent lit_066. generalize dependent lit_033. intros a H0 b H1 H2.
  cmp_cases; cbn; intros Ez; try discriminate; injection Ez as <-;
    first [ exists 0%nat; split; [lia | repeat split; reflexivity]
          | exists 1%nat; split; [lia | repeat split; reflexivity]
          | exists 2%nat; split; [lia | repeat split; reflexivity]
          | exists 3%nat; split; [lia | repeat split; reflexivity]
          | exists 4%nat; split; [lia | repeat split; reflexivity]
          | exists 5%nat; split; [lia | repeat split; reflexivity]
          | exists 6%nat; split; [lia | repeat split; reflexivity]
          | exists 7%nat; split; [lia | repeat split; reflexivity]
          | exists 8%nat; split; [lia | repeat split; reflexivity] ].
Qed.

Lemma get_hand_zone_inside l :
  inside (l 8%nat) = true -> exists z, get_hand_zone l = Some z.
Proof.
  destruct literals_ordered as (H0 & H1 & H2).
  unfold get_hand_zone, create_zones, first_zone, in_zone, inside.
  generalize (px (l 8%nat)) (py (l 8%nat)). intros x y.
  generalize dependent lit_066. generalize dependent lit_033. intros a H0 b H1 H2.
  cmp_cases; cbn; intros Ez; try discriminate; eexists; reflexivity.
Qed.

(** ** Finger count *)

Lemma count_fingers_le_5 lm : (count_fingers lm <= 5)%nat.
Proof.
  destruct lm as [l|]; [|cbn; lia].
  unfold count_fingers. cbn [seq fold_left].
  repeat match goal with
  | |- context [if ?b then _ else _] => destruct b
  end; lia.
Qed.

(** ** From the hand to the symbol *)

Lemma process_gesture_after_debounce cfg s t c z :
  gesture_debounce cfg <= t - last_gesture_time s ->
  process_gesture cfg s t c z = gesture_symbol (current_mode s) c z.
Proof.
  intros H. unfold process_gesture, gesture_symbol.
  destruct (Qlt_b (t - last_gesture_time s) (gesture_debounce cfg)) eqn:E;
    [apply Qlt_b_true in E; lra|reflexivity].
Qed.

Lemma process_gesture_symbol_or_nothing cfg s t c z :
  process_gesture cfg s t c z = Action None \/
  process_gesture cfg s t c z = gesture_symbol (current_mode s) c z.
Proof.
  unfold process_gesture, gesture_symbol.
  destruct (Qlt_b (t - last_gesture_time s) (gesture_debounce cfg)); auto.
Qed.

(** What the tables give for the finger counts [count_fingers] returns and
    the zones [get_hand_zone] returns. *)
Lemma gesture_symbol_of_hand mode c k :
  str_in mode ["LETTERS"; "NUMBERS"; "ACTIONS"]%string = true ->
  (c <= 5)%nat -> (k < 9)%nat ->
  exists a,
    gesture_symbol mode c (Some (nth k zone_names EmptyString)) = Action (Some a) /\
    nonempty a = true /\
    (a = " "%string \/ a = "BACKSPACE"%string \/ In a (symbols_of mode)) /\
    ~ In a shadowed.
Proof.
  intros Hm Hc Hk.
  assert (Hmode : mode = "LETTERS"%string \/ mode = "NUMBERS"%string \/
                  mode = "ACTIONS"%string).
  { cbn in Hm.
    destruct (String.eqb_spec mode "LETTERS"); auto.
    destruct (String.eqb_spec mode "NUMBERS"); auto.
    destruct (String.eqb_spec mode "ACTIONS"); auto.
    discriminate. }
  assert (Hcs : In c (seq 0 6)) by (apply in_seq; lia).
  assert (Hks : In k (seq 0 9)) by (apply in_seq; lia).
  cbn in Hcs, Hks.
  destruct Hmode as [->|[->| ->]];
    repeat (destruct Hcs as [<-|Hcs]; [|]); try contradiction;
    repeat (destruct Hks as [<-|Hks]; [|]); try contradiction;
    eexists; (split; [vm_compute; reflexivity|]);
    (split; [reflexivity|]);
    (split; [vm_compute; tauto|]);
    vm_compute; intuition discriminate.
Qed.

(** X8: in a mode that has a table, once the debounce has passed, every
    hand whose index fingertip lies in the unit square gives a symbol:
    [count_fingers] stays within the five rows of the table and
    [get_hand_zone] within its nine columns, so the [None] exits of the
    look-up in [process_gesture] are never taken. *)
Theorem X8_every_hand_in_view_gives_a_symbol
    (cfg : config) (s : state) (t : Q) (l : landmarks) :
  gesture_debounce cfg <= t - last_gesture_time s ->
  str_in (current_mode s) ["LETTERS"; "NUMBERS"; "ACTIONS"]%string = true ->
  inside (l 8%nat) = true ->
  exists a,
    process_gesture cfg s t (count_fingers (Some l)) (get_hand_zone l)
    = Action (Some a) /\
    nonempty a = true /\
    (a = " "%string \/ a = "BACKSPACE"%string \/ In a (symbols_of (current_mode s))).
Proof.
  intros Ht Hm Hin.
  destruct (get_hand_zone_inside l Hin) as [z Hz].
  destruct (get_hand_zone_indexed l z Hz) as (k & Hk & -> & _).
  destruct (gesture_symbol_of_hand (current_mode s) (count_fingers (Some l)) k
              Hm (count_fingers_le_5 _) Hk) as (a & Ha & Hne & Hin' & _).
  exists a. rewrite Hz, process_gesture_after_debounce by exact Ht. auto.
Qed.

Lemma X8_every_hand_in_view_gives_a_symbol_witness :
  let l := fun i : nat =>
             match i with
             | 8%nat => {| px := 0.5; py := 0.2 |}
             | 12%nat => {| px := 0.5; py := 0.2 |}
             | _ => {| px := 0.5; py := 0.5 |}
             end in
  exists a,
    process_gesture default init 10 (count_fingers (Some l)) (get_hand_zone l)
    = Action (Some a) /\
    nonempty a = true /\
    (a = " "%string \/ a = "BACKSPACE"%string \/ In a (symbols_of (current_mode init))).
Proof.
  apply (X8_every_hand_in_view_gives_a_symbol default init 10
           (fun i : nat =>
              match i with
              | 8%nat => {| px := 0.5; py := 0.2 |}
              | 12%nat => {| px := 0.5; py := 0.2 |}
              | _ => {| px := 0.5; py := 0.5 |}
              end)).
  - vm_compute. discriminate.
  - reflexivity.
  - reflexivity.
Defined.

Lemma str_in_In (x : string) (l : list string) : str_in x l = true -> In x l.
Proof.
  unfold str_in. intros H. apply existsb_exists in H.
  destruct H as (y & Hy & E). apply String.eqb_eq in E. subst. exact Hy.
Qed.

(** X9: nine entries of the tables are out of reach of the hand: five
    fingers in the top row are BACKSPACE in every mode, so the symbols
    the tables hold there (J K L, ~ ` ^, CAPS NUM SCROLL) are never
    returned for a finger count and zone read from a hand, in any mode
    and at any time. *)
Theorem X9_top_row_of_five_fingers_is_shadowed
    (cfg : config) (s : state) (t : Q) (l : landmarks) :
  Forall (fun a =>
            In a (symbols_of "LETTERS" ++ symbols_of "NUMBERS" ++ symbols_of "ACTIONS") /\
            process_gesture cfg s t (count_fingers (Some l)) (get_hand_zone l)
            <> Action (Some a))
         shadowed.
Proof.
  apply Forall_forall. intros a Ha. split.
  { cbn in Ha.
    repeat (destruct Ha as [<-|Ha]; [apply str_in_In; vm_compute; reflexivity|]).
    contradiction. }
  intros E.
  destruct (process_gesture_symbol_or_nothing cfg s t
              (count_fingers (Some l)) (get_hand_zone l)) as [H|H];
    rewrite H in E; [discriminate|]. clear H.
  destruct (get_hand_zone l) as [z|] eqn:Hz; [|discriminate].
  destruct (get_hand_zone_indexed l z Hz) as (k & Hk & -> & _).
  destruct (assoc String.eqb (current_mode s) character_maps) as [table|] eqn:Ht.
  - assert (Hm : str_in (current_mode s) ["LETTERS"; "NUMBERS"; "ACTIONS"]%string = true).
    { revert Ht. cbn.
      destruct (String.eqb (current_mode s) "LETTERS"); [reflexivity|].
      destruct (String.eqb (current_mode s) "NUMBERS"); [reflexivity|].
      destruct (String.eqb (current_mode s) "ACTIONS"); [reflexivity|discriminate]. }
    destruct (gesture_symbol_of_hand (current_mode s) (count_fingers (Some l)) k
                Hm (count_fingers_le_5 _) Hk) as (a' & Ha' & _ & _ & Hsh).
    rewrite Ha' in E. injection E as ->. contradiction.
  - (* no table: only the special gestures return *)
    revert E. unfold gesture_symbol. rewrite Ht.
    destruct (negb _); [discriminate|].
    destruct (_ =? 0)%nat; [intros [= <-]; vm_compute in Ha; intuition discriminate|].
    destruct (_ && _); [intros [= <-]; vm_compute in Ha; intuition discriminate|].
    discriminate.
Qed.

(** ** What one iteration can do *)

Lemma process_gesture_some cfg s t c z a :
  process_gesture cfg s t c z = Action (Some a) ->
  gesture_debounce cfg <= t - last_gesture_time s.
Proof.
  unfold process_gesture.
  destruct (Qlt_b (t - last_gesture_time s) (gesture_debounce cfg)) eqn:E;
    [discriminate|]. intros _. apply Qlt_b_false in E. lra.
Qed.

Lemma process_gesture_crash cfg s t c z key :
  process_gesture cfg s t c z = KeyError key ->
  assoc String.eqb (current_mode s) character_maps = None.
Proof.
  unfold process_gesture.
  repeat match goal with
  | |- context [if ?b then _ else _] => destruct b
  end; try discriminate.
  destruct (assoc String.eqb (current_mode s) character_maps) as [table|];
    [|reflexivity].
  destruct (assoc Nat.eqb c table); [|discriminate].
  destruct (_ <? _)%nat; discriminate.
Qed.

Lemma execute_action_calls k action s :
  (List.length (snd (execute_action k action s)) <= 1)%nat.
Proof.
  unfold execute_action, attempt.
  repeat match goal with
  | |- context [if ?b then _ else _] => destruct b
  | |- context [match ?k ?c with Ok => _ | FailSafe => _ | Failure => _ end] =>
      destruct (k c)
  end; cbn; lia.
Qed.

Lemma type_gesture_outcome cfg f c z s :
  let r := type_gesture cfg f c z s in
  modal s r /\ (quiet s r \/ crashed s r \/ typed cfg f s r).
Proof.
  cbv zeta. unfold type_gesture, modal, quiet, crashed, typed.
  destruct (typing_enabled s) eqn:Hte; cbn [andb];
    [|fields; repeat split; auto].
  destruct (both_hands_open (f_hands f)) eqn:Hb; cbn [negb];
    [fields; repeat split; auto|].
  destruct (process_gesture cfg s (t_gesture f) c z) as [[a|]|key] eqn:Hp.
  - destruct (nonempty a); [|fields; repeat split; auto].
    pose proof (execute_action_calls (f_sink f) a s) as Hlen.
    destruct (execute_action_effect (f_sink f) a s) as [t Ht].
    destruct (execute_action (f_sink f) a s) as [s' calls]. cbn in Ht, Hlen.
    subst s'. destruct s; fields. repeat split; auto.
    right; right. repeat split; auto.
    + apply (process_gesture_some _ _ _ _ _ _ Hp).
    + eauto.
  - fields. repeat split; auto.
  - fields. repeat split; auto. right; left. repeat split; auto.
    apply (process_gesture_crash _ _ _ _ _ _ Hp).
Qed.

Lemma track_hands_outcome cfg f s :
  let r := track_hands cfg f s in
  modal s r /\ (quiet s r \/ crashed s r \/ typed cfg f s r).
Proof.
  cbv zeta. unfold track_hands.
  destruct (f_hands f) as [|h hs] eqn:Hh.
  - unfold modal, quiet. destruct s; fields. repeat split; auto.
  - cbv zeta.
    repeat match goal with
    | |- context [if ?b then _ else _] => destruct b
    end;
    try (unfold modal, quiet; destruct s; fields; repeat split; auto; fail).
    match goal with
    | |- context [type_gesture cfg f ?c ?z ?s'] =>
        pose proof (type_gesture_outcome cfg f c z s') as Ho
    end.
    cbv zeta in Ho.
    unfold modal, quiet, crashed, typed in *. destruct s; fields. exact Ho.
Qed.

Lemma handle_mode_change_outcome f s :
  let r := handle_mode_change f s in
  r_status r = Running /\
  typing_enabled (r_state r) = typing_enabled s /\
  current_text (r_state r) = current_text s /\
  ((r_events r = [] /\ r_state r = s) \/
   (both_hands_open (f_hands f) = true /\ 2.0 < t_mode f - last_gesture_time s /\
    last_gesture_time (r_state r) = t_mode_set f /\
    exists m, r_events r = [ModeChanged m])).
Proof.
  cbv zeta. unfold handle_mode_change.
  destruct (both_hands_open (f_hands f)); cbn [andb]; [|fields; auto 6].
  destruct (Qgt_b (t_mode f - last_gesture_time s) 2.0) eqn:E; [|fields; auto 6].
  apply Qgt_b_true in E. unfold change_mode. destruct s; fields.
  repeat split; auto. right. repeat split; eauto.
Qed.

Lemma handle_key_outcome f s :
  let r := handle_key f s in
  r_status r <> Crashed /\
  last_gesture_time (r_state r) = last_gesture_time s /\
  (f_key f <> KeyT -> typing_enabled (r_state r) = typing_enabled s) /\
  actions_of (r_events r) = [] /\ sinks_of (r_events r) = [] /\
  List.length (mode_changes_of (r_events r))
  = match f_key f with KeyM => 1%nat | _ => 0%nat end.
Proof.
  cbv zeta. unfold handle_key, change_mode.
  destruct (f_key f); destruct s; fields; cbn;
    repeat split; auto; try discriminate; congruence.
Qed.

Lemma sinks_of_app e1 e2 : sinks_of (e1 ++ e2) = sinks_of e1 ++ sinks_of e2.
Proof. apply flat_map_app. Qed.

Lemma mode_changes_of_app e1 e2 :
  mode_changes_of (e1 ++ e2) = mode_changes_of e1 ++ mode_changes_of e2.
Proof. apply flat_map_app. Qed.

Lemma sinks_of_typed calls a :
  sinks_of (map Sink calls ++ [ActionDone a]) = calls.
Proof.
  rewrite sinks_of_app. cbn. rewrite app_nil_r.
  induction calls as [|c cs IH]; [reflexivity|]. cbn. f_equal. exact IH.
Qed.

Lemma mode_changes_of_typed calls a :
  mode_changes_of (map Sink calls ++ [ActionDone a]) = [].
Proof.
  rewrite mode_changes_of_app. cbn. rewrite app_nil_r.
  induction calls as [|c cs IH]; [reflexivity|]. cbn. exact IH.
Qed.

(** The events of an iteration, stage by stage. *)
Lemma iteration_events cfg f s :
  let r1 := track_hands cfg f s in
  let r2 := handle_mode_change f (r_state r1) in
  let r3 := handle_key f (r_state r2) in
  (r_status r1 = Running ->
     r_status (iteration cfg f s) = r_status r3 /\
     r_state (iteration cfg f s) = r_state r3 /\
     r_events (iteration cfg f s) = (r_events r1 ++ r_events r2) ++ r_events r3) /\
  (r_status r1 <> Running -> iteration cfg f s = r1).
Proof.
  cbv zeta. unfold iteration.
  destruct (handle_mode_change_outcome f (r_state (track_hands cfg f s)))
    as (H2 & _).
  split; intros H1.
  - unfold andthen.
    repeat (rewrite ?H1, ?H2; cbn [r_status r_state r_events]). auto.
  - unfold andthen.
    destruct (r_status (track_hands cfg f s)) eqn:E; [congruence| |];
      rewrite E; reflexivity.
Qed.

(** X10: one iteration does at most one thing by gesture: it executes at
    most one action, with at most one sink call, or changes the mode once,
    never both; only the key [m] adds a mode change of its own. *)
Theorem X10_one_gesture_effect_per_iteration
    (cfg : config) (f : frame) (s : state) :
  let evs := r_events (iteration cfg f s) in
  (List.length (actions_of evs) + List.length (mode_changes_of evs)
   <= match f_key f with KeyM => 2 | _ => 1 end)%nat /\
  (List.length (sinks_of evs) <= List.length (actions_of evs))%nat.
Proof.
  cbv zeta.
  destruct (iteration_events cfg f s) as [Hrun Hstop].
  destruct (track_hands_outcome cfg f s) as (_ & Ho).
  destruct (handle_mode_change_outcome f (r_state (track_hands cfg f s)))
    as (_ & _ & _ & Hm).
  destruct (handle_key_outcome f
              (r_state (handle_mode_change f (r_state (track_hands cfg f s)))))
    as (_ & _ & _ & Hka & Hks & Hkm).
  destruct Ho as [(H1 & He & _)|[(H1 & He & _)|(H1 & _ & Hb & _ & _ & a & calls & He & Hlen)]].
  - destruct (Hrun H1) as (_ & _ & ->). rewrite He. cbn [app].
    rewrite !actions_of_app, !mode_changes_of_app, !sinks_of_app, !length_app.
    rewrite Hka, Hks, Hkm.
    destruct Hm as [(-> & _)|(_ & _ & _ & m & ->)]; cbn; destruct (f_key f); lia.
  - rewrite Hstop by congruence. rewrite He. cbn. destruct (f_key f); lia.
  - pose proof (actions_of_sinks calls a) as A1.
    pose proof (sinks_of_typed calls a) as A2.
    pose proof (mode_changes_of_typed calls a) as A3.
    rewrite <- He in A1, A2, A3.
    destruct (Hrun H1) as (_ & _ & ->).
    rewrite !actions_of_app, !mode_changes_of_app, !sinks_of_app, !length_app.
    rewrite Hka, Hks, Hkm, A1, A2, A3.
    destruct Hm as [(-> & _)|(Hb' & _)]; [|congruence].
    cbn. destruct (f_key f); lia.
Qed.

(** ** Typing switched off *)

Lemma iteration_typing_off cfg f s :
  typing_enabled s = false -> f_key f <> KeyT ->
  let r := iteration cfg f s in
  r_status r <> Crashed /\ typing_enabled (r_state r) = false /\
  sinks_of (r_events r) = [] /\ actions_of (r_events r) = [].
Proof.
  intros Hoff Hkey. cbv zeta.
  destruct (iteration_events cfg f s) as [Hrun _].
  destruct (track_hands_outcome cfg f s) as ((Hte & _) & Ho).
  destruct (handle_mode_change_outcome f (r_state (track_hands cfg f s)))
    as (_ & Hte2 & _ & Hm).
  destruct (handle_key_outcome f
              (r_state (handle_mode_change f (r_state (track_hands cfg f s)))))
    as (Hkst & _ & Hkt & Hka & Hks & _).
  destruct Ho as [(H1 & He & _)|[(_ & _ & Hon & _)|(_ & Hon & _)]];
    try congruence.
  destruct (Hrun H1) as (-> & -> & ->). rewrite He. cbn [app].
  rewrite !actions_of_app, !sinks_of_app, Hka, Hks, !app_nil_r.
  rewrite (Hkt Hkey), Hte2, Hte.
  repeat split; auto;
    destruct Hm as [(-> & _)|(_ & _ & _ & m & ->)]; reflexivity.
Qed.

(** X11: while typing is switched off (and the key [t] is not pressed),
    the loop calls no sink, executes no action and cannot end by an
    exception: [process_gesture] is not reached, so not even the mode
    without a table can raise. *)
Theorem X11_typing_off_is_silent (cfg : config) (fs : list frame) (s : state) :
  typing_enabled s = false ->
  Forall (fun f => f_key f <> KeyT) fs ->
  let r := run cfg fs s in
  r_status r <> Crashed /\ typing_enabled (r_state r) = false /\
  sinks_of (r_events r) = [] /\ actions_of (r_events r) = [].
Proof.
  intros Hoff Hkeys. revert s Hoff.
  induction Hkeys as [|f fs Hkey _ IH]; intros s Hoff; cbv zeta.
  - cbn. repeat split; auto. discriminate.
  - destruct (iteration_typing_off cfg f s Hoff Hkey) as (Hst & Hte & Hsk & Hac).
    cbn [run]. unfold andthen.
    destruct (r_status (iteration cfg f s)) eqn:E;
      [|rewrite E; auto|congruence].
    destruct (IH _ Hte) as (Hst' & Hte' & Hsk' & Hac').
    cbn [r_status r_state r_events].
    rewrite sinks_of_app, actions_of_app, Hsk, Hac, Hsk', Hac'. auto.
Qed.

Lemma X11_typing_off_is_silent_witness :
  let r := run default (repeat (one_hand 10 1 "top_left") 10)
             (set_typing_enabled false symbols_state) in
  r_status r <> Crashed /\ typing_enabled (r_state r) = false /\
  sinks_of (r_events r) = [] /\ actions_of (r_events r) = [].
Proof.
  apply (X11_typing_off_is_silent default (repeat (one_hand 10 1 "top_left") 10)
           (set_typing_enabled false symbols_state)).
  - reflexivity.
  - repeat constructor; discriminate.
Defined.

(** ** The gesture clock *)

(** What an iteration does to [last_gesture_time], read off its stamp. *)
Lemma iteration_stamp cfg f s :
  match stamp_of cfg f s with
  | Some (kind, tested, stored) =>
      match kind with
      | Typed => gesture_debounce cfg <= tested - last_gesture_time s
      | Cycled => 2.0 < tested - last_gesture_time s
      end /\
      (r_status (iteration cfg f s) = Running ->
       last_gesture_time (r_state (iteration cfg f s)) = stored)
  | None =>
      r_status (iteration cfg f s) = Running ->
      last_gesture_time (r_state (iteration cfg f s)) = last_gesture_time s
  end.
Proof.
  unfold stamp_of.
  destruct (iteration_events cfg f s) as [Hrun Hstop].
  destruct (track_hands_outcome cfg f s) as (_ & Ho).
  destruct (handle_mode_change_outcome f (r_state (track_hands cfg f s)))
    as (_ & _ & _ & Hm).
  destruct (handle_key_outcome f
              (r_state (handle_mode_change f (r_state (track_hands cfg f s)))))
    as (_ & Hkt & _).
  destruct Ho as [(H1 & He & Ht & _)|[(H1 & _)|(H1 & _ & Hb & Hd & Ht & a & calls & He & _)]].
  - rewrite H1, He. cbn [actions_of flat_map].
    destruct (Hrun H1) as (_ & -> & _). rewrite Hkt.
    destruct Hm as [(-> & ->)|(_ & Hgap & Hset & m & ->)]; cbn.
    + intros _. exact Ht.
    + rewrite <- Ht. auto.
  - rewrite H1. rewrite Hstop by congruence. rewrite H1. discriminate.
  - rewrite H1, He, actions_of_sinks.
    destruct (Hrun H1) as (_ & -> & _). rewrite Hkt.
    destruct Hm as [(_ & ->)|(Hb' & _)]; [|congruence]. auto.
Qed.

(** X12: through any run, whatever the sink does and whichever keys are
    pressed, [last_gesture_time] paces the gestures: every executed action
    comes at least [gesture_debounce] after the clock reading stored by
    the action or gesture mode change before it, every mode change by the
    two-hands-open gesture more than 2.0 s after it. *)
Theorem X12_gesture_clock_paces_actions_and_mode_changes
    (cfg : config) (fs : list frame) (s : state) :
  timeline cfg (last_gesture_time s) (stamps cfg fs s).
Proof.
  revert s. induction fs as [|f fs IH]; intros s; [exact I|].
  cbn [stamps].
  pose proof (iteration_stamp cfg f s) as Hst.
  destruct (stamp_of cfg f s) as [[[kind tested] stored]|]; cbn [app].
  - destruct Hst as [Hgap Hset]. cbn [timeline]. split; [exact Hgap|].
    destruct (r_status (iteration cfg f s)); [|exact I|exact I].
    rewrite <- (Hset eq_refl). apply IH.
  - destruct (r_status (iteration cfg f s)); [|exact I|exact I].
    rewrite <- (Hst eq_refl). apply IH.
Qed.

(** A run with a gesture held for 3 s: it is typed once; two open hands
    then cycle the mode every 2 s or so. *)
Example stamps_of_a_session :
  stamps default
    (map (fun i => one_hand (10 + inject_Z (Z.of_nat i) * 0.25) 1 "top_left") (seq 0 12)
     ++ map (fun i => two_open_hands (13 + inject_Z (Z.of_nat i) * 0.75) "mid_center")
            (seq 0 8))
    after_two_fingers
  = [(Typed, 10 + 9 * 0.25, 10 + 9 * 0.25);
     (Cycled, 13 + 2 * 0.75, 13 + 2 * 0.75);
     (Cycled, 13 + 5 * 0.75, 13 + 5 * 0.75)].
Proof. vm_compute. reflexivity. Qed.

(** ** [execute_action] and the preview text *)

Lemma drop_last_app_char t c :
  drop_last (t ++ String c EmptyString) = t.
Proof.
  induction t as [|d t IH]; [reflexivity|].
  cbn [String.append]. cbn [drop_last]. rewrite IH.
  destruct (t ++ String c EmptyString)%string eqn:E;
    [destruct t; discriminate|reflexivity].
Qed.

Lemma drop_last_app_two t c d :
  drop_last (t ++ String c (String d EmptyString)) = (t ++ String c EmptyString)%string.
Proof.
  induction t as [|e t IH]; [reflexivity|].
  cbn [String.append]. cbn [drop_last]. rewrite IH.
  destruct (t ++ String c (String d EmptyString))%string eqn:E;
    [destruct t; discriminate|reflexivity].
Qed.

Lemma nonempty_app_char t u : nonempty u = true -> nonempty (t ++ u) = true.
Proof. destruct t; [trivial|reflexivity]. Qed.

(** X13: with a sink that does not fail, BACKSPACE undoes a typed
    character in the preview text; after ENTER or TAB, which store a
    backslash and a letter for their one key press, it leaves the
    backslash behind. *)
Theorem X13_backspace_undoes_one_character
    (k1 k2 : sink) (a : string) (s : state) :
  (forall c, k1 c = Ok) -> (forall c, k2 c = Ok) ->
  let text_after :=
    current_text (fst (execute_action k2 "BACKSPACE" (fst (execute_action k1 a s)))) in
  (String.length a = 1%nat -> text_after = current_text s) /\
  (a = "ENTER"%string \/ a = "TAB"%string ->
   text_after = (current_text s ++ str1 backslash)%string).
Proof.
  intros H1 H2. cbv zeta. split.
  - intros Hlen. destruct a as [|c [|d a]]; try discriminate. clear Hlen.
    assert (Hstep : current_text (fst (execute_action k1 (String c EmptyString) s))
                    = (current_text s ++ String c EmptyString)%string).
    { unfold execute_action, attempt, append_text. rewrite !H1.
      repeat match goal with
      | |- context [if ?b then _ else _] => destruct b eqn:?
      end; fields; cbn [fst]; fields; try reflexivity;
      try (match goal with
           | H : _ = true |- _ =>
               cbn in H;
               repeat match type of H with
                      | context [Ascii.eqb ?x ?y] => destruct (Ascii.eqb x y)
                      end;
               discriminate H
           | H : _ = false |- _ => cbn in H; discriminate H
           end).
      match goal with
      | H : String.eqb _ _ = true |- _ =>
          apply String.eqb_eq in H; injection H as ->; reflexivity
      end. }
    unfold execute_action at 1. cbn [String.eqb Ascii.eqb Bool.eqb].
    unfold attempt. rewrite H2. cbn [fst]. rewrite Hstep.
    rewrite nonempty_app_char by reflexivity. fields.
    apply drop_last_app_char.
  - intros [-> | ->]; unfold execute_action, attempt, append_text;
      cbn [String.eqb Ascii.eqb Bool.eqb str_in existsb orb];
      rewrite H1, H2; cbn [fst]; fields;
      (rewrite nonempty_app_char by reflexivity); fields;
      apply drop_last_app_two.
Qed.

Lemma X13_backspace_undoes_one_character_witness :
  current_text (fst (execute_action reliable "BACKSPACE"
                       (fst (execute_action reliable "a" init))))
  = current_text init /\
  current_text (fst (execute_action reliable "BACKSPACE"
                       (fst (execute_action reliable "TAB" init))))
  = (current_text init ++ str1 backslash)%string.
Proof.
  split.
  - apply (proj1 (X13_backspace_undoes_one_character reliable reliable "a" init
                    (fun _ => eq_refl) (fun _ => eq_refl))).
    reflexivity.
  - apply (proj2 (X13_backspace_undoes_one_character reliable reliable "TAB" init
                    (fun _ => eq_refl) (fun _ => eq_refl))).
    right. reflexivity.
Defined.

(** ENTER then BACKSPACE on the empty preview leaves one character. *)
Example enter_then_backspace :
  current_text (fst (execute_action reliable "BACKSPACE"
                       (fst (execute_action reliable "ENTER" init))))
  = str1 backslash.
Proof. reflexivity. Qed.

(** X14: what the entries of the tables do when executed, whatever the
    sink answers: every entry of the LETTERS and NUMBERS tables is typed
    with one [typewrite] call; of the 45 entries of the ACTIONS table, the
    22 of [inert_actions] call nothing and change nothing, the others make
    exactly one call. *)
Theorem X14_what_the_table_entries_do (k : sink) (s : state) :
  Forall (fun a => snd (execute_action k a s) = [Typewrite a])
         (symbols_of "LETTERS" ++ symbols_of "NUMBERS") /\
  Forall (fun a =>
            if str_in a inert_actions then execute_action k a s = (s, [])
            else exists c, snd (execute_action k a s) = [c])
         (symbols_of "ACTIONS") /\
  List.length (filter (fun a => str_in a inert_actions) (symbols_of "ACTIONS")) = 22%nat.
Proof.
  split; [|split; [|reflexivity]].
  - cbn [symbols_of assoc character_maps String.eqb Ascii.eqb Bool.eqb
         flat_map snd app].
    repeat (apply Forall_cons;
      [vm_compute; match goal with |- context [k ?c] => destruct (k c) end;
       reflexivity|]).
    apply Forall_nil.
  - cbn [symbols_of assoc character_maps String.eqb Ascii.eqb Bool.eqb
         flat_map snd app].
    repeat (apply Forall_cons;
      [vm_compute;
       try match goal with |- context [k ?c] => destruct (k c) end;
       first [reflexivity | eexists; reflexivity]|]).
    apply Forall_nil.
Qed.

(** ** A frame without the hand *)

(** A frame without a hand and without a key resets the confirmation and
    keeps the two histories. *)
Lemma iteration_no_hand cfg f s :
  f_hands f = [] -> f_key f = NoKey ->
  let r := iteration cfg f s in
  r_status r = Running /\ r_events r = [] /\
  typing_view (r_state r) = typing_view s /\
  finger_count_history (r_state r) = finger_count_history s /\
  zone_history (r_state r) = zone_history s /\
  gesture_confirmed (r_state r) = false /\
  confirmation_frames (r_state r) = 0%nat.
Proof.
  intros Hh Hk. cbv zeta.
  unfold iteration, track_hands, handle_mode_change, handle_key, andthen.
  rewrite Hh, Hk. destruct s; cbn. auto 10.
Qed.

(** X15: the branch for a frame without hands resets the confirmation
    but not the histories.  So when a held gesture is lost for one frame,
    the frames that follow need not rebuild the agreement of the last
    three samples: the gesture is typed again at the
    [required_confirmation]-th frame after the loss (two frames earlier
    than after a differing gesture), and not before. *)
Theorem X15_hand_lost_for_a_frame_retypes_the_gesture
    (cfg : config) (s : state) (c : nat) (z : option string) (a : string)
    (f0 : frame) (pre : list frame) (f : frame) :
  typing_enabled s = true ->
  primed c z s ->
  f_hands f0 = [] -> f_key f0 = NoKey ->
  Forall (stable_frame c z) (pre ++ [f]) ->
  (List.length pre + 1 = required_confirmation cfg)%nat ->
  process_gesture cfg s (t_gesture f) c z = Action (Some a) ->
  nonempty a = true ->
  actions_of (r_events (run cfg (f0 :: pre) s)) = [] /\
  actions_of (r_events (run cfg (f0 :: pre ++ [f]) s)) = [a].
Proof.
  intros Hty Hp Hh Hk Hall Hlen Hpg Ha.
  apply Forall_app in Hall. destruct Hall as [Hpre Hf].
  inversion Hf as [|? ? Hf' _]; subst.
  destruct (iteration_no_hand cfg f0 s Hh Hk)
    as (Hst0 & Hev0 & Hv0 & Hc0 & Hz0 & Hconf0 & Hcf0).
  set (s0 := r_state (iteration cfg f0 s)) in *.
  assert (Hp0 : primed c z s0).
  { destruct Hp as (tc & tz & Hc & Hz). exists tc, tz.
    rewrite Hc0, Hz0. auto. }
  destruct (counting_phase cfg c z pre Hpre s0 Hp0 Hconf0 ltac:(lia))
    as (s1 & Hrun & Hv1 & Hp1 & Hconf1 & Hcf1).
  assert (Hv : typing_view s1 = typing_view s) by congruence.
  assert (Hty1 : typing_enabled s1 = true).
  { unfold typing_view in Hv. injection Hv as -> _ _. exact Hty. }
  rewrite <- (process_gesture_view cfg s s1 _ _ _ Hv) in Hpg.
  destruct (track_hands_confirming cfg c z f s1 a Hp1 Hf' Hconf1 ltac:(lia)
              Hty1 Hpg Ha) as (Hst & Hact & _).
  rewrite <- (iteration_stable_frame cfg c z f s1 Hf') in Hst, Hact.
  split.
  - rewrite (run_quiet cfg f0) by assumption. fold s0.
    rewrite <- (app_nil_r pre), Hrun. reflexivity.
  - rewrite (run_quiet cfg f0) by assumption. fold s0.
    rewrite Hrun. destruct (run_loud cfg f [] s1 Hst) as [_ ->].
    rewrite actions_of_app, Hact. reflexivity.
Qed.

Lemma X15_hand_lost_for_a_frame_retypes_the_gesture_witness :
  actions_of (r_events (run default
     (no_hand 12 :: map (fun i => one_hand (12 + inject_Z (Z.of_nat i) * 0.04) 1 "top_left")
                        (seq 1 7)) holding)) = [] /\
  actions_of (r_events (run default
     (no_hand 12 :: map (fun i => one_hand (12 + inject_Z (Z.of_nat i) * 0.04) 1 "top_left")
                        (seq 1 7) ++ [one_hand 12.32 1 "top_left"]) holding))
  = ["a"%string].
Proof.
  apply (X15_hand_lost_for_a_frame_retypes_the_gesture default holding
           1%nat (Some "top_left"%string) "a"%string (no_hand 12)
           (map (fun i => one_hand (12 + inject_Z (Z.of_nat i) * 0.04) 1 "top_left")
                (seq 1 7))
           (one_hand 12.32 1 "top_left")).
  - reflexivity.
  - exists [1; 1; 1]%nat,
      [Some "top_left"; Some "top_left"; Some "top_left"]%string.
    split; reflexivity.
  - reflexivity.
  - reflexivity.
  - repeat constructor; exists []; reflexivity.
  - reflexivity.
  - vm_compute. reflexivity.
  - reflexivity.
Defined.

(** ** The text panel *)

Lemma append_empty_r (s : string) : (s ++ EmptyString)%string = s.
Proof. induction s as [|c s IH]; [reflexivity|]. cbn. rewrite IH. reflexivity. Qed.

Lemma append_assoc (a b c : string) : ((a ++ b) ++ c = a ++ (b ++ c))%string.
Proof. induction a as [|x a IH]; [reflexivity|]. cbn. rewrite IH. reflexivity. Qed.

Lemma unspaced_app (a b : string) :
  unspaced (a ++ b) = (unspaced a ++ unspaced b)%string.
Proof.
  induction a as [|c a IH]; [reflexivity|]. cbn.
  destruct (Ascii.eqb c " "); [exact IH|]. cbn. rewrite IH. reflexivity.
Qed.

Lemma joined_app (l1 l2 : list string) :
  joined (l1 ++ l2) = (joined l1 ++ joined l2)%string.
Proof.
  unfold joined. induction l1 as [|x l1 IH]; [reflexivity|].
  cbn [app fold_right]. rewrite IH. symmetry. apply append_assoc.
Qed.

(** The words [split] returns hold no space, and together all the other
    characters of the text. *)
Lemma split_on_words (s : string) :
  Forall (fun w => has_space w = false) (split_on " " s) /\
  unspaced (joined (split_on " " s)) = unspaced s.
Proof.
  induction s as [|c r [IHw IHu]]; [split; [repeat constructor|reflexivity]|].
  cbn [split_on unspaced]. destruct (Ascii.eqb c " ") eqn:E.
  - split; [constructor; [reflexivity|exact IHw]|exact IHu].
  - destruct (split_on " " r) as [|w ws].
    + split; [repeat constructor; cbn; rewrite E; reflexivity|].
      cbn in *. rewrite E, <- IHu. reflexivity.
    + inversion IHw as [|? ? Hw Hws]; subst. split.
      * constructor; [cbn; rewrite E; exact Hw|exact Hws].
      * cbn in *. rewrite E, <- IHu. reflexivity.
Qed.

(** What the word loop keeps true of the lines and the line in progress. *)
Lemma wrap_word_invariant (lines : list string) (cur word : string) :
  has_space word = false ->
  Forall fits lines -> fits cur ->
  Forall (fun l => nonempty l = true) lines ->
  let '(lines', cur') := wrap_word 60 (lines, cur) word in
  Forall fits lines' /\ fits cur' /\
  Forall (fun l => nonempty l = true) lines' /\
  unspaced (joined lines' ++ cur')
  = (unspaced (joined lines ++ cur) ++ unspaced word)%string.
Proof.
  intros Hw Hl Hc Hn. unfold wrap_word.
  destruct (nonempty cur) eqn:Hcur.
  - destruct (60 <? _)%nat eqn:Hlim.
    + repeat split.
      * apply Forall_app. split; [exact Hl|constructor; [exact Hc|constructor]].
      * right. exact Hw.
      * apply Forall_app. split; [exact Hn|constructor; [exact Hcur|constructor]].
      * rewrite joined_app. cbn [joined fold_right].
        rewrite append_empty_r, !unspaced_app. reflexivity.
    + apply Nat.ltb_ge in Hlim. repeat split; auto.
      * left. exact Hlim.
      * rewrite !unspaced_app. change (unspaced " ") with EmptyString.
        cbn [String.append]. rewrite append_assoc. reflexivity.
  - destruct cur; [|discriminate].
    destruct (60 <? _)%nat eqn:Hlim.
    + repeat split; auto.
      * right. exact Hw.
      * rewrite append_empty_r, unspaced_app. reflexivity.
    + apply Nat.ltb_ge in Hlim. repeat split; auto.
      * left. exact Hlim.
      * rewrite append_empty_r, unspaced_app. reflexivity.
Qed.

Lemma wrap_loop_invariant (words : list string) :
  Forall (fun w => has_space w = false) words ->
  forall lines cur,
    Forall fits lines -> fits cur ->
    Forall (fun l => nonempty l = true) lines ->
    let '(lines', cur') := fold_left (wrap_word 60) words (lines, cur) in
    Forall fits lines' /\ fits cur' /\
    Forall (fun l => nonempty l = true) lines' /\
    unspaced (joined lines' ++ cur')
    = (unspaced (joined lines ++ cur) ++ unspaced (joined words))%string.
Proof.
  induction 1 as [|w ws Hw _ IH]; intros lines cur Hl Hc Hn.
  - cbn. rewrite append_empty_r. auto.
  - cbn [fold_left].
    pose proof (wrap_word_invariant lines cur w Hw Hl Hc Hn) as Hstep.
    destruct (wrap_word 60 (lines, cur) w) as [lines1 cur1].
    destruct Hstep as (Hl1 & Hc1 & Hn1 & Hu1).
    specialize (IH lines1 cur1 Hl1 Hc1 Hn1).
    destruct (fold_left (wrap_word 60) ws (lines1, cur1)) as [lines' cur'].
    destruct IH as (Hl' & Hc' & Hn' & Hu').
    repeat split; auto.
    rewrite Hu', Hu1.
    change (joined (w :: ws)) with (w ++ joined ws)%string.
    rewrite (unspaced_app w), append_assoc. reflexivity.
Qed.

(** X16: the word wrap of the text panel loses nothing but spaces and
    breaks no word: the lines, put end to end, hold the characters of the
    displayed text other than spaces, in order; no line is empty; every
    line has at most 60 characters unless it is a single word; and at most
    three lines are shown. *)
Theorem X16_word_wrap_keeps_the_text (text : string) :
  Forall fits (wrap_text text) /\
  Forall (fun l => nonempty l = true) (wrap_text text) /\
  unspaced (joined (wrap_text text)) = unspaced (display_text text) /\
  (List.length (shown_lines text) <= 3)%nat.
Proof.
  unfold wrap_text, shown_lines. fold (display_text text).
  destruct (split_on_words (display_text text)) as [Hw Hu].
  pose proof (wrap_loop_invariant _ Hw [] EmptyString
                (Forall_nil _) (or_introl (Nat.le_0_l _)) (Forall_nil _)) as Hloop.
  cbv zeta.
  destruct (fold_left (wrap_word 60) (split_on " " (display_text text))
              ([], EmptyString)) as [lines cur].
  destruct Hloop as (Hl & Hc & Hn & Hj). cbn in Hj. rewrite Hu in Hj.
  assert (Hlen : forall l : list string, (List.length (last_n 3 l) <= 3)%nat).
  { intros l. unfold last_n. rewrite length_skipn. lia. }
  destruct (nonempty cur) eqn:Hcur.
  - repeat split; [| | |apply Hlen].
    + apply Forall_app. split; [exact Hl|constructor; [exact Hc|constructor]].
    + apply Forall_app. split; [exact Hn|constructor; [exact Hcur|constructor]].
    + rewrite joined_app. cbn [joined fold_right]. rewrite append_empty_r. exact Hj.
  - destruct cur; [|discriminate]. rewrite append_empty_r in Hj.
    repeat split; auto.
Qed.

(** A text of two words that do not fit one line together. *)
Example wrap_of_two_long_words :
  let w := "0123456789012345678901234567890123456789"%string in
  wrap_text (w ++ " " ++ w) = [w; w] /\
  wrap_text "a  b" = ["a  b"%string] /\
  wrap_text " " = [].
Proof. vm_compute. auto. Qed.

End KeyboardMoreProps.

(** * Further properties of the on-screen keyboard *)
Module VirtualKeyboardMoreProps.
Import VirtualKeyboard VirtualKeyboardProps.

(** ** What one iteration hands to [type_key] *)

Lemma vk_selections_of_app e1 e2 :
  selections_of (e1 ++ e2) = selections_of e1 ++ selections_of e2.
Proof. apply flat_map_app. Qed.

Lemma vk_sinks_of_app e1 e2 : sinks_of (e1 ++ e2) = sinks_of e1 ++ sinks_of e2.
Proof. apply flat_map_app. Qed.

(** [type_key] hands nothing on, calls the sink at most once, and leaves
    the selection method alone. *)
Lemma type_key_quiet cfg k now label s :
  let r := type_key cfg k now label s in
  selection_method (r_state r) = selection_method s /\
  selections_of (r_events r) = [] /\
  (List.length (sinks_of (r_events r)) <= 1)%nat /\
  stamps_select cfg now s r.
Proof.
  cbv zeta. unfold type_key, stamps_select.
  destruct (Qlt_b (now - last_select_time s) (select_debounce cfg)) eqn:E.
  - fields. cbn. repeat split; auto.
  - apply Qlt_b_false in E.
    unfold type_key_body, type_key_finally, call.
    destruct s; fields.
    repeat match goal with
    | |- context [if ?b then _ else _] => destruct b
    | |- context [match ?k ?c with Ok => _ | FailSafe => _ | Failure => _ end] =>
        destruct (k c)
    end; fields; cbn; repeat split; auto; right; split; try reflexivity; lra.
Qed.

Lemma select_outcome cfg f label s hover :
  hover = Some label -> nonempty label = true ->
  let r := select cfg f label s in
  selects_at_most hover s r /\ stamps_select cfg (f_type_now f) s r.
Proof.
  intros Hh Hl. cbv zeta. unfold select, andthen. cbn [r_status r_state r_events].
  destruct (type_key_quiet cfg (f_sink f) (f_type_now f) label s)
    as (Hm & Hsel & Hsk & Hst).
  unfold selects_at_most, stamps_select in *. cbn [r_status r_state r_events app].
  change (selections_of (SelectKey label :: ?l)) with (label :: selections_of l).
  change (sinks_of (SelectKey label :: ?l)) with (sinks_of l).
  rewrite Hsel. repeat split; auto.
  right. exists label. auto.
Qed.

Lemma hovering_label (hover : option string) :
  hovering hover = true ->
  exists label, hover = Some label /\ nonempty label = true /\ label_of hover = label.
Proof. destruct hover as [l|]; [|discriminate]. cbn. eauto. Qed.

(** A step that hands nothing to [type_key]. *)
Lemma ret_outcome cfg now hover s s' :
  selection_method s' = selection_method s ->
  last_select_time s' = last_select_time s ->
  selects_at_most hover s (ret s') /\ stamps_select cfg now s (ret s').
Proof.
  intros Hm Ht. unfold selects_at_most, stamps_select. cbn. auto 10.
Qed.

(** A state update after a step. *)
Lemma andthen_ret_outcome cfg now hover s r (g : state -> state) :
  (forall x, selection_method (g x) = selection_method x) ->
  (forall x, last_select_time (g x) = last_select_time x) ->
  selects_at_most hover s r /\ stamps_select cfg now s r ->
  selects_at_most hover s (andthen r (fun x => ret (g x))) /\
  stamps_select cfg now s (andthen r (fun x => ret (g x))).
Proof.
  intros Hm Ht [Hsel Hst]. unfold andthen.
  destruct (r_status r) eqn:E; auto.
  unfold selects_at_most, stamps_select in *. cbn [r_status r_state r_events ret].
  rewrite app_nil_r, Hm, Ht. destruct Hsel as (H1 & H2 & H3). auto.
Qed.

Lemma dwell_selection_outcome cfg f h s :
  let r := dwell_selection cfg f h s in
  (selects_at_most (h_hover h) s r /\ stamps_select cfg (f_type_now f) s r) /\
  (selection_method s = Pinch ->
   r_events r = [] /\ last_select_time (r_state r) = last_select_time s).
Proof.
  cbv zeta. unfold dwell_selection.
  destruct (selection_method s) eqn:Hm; cbn [is_dwell andb].
  - destruct (hovering (h_hover h)) eqn:Hh.
    + destruct (hovering_label _ Hh) as (label & Hl & Hne & ->).
      split; [|discriminate].
      match goal with
      | |- context [select cfg f label ?t] => set (s1 := t) in *
      end.
      assert (Hs1 : selection_method s1 = selection_method s /\
                    last_select_time s1 = last_select_time s)
        by (subst s1; destruct (negb _); destruct s; split; reflexivity).
      clearbody s1. destruct Hs1 as [Hm1 Ht1].
      destruct (Qge_b _ _).
      * assert (Ho := select_outcome cfg f label s1 (h_hover h) Hl Hne).
        cbv zeta in Ho.
        pose proof (andthen_ret_outcome cfg (f_type_now f) (h_hover h) s1 _
                      (set_hover_started_at (f_now f))
                      (fun x => ltac:(destruct x; reflexivity))
                      (fun x => ltac:(destruct x; reflexivity)) Ho) as Ho'.
        unfold selects_at_most, stamps_select in *. rewrite Hm1, Ht1 in *.
        exact Ho'.
      * apply ret_outcome; assumption.
    + split; [|discriminate].
      apply ret_outcome; destruct s; reflexivity.
  - split; [|intros _; destruct s; split; reflexivity].
    apply ret_outcome; destruct s; reflexivity.
Qed.

Lemma pinch_selection_outcome cfg f h s :
  let r := pinch_selection cfg f h s in
  (selects_at_most (h_hover h) s r /\ stamps_select cfg (f_type_now f) s r) /\
  (selection_method s = Dwell -> r = ret s).
Proof.
  cbv zeta. unfold pinch_selection.
  destruct (selection_method s) eqn:Hm; cbn [is_pinch andb].
  - split; [|reflexivity]. apply ret_outcome; reflexivity.
  - split; [|discriminate].
    destruct (h_index_ext h); cbn [andb]; [|apply ret_outcome; reflexivity].
    destruct (hovering (h_hover h)) eqn:Hh; [|apply ret_outcome; reflexivity].
    destruct (hovering_label _ Hh) as (label & Hl & Hne & ->).
    destruct (pinch_active s).
    + destruct (Qgt_b _ _); [|apply ret_outcome; reflexivity].
      apply andthen_ret_outcome;
        [intros x; destruct x; reflexivity|intros x; destruct x; reflexivity|].
      apply select_outcome; assumption.
    + destruct (Qlt_b _ _); apply ret_outcome; destruct s; reflexivity.
Qed.

Lemma track_hand_outcome cfg f s :
  let r := track_hand cfg f s in
  selects_at_most (match f_hand f with Some h => h_hover h | None => None end) s r /\
  stamps_select cfg (f_type_now f) s r.
Proof.
  cbv zeta. unfold track_hand.
  destruct (f_hand f) as [h|]; [|apply ret_outcome; reflexivity].
  destruct (dwell_selection_outcome cfg f h s) as ((Hd & Hdt) & Hdp).
  set (r1 := dwell_selection cfg f h s) in *.
  unfold andthen. destruct (r_status r1) eqn:E1; auto.
  destruct (pinch_selection_outcome cfg f h (r_state r1)) as ((Hp & Hpt) & Hpd).
  set (r2 := pinch_selection cfg f h (r_state r1)) in *.
  destruct Hd as (Hm1 & Hk1 & Hs1). specialize (Hm1 E1).
  destruct (selection_method s) eqn:Hm.
  - (* dwell: the pinch stage does nothing *)
    rewrite (Hpd Hm1). unfold selects_at_most, stamps_select.
    cbn [r_status r_state r_events ret]. rewrite !app_nil_r, Hm. auto.
  - (* pinch: the dwell stage hands nothing on *)
    destruct (Hdp eq_refl) as [Hev1 Ht1].
    destruct Hp as (Hm2 & Hk2 & Hs2).
    unfold selects_at_most, stamps_select in *.
    cbn [r_status r_state r_events].
    rewrite Hev1. cbn [app].
    rewrite Hm1 in Hm2. rewrite Ht1 in Hpt. rewrite Hm. auto.
Qed.

Lemma handle_key_silent f s :
  let r := handle_key f s in
  r_events r = [] /\ last_select_time (r_state r) = last_select_time s.
Proof.
  cbv zeta. unfold handle_key. destruct (f_key f); destruct s; split; reflexivity.
Qed.

Lemma iteration_outcome cfg f s :
  let r := iteration cfg f s in
  r_events r = r_events (track_hand cfg f s) /\
  (r_status r = Running ->
   r_status (track_hand cfg f s) = Running /\
   last_select_time (r_state r) = last_select_time (r_state (track_hand cfg f s))).
Proof.
  cbv zeta. unfold iteration, andthen.
  destruct (handle_key_silent f (r_state (track_hand cfg f s))) as [He Ht].
  destruct (r_status (track_hand cfg f s)) eqn:E.
  - cbn [r_status r_state r_events]. rewrite He, app_nil_r. auto.
  - rewrite E. split; [reflexivity|discriminate].
  - rewrite E. split; [reflexivity|discriminate].
Qed.

(** X17: one iteration hands at most one key to [type_key], the key under
    the fingertip, and calls the sink at most once: dwell and pinch
    selection exclude each other, the method being switched only after
    both. *)
Theorem X17_one_key_per_iteration (cfg : config) (f : frame) (s : state) :
  let evs := r_events (iteration cfg f s) in
  (List.length (sinks_of evs) <= List.length (selections_of evs) <= 1)%nat /\
  (selections_of evs = [] \/
   exists h label,
     f_hand f = Some h /\ h_hover h = Some label /\ nonempty label = true /\
     selections_of evs = [label]).
Proof.
  cbv zeta. destruct (iteration_outcome cfg f s) as [-> _].
  destruct (track_hand_outcome cfg f s) as ((_ & Hk & Hs) & _).
  destruct Hs as [Hs|(label & Hh & Hne & Hs)]; rewrite Hs in *.
  - split; [cbn in *; lia|]. left. reflexivity.
  - split; [cbn in *; lia|]. right.
    destruct (f_hand f) as [h|]; [|discriminate].
    exists h, label. auto.
Qed.

(** ** The debounce of [type_key] *)

Lemma sink_times_spaced cfg :
  0 <= select_debounce cfg ->
  forall fs s t,
    t <= last_select_time s ->
    spaced (select_debounce cfg) t (sink_times cfg fs s).
Proof.
  intros Hgap. induction fs as [|f fs IH]; intros s t Ht; [exact I|].
  cbn [sink_times]. unfold calls_sink.
  destruct (iteration_outcome cfg f s) as [Hev Hrun]. rewrite Hev.
  destruct (track_hand_outcome cfg f s) as (_ & Hst).
  destruct Hst as [[Hsame Hnone]|[Hge Hset]].
  - rewrite Hnone. cbn [app].
    destruct (r_status (iteration cfg f s)) eqn:E; [|exact I|exact I].
    destruct (Hrun eq_refl) as [_ Hl]. apply IH. rewrite Hl, Hsame. exact Ht.
  - assert (Hrest : forall t', t' <= f_type_now f ->
              spaced (select_debounce cfg) t'
                match r_status (iteration cfg f s) with
                | Running => sink_times cfg fs (r_state (iteration cfg f s))
                | _ => []
                end).
    { intros t' Ht'. destruct (r_status (iteration cfg f s)) eqn:E; [|exact I|exact I].
      destruct (Hrun eq_refl) as [_ Hl]. apply IH. rewrite Hl, Hset. exact Ht'. }
    destruct (sinks_of _); cbn [app].
    + apply Hrest. lra.
    + split; [lra|]. apply Hrest. lra.
Qed.

(** X18: through any run, whatever the hand, the keys and the sink do,
    two iterations that call the sink are at least [select_debounce]
    apart on the clock of [type_key], and the first at least
    [select_debounce] after the initial [last_select_time]. *)
Theorem X18_sink_calls_are_a_debounce_apart
    (cfg : config) (fs : list frame) (s : state) :
  0 <= select_debounce cfg ->
  spaced (select_debounce cfg) (last_select_time s) (sink_times cfg fs s).
Proof.
  intros Hgap. apply sink_times_spaced; [exact Hgap|lra].
Qed.

Lemma X18_sink_calls_are_a_debounce_apart_witness :
  spaced (select_debounce default) (last_select_time init)
    (sink_times default
       [hover_frame 5.0 "A"; hover_frame 5.75 "A"; hover_frame 6.0 "B";
        hover_frame 6.75 "B"; hover_frame 7.5 "B"] init).
Proof.
  apply (X18_sink_calls_are_a_debounce_apart default
           [hover_frame 5.0 "A"; hover_frame 5.75 "A"; hover_frame 6.0 "B";
            hover_frame 6.75 "B"; hover_frame 7.5 "B"] init).
  vm_compute. discriminate.
Defined.

Example sink_times_of_a_hover :
  sink_times default
    [hover_frame 5.0 "A"; hover_frame 5.75 "A"; hover_frame 6.0 "B";
     hover_frame 6.75 "B"; hover_frame 7.5 "B"] init
  = [5.75; 6.75; 7.5].
Proof. vm_compute. reflexivity. Qed.

(** ** The preview buffer *)

Lemma length_substring_le (m n : nat) (s : string) :
  (String.length (substring m n s) <= n)%nat.
Proof.
  revert m n. induction s as [|c s IH]; intros m n.
  - destruct m, n; cbn; lia.
  - destruct m as [|m]; [destruct n as [|n]|]; cbn; [lia| |apply IH].
    specialize (IH 0%nat n). lia.
Qed.

Lemma length_str_last (n : nat) (s : string) :
  (1 <= n)%nat -> (String.length (str_last n s) <= n)%nat.
Proof.
  intros Hn. unfold str_last.
  destruct (n =? 0)%nat eqn:E; [apply Nat.eqb_eq in E; lia|].
  apply length_substring_le.
Qed.

Lemma length_append (a b : string) :
  String.length (a ++ b) = (String.length a + String.length b)%nat.
Proof. induction a as [|c a IH]; [reflexivity|]. cbn. rewrite IH. reflexivity. Qed.

Lemma type_key_finally_preview label s :
  preview_text (type_key_finally label s) = preview_text s.
Proof.
  unfold type_key_finally. destruct (_ && _); destruct s; reflexivity.
Qed.

(** X19: a character key cuts the preview to its last [preview_max]
    characters, but Tab, Enter and Space do not: each adds its character
    whatever the length, so the preview is not bounded by [preview_max]. *)
Theorem X19_only_character_keys_cap_the_preview
    (cfg : config) (k : sink) (now : Q) (label : string) (s : state) :
  processed cfg now s ->
  (forall c, k c = Ok) ->
  let s' := r_state (type_key cfg k now label s) in
  (String.length label = 1%nat -> (1 <= preview_max cfg)%nat ->
   (String.length (preview_text s') <= preview_max cfg)%nat) /\
  (label = "Tab"%string \/ label = "Enter"%string \/ label = "Space"%string ->
   String.length (preview_text s') = (String.length (preview_text s) + 1)%nat).
Proof.
  intros Hp Hk. cbv zeta. rewrite (type_key_processed cfg k now label s Hp).
  cbv zeta. cbn [r_state]. rewrite type_key_finally_preview. split.
  - intros Hl Hmax. unfold type_key_body, str_in, existsb.
    rewrite !(one_char_not_named label) by (assumption || (cbn; lia)).
    cbn [orb]. rewrite Hl. cbn [Nat.eqb]. unfold call. rewrite Hk.
    cbn [r_state]. destruct s; fields. apply length_str_last. exact Hmax.
  - intros [-> |[-> | ->]]; unfold type_key_body, call;
      cbn [String.eqb Ascii.eqb Bool.eqb]; rewrite Hk; cbn [r_state];
      destruct s; fields; rewrite length_append; reflexivity.
Qed.

Lemma X19_only_character_keys_cap_the_preview_witness :
  (String.length (preview_text (r_state (type_key default reliable 1 "a" full_preview)))
   <= preview_max default)%nat /\
  String.length (preview_text (r_state (type_key default reliable 1 "Space" full_preview)))
  = (String.length (preview_text full_preview) + 1)%nat.
Proof.
  assert (Hp : processed default 1 full_preview)
    by (unfold processed; vm_compute; discriminate).
  split.
  - apply (proj1 (X19_only_character_keys_cap_the_preview default reliable 1 "a"
                    full_preview Hp (fun _ => eq_refl))).
    + reflexivity.
    + cbn. lia.
  - apply (proj2 (X19_only_character_keys_cap_the_preview default reliable 1 "Space"
                    full_preview Hp (fun _ => eq_refl))).
    right. right. reflexivity.
Defined.

(** With the preview full, the space bar makes it one longer than
    [preview_max]; the next character key cuts it back. *)
Example preview_beyond_its_cap :
  let s1 := r_state (type_key default reliable 1 "Space" full_preview) in
  let s2 := r_state (type_key default reliable 2 "a" s1) in
  String.length (preview_text full_preview) = preview_max default /\
  String.length (preview_text s1) = 61%nat /\
  String.length (preview_text s2) = 60%nat.
Proof. vm_compute. auto. Qed.

(** ** One key, one character *)

Lemma length_str_map (g : ascii -> ascii) (s : string) :
  String.length (str_map g s) = String.length s.
Proof. induction s as [|c s IH]; [reflexivity|]. cbn. rewrite IH. reflexivity. Qed.

(** The shifted form of a single character is a single character. *)
Lemma length_shifted_char (c : ascii) :
  String.length (shifted_char (String c EmptyString)) = 1%nat.
Proof.
  destruct c as [[] [] [] [] [] [] [] []]; vm_compute; reflexivity.
Qed.

(** X20: a one-character key whose selection passes the debounce asks
    the sink for exactly one [typewrite], of exactly one character,
    whatever the modifiers: casing and [shifted_char] map a single
    character to a single character. *)
Theorem X20_one_character_key_types_one_character
    (cfg : config) (k : sink) (now : Q) (label : string) (s : state) :
  processed cfg now s ->
  String.length label = 1%nat ->
  exists out,
    sinks_of (r_events (type_key cfg k now label s)) = [Typewrite out] /\
    String.length out = 1%nat.
Proof.
  intros Hp Hl. rewrite (type_key_processed cfg k now label s Hp).
  cbv zeta. cbn [r_events]. rewrite (type_key_body_one_char cfg k label _ Hl).
  eexists. split; [reflexivity|].
  destruct (str_isalpha label).
  - destruct (xorb _ _); unfold str_upper, str_lower;
      rewrite length_str_map; exact Hl.
  - destruct (shift_latched _); [|exact Hl].
    destruct label as [|c [|d r]]; try discriminate.
    apply length_shifted_char.
Qed.

Lemma X20_one_character_key_types_one_character_witness :
  exists out,
    sinks_of (r_events (type_key default reliable 2 "/"
                          (r_state (type_key default reliable 1 "Shift" init))))
    = [Typewrite out] /\
    String.length out = 1%nat.
Proof.
  apply (X20_one_character_key_types_one_character default reliable 2 "/"
           (r_state (type_key default reliable 1 "Shift" init))).
  - unfold processed. vm_compute. discriminate.
  - reflexivity.
Defined.

End VirtualKeyboardMoreProps.
